(** * SplitMigrator: migrating a course from the legacy store to the split store

    A shallow embedding of
    [common/lib/xmodule/xmodule/modulestore/split_migrator.py] together with
    the part of its collaborators (identifiers, XBlock fields, the two
    modulestores) that the migrator calls. *)

From Stdlib Require Import String.
From stdpp Require Import base option list gmap strings fin_maps sorting.

Open Scope string_scope.
Open Scope list_scope.

(** ** Exceptions and fallible results *)

Inductive Exn :=
| DuplicateItemError
| ItemNotFoundError
| KeyError
| TypeError
| AttributeError.

Inductive result (A : Type) :=
| Ok (a : A)
| Raise (e : Exn).
Arguments Ok {A} a.
Arguments Raise {A} e.

Definition is_ok {A} (r : result A) : bool :=
  match r with Ok _ => true | Raise _ => false end.

(** A [for] loop over a list whose body may raise; the loop variables are
    threaded through as [s]. *)
Fixpoint for_in {A S : Type} (items : list A) (body : A → S → result S) (s : S)
  : result S :=
  match items with
  | [] => Ok s
  | x :: rest =>
      match body x s with
      | Ok s' => for_in rest body s'
      | Raise e => Raise e
      end
  end.

(** ** Identifiers *)

(** Modelled from the spec: the key classes of the opaque_keys package are
    not part of the excerpt.  A legacy course key is (org, course, run). *)
Module CourseKey.
Record t := mk { org : string; course : string; run : string }.
End CourseKey.

(** Modelled from the spec: a legacy content identifier is (course scope,
    category, block identifier). *)
Module Location.
Record t := mk {
    course_key : CourseKey.t;
    category : string;
    block_id : string
  }.
End Location.

(** Modelled from the spec: the new store addresses a course by a stable
    course key plus a branch name and an optional version identifier. *)
Module CourseLocator.
Record t := mk {
    org : string;
    course : string;
    run : string;
    branch : option string;
    version_guid : option nat
  }.
End CourseLocator.

(** Modelled from the spec: a usage key of the new store.  The block
    identifier is optional because the migrator passes [None] as
    [course_block_id] when it seeds the root. *)
Module BlockUsageLocator.
Record t := mk {
    course_key : CourseLocator.t;
    block_type : string;
    block_id : option string
  }.
End BlockUsageLocator.

#[global] Instance CourseKey_eq_dec : EqDecision CourseKey.t.
Proof. solve_decision. Defined.
#[global] Instance CourseKey_countable : Countable CourseKey.t.
Proof.
  refine (inj_countable'
    (λ k, (CourseKey.org k, CourseKey.course k, CourseKey.run k))
    (λ p, CourseKey.mk p.1.1 p.1.2 p.2) _).
  by intros [].
Defined.

#[global] Instance Location_eq_dec : EqDecision Location.t.
Proof. solve_decision. Defined.
#[global] Instance Location_countable : Countable Location.t.
Proof.
  refine (inj_countable'
    (λ l, (Location.course_key l, Location.category l, Location.block_id l))
    (λ p, Location.mk p.1.1 p.1.2 p.2) _).
  by intros [].
Defined.

#[global] Instance CourseLocator_eq_dec : EqDecision CourseLocator.t.
Proof. solve_decision. Defined.
#[global] Instance BlockUsageLocator_eq_dec : EqDecision BlockUsageLocator.t.
Proof. solve_decision. Defined.

(** Modelled from the spec: [ModuleStoreEnum.BranchName]. *)
Module BranchName.
Definition published : string := "published-branch".
Definition draft : string := "draft-branch".
End BranchName.

(** Modelled from the spec: [ModuleStoreEnum.RevisionOption], the revision
    selectors of the legacy store. *)
Inductive RevisionOption := published_only | draft_only | draft_preferred.

(** Modelled from the spec: [CourseLocator.make_usage_key]. *)
Definition make_usage_key (ck : CourseLocator.t) (block_type : string)
    (block_id : option string) : BlockUsageLocator.t :=
  BlockUsageLocator.mk ck block_type block_id.

(** Modelled from the spec: [CourseLocator.for_branch] names another branch
    of the same course and carries no version. *)
Definition for_branch (ck : CourseLocator.t) (b : string) : CourseLocator.t :=
  CourseLocator.mk (CourseLocator.org ck) (CourseLocator.course ck)
    (CourseLocator.run ck) (Some b) None.

(** Modelled from the spec: [version_agnostic] strips the version info. *)
Definition course_version_agnostic (ck : CourseLocator.t) : CourseLocator.t :=
  CourseLocator.mk (CourseLocator.org ck) (CourseLocator.course ck)
    (CourseLocator.run ck) (CourseLocator.branch ck) None.

Definition version_agnostic (l : BlockUsageLocator.t) : BlockUsageLocator.t :=
  BlockUsageLocator.mk
    (course_version_agnostic (BlockUsageLocator.course_key l))
    (BlockUsageLocator.block_type l) (BlockUsageLocator.block_id l).

(** ** Field values and descriptors *)

(** The Python values a field of a legacy block can hold: [None], a usage
    key, a list of usage keys, a dict of usage keys, or any other value
    ([PyRaw], which has neither [category] nor [iteritems] and is not
    iterated here). *)
Inductive PyValue :=
| PyNone
| PyKey (l : Location.t)
| PyList (ls : list Location.t)
| PyDict (d : gmap string Location.t)
| PyRaw (r : string).

(** The classes of [xblock.fields] the migrator tests with [isinstance];
    [OtherField] is every other field class. *)
Inductive FieldKind := Reference | ReferenceList | ReferenceValueDict | OtherField.

#[global] Instance FieldKind_eq_dec : EqDecision FieldKind.
Proof. solve_decision. Defined.
#[global] Instance FieldKind_countable : Countable FieldKind.
Proof.
  refine (inj_countable'
    (λ k, match k with
          | Reference => 0 | ReferenceList => 1
          | ReferenceValueDict => 2 | OtherField => 3 end)
    (λ n, match n with
          | 0 => Reference | 1 => ReferenceList
          | 2 => ReferenceValueDict | _ => OtherField end) _).
  by intros [].
Defined.

(** A field descriptor: its name and its class.  [xblock.fields] maps each
    name to the descriptor of that name. *)
Abbreviation Field := (string * FieldKind)%type (only parsing).

(** A value after translation: references are keys of type [R]; anything
    else is carried as a Python value. *)
Inductive Value (R : Type) :=
| VRef (r : R)
| VRefList (rs : list R)
| VRefDict (d : gmap string R)
| VPlain (v : PyValue).
Arguments VRef {R} r.
Arguments VRefList {R} rs.
Arguments VRefDict {R} d.
Arguments VPlain {R} v.

Definition value_map {R R'} (f : R → R') (v : Value R) : Value R' :=
  match v with
  | VRef r => VRef (f r)
  | VRefList rs => VRefList (f <$> rs)
  | VRefDict d => VRefDict (f <$> d)
  | VPlain p => VPlain p
  end.

(** A block of the legacy store as the migrator sees it. [field_data] holds
    the explicitly set fields: [field.is_set_on(xblock)] is membership and
    [getattr(xblock, name)] is the lookup. *)
Module XBlock.
Record t := mk {
    location : Location.t;
    category : string;
    fields : gmap string FieldKind;
    field_data : gmap string PyValue
  }.
End XBlock.

Definition is_set_on (name : string) (xblock : XBlock.t) : bool :=
  bool_decide (is_Some (XBlock.field_data xblock !! name)).

(** ** The field copiers *)

Section FieldCopiers.
(** [Field.to_json] of the XBlock library, which is not in the excerpt:
    [field.read_json(xblock)] is [to_json field] of the field's value. *)
Variable to_json : Field → PyValue → PyValue.

Definition read_json (field : Field) (field_value : PyValue) : PyValue :=
  to_json field field_value.

(** split_migrator.py, lines 174-181 *)
Definition json_get_translation (new_course_key : CourseLocator.t)
    (course_block_id : option string) (location : Location.t)
  : BlockUsageLocator.t :=
  make_usage_key new_course_key (Location.category location)
    (if bool_decide (Location.category location ≠ "course")
     then Some (Location.block_id location) else course_block_id).

(** split_migrator.py, lines 208-215 *)
Definition fields_get_translation (new_course_key : CourseLocator.t)
    (course_block_id : option string) (location : Location.t)
  : BlockUsageLocator.t :=
  make_usage_key new_course_key (Location.category location)
    (if bool_decide (Location.category location ≠ "course")
     then Some (Location.block_id location) else course_block_id).

(** The body of the loop of lines 184-199 for one explicitly set field.
    The branches are those of the [if]/[elif] chain, in order; a value
    the comprehension cannot iterate, or on which [get_translation]
    cannot read [category], raises. *)
Definition json_field (new_course_key : CourseLocator.t)
    (course_block_id : option string) (field : Field) (field_value : PyValue)
  : result (Value BlockUsageLocator.t) :=
  let get_translation := json_get_translation new_course_key course_block_id in
  match field.2, field_value with
  (* isinstance(field, Reference) and field_value is not None *)
  | Reference, PyKey l => Ok (VRef (get_translation l))
  | Reference, PyNone => Ok (VPlain (read_json field field_value))
  | Reference, _ => Raise AttributeError
  (* isinstance(field, ReferenceList) *)
  | ReferenceList, PyList ls => Ok (VRefList (get_translation <$> ls))
  | ReferenceList, PyDict d =>
      if bool_decide (d = ∅) then Ok (VRefList []) else Raise AttributeError
  | ReferenceList, _ => Raise TypeError
  (* isinstance(field, ReferenceValueDict) *)
  | ReferenceValueDict, PyDict d => Ok (VRefDict (get_translation <$> d))
  | ReferenceValueDict, _ => Raise AttributeError
  (* else *)
  | OtherField, _ => Ok (VPlain (read_json field field_value))
  end.

(** The body of the loop of lines 218-233 for one explicitly set field. *)
Definition fields_field (new_course_key : CourseLocator.t)
    (course_block_id : option string) (field : Field) (field_value : PyValue)
  : result (Value BlockUsageLocator.t) :=
  let get_translation := fields_get_translation new_course_key course_block_id in
  match field.2, field_value with
  | Reference, PyKey l => Ok (VRef (get_translation l))
  | Reference, PyNone => Ok (VPlain field_value)
  | Reference, _ => Raise AttributeError
  | ReferenceList, PyList ls => Ok (VRefList (get_translation <$> ls))
  | ReferenceList, PyDict d =>
      if bool_decide (d = ∅) then Ok (VRefList []) else Raise AttributeError
  | ReferenceList, _ => Raise TypeError
  | ReferenceValueDict, PyDict d => Ok (VRefDict (get_translation <$> d))
  | ReferenceValueDict, _ => Raise AttributeError
  | OtherField, _ => Ok (VPlain field_value)
  end.

(** split_migrator.py, lines 170-201: the result is keyed by field name. *)
Definition _get_json_fields_translate_references (xblock : XBlock.t)
    (new_course_key : CourseLocator.t) (course_block_id : option string)
  : result (gmap string (Value BlockUsageLocator.t)) :=
  for_in (map_to_list (XBlock.fields xblock))
    (λ '(field_name, kind) result,
       let field : Field := (field_name, kind) in
       if is_set_on field_name xblock then
         match XBlock.field_data xblock !! field_name with
         | Some field_value =>
             match json_field new_course_key course_block_id field field_value with
             | Ok v => Ok (<[field_name := v]> result)
             | Raise e => Raise e
             end
         | None => Ok result
         end
       else Ok result)
    ∅.

(** split_migrator.py, lines 203-235: the result is keyed by the field
    descriptor. *)
Definition _get_fields_translate_references (xblock : XBlock.t)
    (new_course_key : CourseLocator.t) (course_block_id : option string)
  : result (gmap Field (Value BlockUsageLocator.t)) :=
  for_in (map_to_list (XBlock.fields xblock))
    (λ '(field_name, kind) result,
       let field : Field := (field_name, kind) in
       if is_set_on field_name xblock then
         match XBlock.field_data xblock !! field_name with
         | Some field_value =>
             match fields_field new_course_key course_block_id field field_value with
             | Ok v => Ok (<[field := v]> result)
             | Raise e => Raise e
             end
         | None => Ok result
         end
       else Ok result)
    ∅.
End FieldCopiers.

(** ** The legacy (source) modulestore *)

(** Modelled from the spec: the legacy store is not part of the excerpt.
    The migrator only uses its read interface (section 6), so a state of the
    store is modelled by the answers it gives: [get_course], [get_items] per
    revision selector (in the order the store happens to return them),
    [get_item] and [get_parent_location]. *)
Module SourceStore.
Record t := mk {
    get_course : CourseKey.t → result XBlock.t;
    get_items : CourseKey.t → RevisionOption → list XBlock.t;
    get_item : Location.t → result XBlock.t;
    get_parent_location : Location.t → RevisionOption → option Location.t
  }.
End SourceStore.

(** Modelled from the spec: a block "has an ordered list of child references
    (if it is a container type)": the list held by its [children] field,
    empty when the field is not set. *)
Definition xblock_children (xblock : XBlock.t) : result (list Location.t) :=
  match XBlock.field_data xblock !! "children" with
  | None => Ok []
  | Some (PyList ls) => Ok ls
  | Some _ => Raise TypeError
  end.

(** ** The split (destination) modulestore *)

(** Modelled from the spec: the split store is not part of the excerpt.
    Containment is "by lookup": a stored reference is a course-scoped key
    (block type, block identifier). *)
Abbreviation BlockRef := (string * option string)%type (only parsing).

(** A tree snapshot maps (category, block identifier) to the stored fields
    of the block. *)
Abbreviation BlockKey := (string * string)%type (only parsing).
Abbreviation Structure := (gmap BlockKey (gmap string (Value BlockRef))) (only parsing).

(** "Each version identifier roots an immutable tree snapshot." *)
Module Version.
Record t := mk { guid : nat; blocks : Structure }.
End Version.

(** "The index maps branch names to opaque version identifiers"; versions
    that no branch points to are not retrievable through the interface the
    migrator uses and are not kept. [next_guid] is the next identifier to
    hand out. *)
Module SplitStore.
Record t := mk {
    course_index : gmap (string * string * string) (gmap string Version.t);
    next_guid : nat
  }.
End SplitStore.

(** A block loaded from the split store.  [stored] is what the snapshot
    holds, [dirty] what has been written to the object since, each with the
    descriptor that wrote it. *)
Module SplitBlock.
Record t := mk {
    location : BlockUsageLocator.t;
    fields : gmap string FieldKind;
    stored : gmap string (Value BlockRef);
    dirty : gmap string (Field * Value BlockUsageLocator.t)
  }.
Definition id (b : t) : CourseLocator.t :=
    BlockUsageLocator.course_key (location b).
End SplitBlock.

Definition course_id (ck : CourseLocator.t) : string * string * string :=
  (CourseLocator.org ck, CourseLocator.course ck, CourseLocator.run ck).

Definition block_ref (l : BlockUsageLocator.t) : BlockRef :=
  (BlockUsageLocator.block_type l, BlockUsageLocator.block_id l).

Definition relativize (v : Value BlockUsageLocator.t) : Value BlockRef :=
  value_map block_ref v.

Definition ref_exists (blocks : Structure) (r : BlockRef) : bool :=
  match r.2 with
  | Some bid => bool_decide (is_Some (blocks !! (r.1, bid)))
  | None => false
  end.

Definition with_version (ck : CourseLocator.t) (guid : nat) : CourseLocator.t :=
  CourseLocator.mk (CourseLocator.org ck) (CourseLocator.course ck)
    (CourseLocator.run ck) (CourseLocator.branch ck) (Some guid).

Section SplitStoreOps.
Variable to_json : Field → PyValue → PyValue.
(** The fields each block class declares, by category. *)
Variable block_class : string → gmap string FieldKind.
(** The identifier the split store gives to the root block of a course. *)
Variable root_block_id : string.

(** The head of the branch a course locator names. *)
Definition lookup_version (s : SplitStore.t) (ck : CourseLocator.t)
  : result Version.t :=
  match CourseLocator.branch ck with
  | None => Raise ItemNotFoundError
  | Some b =>
      match SplitStore.course_index s !! course_id ck with
      | None => Raise ItemNotFoundError
      | Some versions =>
          match versions !! b with
          | Some v => Ok v
          | None => Raise ItemNotFoundError
          end
      end
  end.

(** "Every write to the new store produces a new version identifier for
    the affected branch." *)
Definition write_version (s : SplitStore.t) (ck : CourseLocator.t)
    (b : string) (blocks : Structure) : SplitStore.t :=
  let versions := default ∅ (SplitStore.course_index s !! course_id ck) in
  SplitStore.mk
    (<[course_id ck := <[b := Version.mk (SplitStore.next_guid s) blocks]> versions]>
       (SplitStore.course_index s))
    (S (SplitStore.next_guid s)).

Definition has_item (s : SplitStore.t) (l : BlockUsageLocator.t) : bool :=
  match lookup_version s (BlockUsageLocator.course_key l) with
  | Ok v => ref_exists (Version.blocks v) (block_ref l)
  | Raise _ => false
  end.

Definition get_item (s : SplitStore.t) (l : BlockUsageLocator.t)
  : result SplitBlock.t :=
  match lookup_version s (BlockUsageLocator.course_key l) with
  | Raise e => Raise e
  | Ok v =>
      match BlockUsageLocator.block_id l with
      | None => Raise ItemNotFoundError
      | Some bid =>
          match Version.blocks v !! (BlockUsageLocator.block_type l, bid) with
          | None => Raise ItemNotFoundError
          | Some stored =>
              Ok (SplitBlock.mk
                    (make_usage_key
                       (with_version (BlockUsageLocator.course_key l) (Version.guid v))
                       (BlockUsageLocator.block_type l) (Some bid))
                    (block_class (BlockUsageLocator.block_type l))
                    stored ∅)
          end
      end
  end.

(** [block.children] of a loaded block: the stored references, as usage
    keys of the version the block was loaded from. *)
Definition split_children (b : SplitBlock.t) : result (list BlockUsageLocator.t) :=
  match SplitBlock.stored b !! "children" with
  | None => Ok []
  | Some (VRefList refs) =>
      Ok ((λ r : BlockRef, make_usage_key (SplitBlock.id b) r.1 r.2) <$> refs)
  | Some _ => Raise TypeError
  end.

(** [create_item(course_version_id, category, user_id, block_id, fields)];
    a missing [block_id], which the migrator never passes, is not
    modelled and raises. *)
Definition create_item (s : SplitStore.t) (ck : CourseLocator.t)
    (category : string) (user_id : nat) (block_id : option string)
    (fields : gmap string (Value BlockUsageLocator.t)) : result SplitStore.t :=
  match lookup_version s ck, CourseLocator.branch ck, block_id with
  | Ok v, Some b, Some bid =>
      if bool_decide (is_Some (Version.blocks v !! (category, bid)))
      then Raise DuplicateItemError
      else Ok (write_version s ck b
                 (<[(category, bid) := relativize <$> fields]> (Version.blocks v)))
  | Raise e, _, _ => Raise e
  | _, _, _ => Raise TypeError
  end.

(** What [update_item] persists for a written field: references as
    course-scoped keys, any other value through the writing descriptor's
    [to_json]. *)
Definition serialize (w : Field * Value BlockUsageLocator.t) : Value BlockRef :=
  match w.2 with
  | VPlain p => VPlain (to_json w.1 p)
  | v => relativize v
  end.

(** [update_item(block, user_id)]: the written fields override the stored
    ones in a new version of the block's branch. *)
Definition update_item (s : SplitStore.t) (block : SplitBlock.t) (user_id : nat)
  : result SplitStore.t :=
  let l := SplitBlock.location block in
  match lookup_version s (BlockUsageLocator.course_key l),
        CourseLocator.branch (BlockUsageLocator.course_key l),
        BlockUsageLocator.block_id l with
  | Ok v, Some b, Some bid =>
      let key := (BlockUsageLocator.block_type l, bid) in
      if bool_decide (is_Some (Version.blocks v !! key))
      then Ok (write_version s (BlockUsageLocator.course_key l) b
                 (<[key := (serialize <$> SplitBlock.dirty block) ∪ SplitBlock.stored block]>
                    (Version.blocks v)))
      else Raise ItemNotFoundError
  | Raise e, _, _ => Raise e
  | _, _, _ => Raise ItemNotFoundError
  end.

(** [create_course(org, course, run, user_id, fields, master_branch)]
    "fails with a duplicate error if the course id already has an index";
    otherwise the course gets an index whose master branch points to a
    snapshot holding the root block only. *)
Definition create_course (s : SplitStore.t) (org course run : string)
    (user_id : nat) (fields : gmap string (Value BlockUsageLocator.t))
    (master_branch : string) : result (SplitStore.t * SplitBlock.t) :=
  match SplitStore.course_index s !! (org, course, run) with
  | Some _ => Raise DuplicateItemError
  | None =>
      let guid := SplitStore.next_guid s in
      let stored := relativize <$> fields in
      let ck := CourseLocator.mk org course run (Some master_branch) (Some guid) in
      Ok (SplitStore.mk
            (<[(org, course, run) :=
                 {[ master_branch :=
                      Version.mk guid {[ ("course", root_block_id) := stored ]} ]}]>
               (SplitStore.course_index s))
            (S guid),
          SplitBlock.mk (make_usage_key ck "course" (Some root_block_id))
            (block_class "course") stored ∅)
  end.

(** [get_course_index_info]: the [versions] dict of the course's index. *)
Definition get_course_index_info (s : SplitStore.t) (ck : CourseLocator.t)
  : option (gmap string Version.t) :=
  SplitStore.course_index s !! course_id ck.

Definition update_course_index (s : SplitStore.t) (ck : CourseLocator.t)
    (versions : gmap string Version.t) : SplitStore.t :=
  SplitStore.mk (<[course_id ck := versions]> (SplitStore.course_index s))
    (SplitStore.next_guid s).

(** [internal_clean_children] "removes dangling child references": in a
    new version of the branch, each [children] list keeps only the
    references to blocks of the snapshot. *)
Definition clean_block (blocks : Structure) (stored : gmap string (Value BlockRef))
  : gmap string (Value BlockRef) :=
  match stored !! "children" with
  | Some (VRefList refs) =>
      <["children" := VRefList (filter (λ r, ref_exists blocks r = true) refs)]> stored
  | _ => stored
  end.

Definition internal_clean_children (s : SplitStore.t) (ck : CourseLocator.t)
  : result SplitStore.t :=
  match lookup_version s ck, CourseLocator.branch ck with
  | Ok v, Some b =>
      Ok (write_version s ck b (clean_block (Version.blocks v) <$> Version.blocks v))
  | Raise e, _ => Raise e
  | _, _ => Raise ItemNotFoundError
  end.
End SplitStoreOps.

(** ** The world the migrator runs in *)

(** The migrator holds both stores ([self.source_modulestore] and
    [self.split_modulestore]); a run threads both through every call, can
    raise, and writes warnings to the log. *)
Module World.
Record t := mk {
  source_modulestore : SourceStore.t;
  split_modulestore : SplitStore.t
}.
End World.

Inductive LogRecord := Warn (msg : string) (arg : Location.t).

Module Outcome.
Record t (A : Type) := mk {
  world : World.t;
  logged : list LogRecord;
  returned : result A
}.
Arguments mk {A} world logged returned.
Arguments world {A} _.
Arguments logged {A} _.
Arguments returned {A} _.
End Outcome.

Definition M (A : Type) : Type := World.t → Outcome.t A.

Definition ret {A} (a : A) : M A := λ w, Outcome.mk w [] (Ok a).

Definition raise {A} (e : Exn) : M A := λ w, Outcome.mk w [] (Raise e).

Definition bind {A B} (m : M A) (k : A → M B) : M B := λ w,
  let o := m w in
  match Outcome.returned o with
  | Ok a =>
      let o' := k a (Outcome.world o) in
      Outcome.mk (Outcome.world o') (Outcome.logged o ++ Outcome.logged o')
        (Outcome.returned o')
  | Raise e => Outcome.mk (Outcome.world o) (Outcome.logged o) (Raise e)
  end.

Notation "x ←← m ;; k" := (bind m (λ x, k))
  (at level 100, m at next level, right associativity,
   format "'[v' x  ←←  m  ;;  '/' k ']'").
Notation "m ;;; k" := (bind m (λ _, k))
  (at level 100, right associativity, format "'[v' m  ;;;  '/' k ']'").

(** A computation of the migrator itself, which touches neither store. *)
Definition lift {A} (r : result A) : M A := λ w, Outcome.mk w [] r.

(** [log.warn(msg, arg)] *)
Definition log_warn (msg : string) (arg : Location.t) : M unit := λ w,
  Outcome.mk w [Warn msg arg] (Ok tt).

(** A call of a read method of [self.source_modulestore]. *)
Definition source_read {A} (f : SourceStore.t → A) : M A := λ w,
  Outcome.mk w [] (Ok (f (World.source_modulestore w))).

(** A call of a read method of [self.split_modulestore]. *)
Definition split_read {A} (f : SplitStore.t → A) : M A := λ w,
  Outcome.mk w [] (Ok (f (World.split_modulestore w))).

(** A call of a writing method of [self.split_modulestore]; nothing is
    written when it raises. *)
Definition split_write {A} (f : SplitStore.t → result (SplitStore.t * A)) : M A := λ w,
  match f (World.split_modulestore w) with
  | Ok (s', a) => Outcome.mk (World.mk (World.source_modulestore w) s') [] (Ok a)
  | Raise e => Outcome.mk w [] (Raise e)
  end.

Definition with_unit {S} (r : result S) : result (S * unit) :=
  match r with Ok s => Ok (s, tt) | Raise e => Raise e end.

(** A [for] loop whose body runs in the world. *)
Fixpoint for_each {A S : Type} (items : list A) (body : A → S → M S) (s : S) : M S :=
  match items with
  | [] => ret s
  | x :: rest => bind (body x s) (for_each rest body)
  end.

(** Python's [list.insert(i, x)] for [0 <= i]. *)
Definition list_insert {A} (i : nat) (x : A) (l : list A) : list A :=
  take i l ++ x :: drop i l.

(** Modelled from the spec: the field methods of the XBlock library on a
    loaded split block.  A field is set when the snapshot holds it or it has
    been written; deleting forgets both; writing records the value with the
    descriptor that wrote it. *)
Definition split_is_set_on (name : string) (b : SplitBlock.t) : bool :=
  bool_decide (is_Some (SplitBlock.stored b !! name))
  || bool_decide (is_Some (SplitBlock.dirty b !! name)).

Definition delete_from (name : string) (b : SplitBlock.t) : SplitBlock.t :=
  SplitBlock.mk (SplitBlock.location b) (SplitBlock.fields b)
    (delete name (SplitBlock.stored b)) (delete name (SplitBlock.dirty b)).

Definition write_to (field : Field) (value : Value BlockUsageLocator.t)
    (b : SplitBlock.t) : SplitBlock.t :=
  SplitBlock.mk (SplitBlock.location b) (SplitBlock.fields b)
    (SplitBlock.stored b) (<[field.1 := (field, value)]> (SplitBlock.dirty b)).

(** [new_parent.children.insert(...)] followed by [update_item] persists
    the changed list: the mutated [children] value counts as written. *)
Definition set_children (children : list BlockUsageLocator.t) (b : SplitBlock.t)
  : SplitBlock.t :=
  write_to ("children", ReferenceList) (VRefList children) b.

(** Modelled from the spec: [bulk_write_operations] is a "scoped batching
    context", "an opaque transactional boundary". *)
Definition bulk_write_operations {A} (ck : CourseLocator.t) (m : M A) : M A := m.

(** ** The sibling cursor of lines 157-166 *)

(** The inner loop, lines 163-166: [idxs] is what is left of
    [range(new_parent_cursor, len(new_parent.children))]. *)
Fixpoint scan_for_sibling (idxs : list nat) (children : list BlockUsageLocator.t)
    (sibling_loc : BlockUsageLocator.t) (new_parent_cursor : nat) : nat :=
  match idxs with
  | [] => new_parent_cursor
  | idx :: rest =>
      match children !! idx with
      | Some child =>
          if bool_decide (version_agnostic child = sibling_loc)
          then idx + 1 (* new_parent_cursor = idx + 1; break *)
          else scan_for_sibling rest children sibling_loc new_parent_cursor
      | None => new_parent_cursor
      end
  end.

(** The outer loop, lines 158-166. *)
Fixpoint walk_old_children (old_children : list Location.t)
    (draft_location : Location.t) (new_draft_course_loc : CourseLocator.t)
    (children : list BlockUsageLocator.t) (new_parent_cursor : nat) : nat :=
  match old_children with
  | [] => new_parent_cursor
  | old_child_loc :: rest =>
      if bool_decide (old_child_loc = draft_location)
      then new_parent_cursor (* break: moved cursor enough, insert it here *)
      else
        let sibling_loc :=
          make_usage_key new_draft_course_loc (Location.category old_child_loc)
            (Some (Location.block_id old_child_loc)) in
        walk_old_children rest draft_location new_draft_course_loc children
          (scan_for_sibling
             (seq new_parent_cursor (length children - new_parent_cursor))
             children sibling_loc new_parent_cursor)
  end.

(** Lines 157-166: the index at which line 167 inserts. *)
Definition insertion_cursor (old_children : list Location.t)
    (draft_location : Location.t) (new_draft_course_loc : CourseLocator.t)
    (children : list BlockUsageLocator.t) : nat :=
  walk_old_children old_children draft_location new_draft_course_loc children 0.

(** ** SplitMigrator *)

Section SplitMigrator.
Variable to_json : Field → PyValue → PyValue.
Variable block_class : string → gmap string FieldKind.
Variable root_block_id : string.
(** [awaiting_adoption.iteritems()]: the order in which the dict yields its
    items is the dict's own. *)
Variable iteritems :
  gmap Location.t BlockUsageLocator.t → list (Location.t * BlockUsageLocator.t).

Definition split_get_item (l : BlockUsageLocator.t) : M SplitBlock.t :=
  bind (split_read (λ s, get_item block_class s l)) lift.

(** Lines 77-94: the body of the loop over the published modules. *)
Definition copy_published_module (new_course : SplitBlock.t)
    (old_course_loc : Location.t) (user_id : nat) (module : XBlock.t) (_ : unit)
  : M unit :=
  let course_version_locator := SplitBlock.id new_course in
  (* don't copy the course again. *)
  if bool_decide (XBlock.location module ≠ old_course_loc) then
    fields ←← lift (_get_json_fields_translate_references to_json module
                     course_version_locator
                     (BlockUsageLocator.block_id (SplitBlock.location new_course)));;
    split_write (λ s, with_unit
      (create_item s course_version_locator (XBlock.category module) user_id
         (Some (Location.block_id (XBlock.location module))) fields))
  else ret tt.

(** split_migrator.py, lines 69-103 *)
Definition _copy_published_modules_to_course (new_course : SplitBlock.t)
    (old_course_loc : Location.t) (source_course_key : CourseKey.t)
    (user_id : nat) : M unit :=
  let course_version_locator := SplitBlock.id new_course in
  modules ←← source_read (λ s,
    SourceStore.get_items s source_course_key published_only);;
  for_each modules (copy_published_module new_course old_course_loc user_id) tt;;;
  (* after done w/ published items, add version for DRAFT pointing to the
     published structure *)
  index_info ←← split_read (λ s, get_course_index_info s course_version_locator);;
  match index_info with
  | None => raise TypeError
  | Some versions =>
      match versions !! BranchName.published with
      | None => raise KeyError
      | Some v =>
          split_write (λ s, Ok
            (update_course_index s course_version_locator
               (<[BranchName.draft := v]> versions), tt));;;
          (* clean up orphans in published version *)
          split_write (λ s, with_unit
            (internal_clean_children s course_version_locator))
      end
  end.

(** Lines 121-123: remove any no-longer-explicitly-set values. *)
Definition delete_unset_fields (module : XBlock.t) (split_module : SplitBlock.t)
  : result SplitBlock.t :=
  for_in (map_to_list (SplitBlock.fields split_module))
    (λ '(name, _) split_module,
       if split_is_set_on name split_module then
         match XBlock.fields module !! name with
         | None => Raise KeyError (* module.fields[name] *)
         | Some _ =>
             if negb (is_set_on name module)
             then Ok (delete_from name split_module)
             else Ok split_module
         end
       else Ok split_module)
    split_module.

(** Lines 124-127: add/update any now set values. *)
Definition write_fields (fields : gmap Field (Value BlockUsageLocator.t))
    (split_module : SplitBlock.t) : SplitBlock.t :=
  foldl (λ split_module '(field, value), write_to field value split_module)
    split_module (map_to_list fields).

(** Lines 116-139: the body of the loop over the draft modules. *)
Definition add_draft_module (published_course_usage_key : BlockUsageLocator.t)
    (user_id : nat) (module : XBlock.t)
    (awaiting_adoption : gmap Location.t BlockUsageLocator.t)
  : M (gmap Location.t BlockUsageLocator.t) :=
  let new_draft_course_loc :=
    for_branch (BlockUsageLocator.course_key published_course_usage_key)
      BranchName.draft in
  let new_locator :=
    make_usage_key new_draft_course_loc (XBlock.category module)
      (Some (Location.block_id (XBlock.location module))) in
  present ←← split_read (λ s, has_item s new_locator);;
  if (present : bool) then
    (* was in 'direct' so draft is a new version *)
    split_module ←← split_get_item new_locator;;
    split_module ←← lift (delete_unset_fields module split_module);;
    fields ←← lift (_get_fields_translate_references module new_draft_course_loc
                     (BlockUsageLocator.block_id published_course_usage_key));;
    let split_module := write_fields fields split_module in
    split_write (λ s, with_unit (update_item to_json s split_module user_id));;;
    ret awaiting_adoption
  else
    (* only a draft version (aka, 'private'). *)
    fields ←← lift (_get_json_fields_translate_references to_json module
                     new_draft_course_loc
                     (BlockUsageLocator.block_id published_course_usage_key));;
    split_write (λ s, with_unit
      (create_item s new_draft_course_loc (XBlock.category module) user_id
         (BlockUsageLocator.block_id new_locator) fields));;;
    ret (<[XBlock.location module := new_locator]> awaiting_adoption).

(** Lines 141-168: the body of the loop over [awaiting_adoption]. *)
Definition adopt (published_course_usage_key : BlockUsageLocator.t)
    (user_id : nat) (item : Location.t * BlockUsageLocator.t) (_ : unit) : M unit :=
  let '(draft_location, new_locator) := item in
  let new_draft_course_loc :=
    for_branch (BlockUsageLocator.course_key published_course_usage_key)
      BranchName.draft in
  parent_loc ←← source_read (λ s,
    SourceStore.get_parent_location s draft_location draft_preferred);;
  match parent_loc with
  | None =>
      log_warn "No parent found in source course for %s" draft_location
      (* continue *)
  | Some parent_loc =>
      old_parent ←← bind (source_read (λ s, SourceStore.get_item s parent_loc)) lift;;
      let split_parent_loc :=
        make_usage_key new_draft_course_loc (Location.category parent_loc)
          (if bool_decide (Location.category parent_loc ≠ "course")
           then Some (Location.block_id parent_loc)
           else BlockUsageLocator.block_id published_course_usage_key) in
      new_parent ←← split_get_item split_parent_loc;;
      children ←← lift (split_children new_parent);;
      (* this only occurs if the parent was also awaiting adoption: skip
         this one, go to next *)
      if existsb (λ child, bool_decide (new_locator = version_agnostic child)) children
      then ret tt
      else
        (* find index for module: new_parent may be missing quite a few of
           old_parent's children *)
        old_children ←← lift (xblock_children old_parent);;
        let new_parent_cursor :=
          insertion_cursor old_children draft_location new_draft_course_loc children in
        let new_parent :=
          set_children (list_insert new_parent_cursor new_locator children) new_parent in
        split_write (λ s, with_unit (update_item to_json s new_parent user_id))
  end.

(** split_migrator.py, lines 105-168 *)
Definition _add_draft_modules_to_course
    (published_course_usage_key : BlockUsageLocator.t)
    (source_course_key : CourseKey.t) (user_id : nat) : M unit :=
  (* to prevent race conditions of grandchilden being added before their
     parents and thus having no parent to add to *)
  modules ←← source_read (λ s,
    SourceStore.get_items s source_course_key draft_only);;
  awaiting_adoption ←←
    for_each modules (add_draft_module published_course_usage_key user_id) ∅;;
  for_each (iteritems awaiting_adoption)
    (adopt published_course_usage_key user_id) tt.

(** split_migrator.py, lines 28-67 *)
Definition migrate_mongo_course (source_course_key : CourseKey.t) (user_id : nat)
    (new_org new_course new_run : option string) : M CourseLocator.t :=
  original_course ←← bind (source_read (λ s,
    SourceStore.get_course s source_course_key)) lift;;
  let new_org := default (CourseKey.org source_course_key) new_org in
  let new_course := default (CourseKey.course source_course_key) new_course in
  let new_run := default (CourseKey.run source_course_key) new_run in
  let new_course_key :=
    CourseLocator.mk new_org new_course new_run (Some BranchName.published) None in
  fields ←← lift (_get_json_fields_translate_references to_json original_course
                   new_course_key None);;
  new_course ←← split_write (λ s,
    create_course block_class root_block_id s new_org new_course new_run user_id fields
      BranchName.published);;
  bulk_write_operations (SplitBlock.id new_course)
    (_copy_published_modules_to_course new_course
       (XBlock.location original_course) source_course_key user_id);;;
  (* create a new version for the drafts *)
  bulk_write_operations (SplitBlock.id new_course)
    (_add_draft_modules_to_course (SplitBlock.location new_course)
       source_course_key user_id);;;
  ret (SplitBlock.id new_course).
End SplitMigrator.

(** The JSON representation of a value of the raw copier: references are
    kept, any other value goes through the descriptor's [to_json]. *)
Definition json_repr (to_json : Field → PyValue → PyValue) (field : Field)
    (v : Value BlockUsageLocator.t) : Value BlockUsageLocator.t :=
  match v with
  | VPlain p => VPlain (read_json to_json field p)
  | _ => v
  end.

(** ** The insertion position as section 4.5 words it *)

(** The siblings that come before [child] in the source parent's list. *)
Fixpoint preceding_siblings (old_children : list Location.t) (child : Location.t)
  : list Location.t :=
  match old_children with
  | [] => []
  | c :: rest =>
      if bool_decide (c = child) then [] else c :: preceding_siblings rest child
  end.

(** The first position at or after [cursor] at which [sibling_loc] is found
    in the destination parent's children, compared version-agnostically. *)
Definition position_from (cursor : nat) (children : list BlockUsageLocator.t)
    (sibling_loc : BlockUsageLocator.t) : option nat :=
  match list_find (λ child, version_agnostic child = sibling_loc)
          (drop cursor children) with
  | Some (i, _) => Some (cursor + i)
  | None => None
  end.

(** "Advance a cursor past the sibling's position in the destination
    parent's child list if found there." *)
Definition advance_past (ck : CourseLocator.t) (children : list BlockUsageLocator.t)
    (cursor : nat) (sibling : Location.t) : nat :=
  match position_from cursor children
          (make_usage_key ck (Location.category sibling)
             (Some (Location.block_id sibling))) with
  | Some i => i + 1
  | None => cursor
  end.

Definition sibling_cursor (old_children : list Location.t) (child : Location.t)
    (ck : CourseLocator.t) (children : list BlockUsageLocator.t) : nat :=
  foldl (advance_past ck children) 0 (preceding_siblings old_children child).
(** ** The loops of the migrator on a snapshot of a branch

    Each body of a loop of the migrator reads and writes the head of one
    branch.  The definitions below give what a body does to that head (the
    snapshot), so that a loop is a fold on snapshots; the lemmas that follow
    relate them to the monadic code above. *)

(** Two loops over the same items whose bodies raise at the same items with
    the same exception end alike. *)
Definition same_raise {A B} (r1 : result A) (r2 : result B) : Prop :=
  match r1, r2 with
  | Ok _, Ok _ => True
  | Raise e1, Raise e2 => e1 = e2
  | _, _ => False
  end.

(** A computation that leaves the source store as it found it, whether it
    returns or raises. *)
Definition keeps_source {A} (m : M A) : Prop :=
  ∀ w, World.source_modulestore (Outcome.world (m w)) = World.source_modulestore w.

(** A stored reference as a usage key of the course [ck]. *)
Definition rooted (ck : CourseLocator.t) (r : BlockRef) : BlockUsageLocator.t :=
  make_usage_key ck r.1 r.2.

(** The draft branch of the course of the published root, line 111. *)
Definition draft_course (published_course_usage_key : BlockUsageLocator.t)
  : CourseLocator.t :=
  for_branch (BlockUsageLocator.course_key published_course_usage_key)
    BranchName.draft.
Arguments draft_course : simpl never.

(** The child references a block stores. *)
Definition children_refs (stored : gmap string (Value BlockRef))
  : result (list BlockRef) :=
  match stored !! "children" with
  | None => Ok []
  | Some (VRefList refs) => Ok refs
  | Some _ => Raise TypeError
  end.

(** The key of the destination parent, as line 148-151 builds it. *)
Definition split_parent_key (published_course_usage_key : BlockUsageLocator.t)
    (parent_loc : Location.t) : option BlockKey :=
  match (if bool_decide (Location.category parent_loc ≠ "course")
         then Some (Location.block_id parent_loc)
         else BlockUsageLocator.block_id published_course_usage_key) with
  | Some bid => Some (Location.category parent_loc, bid)
  | None => None
  end.

(** What [adopt] does to the snapshot [blocks] of the draft branch: it
    raises, leaves it alone ([None]) or writes a new one. *)
Definition adopt_blocks (source : SourceStore.t)
    (published_course_usage_key : BlockUsageLocator.t)
    (item : Location.t * BlockUsageLocator.t) (blocks : Structure)
  : result (option Structure) :=
  let ck := draft_course published_course_usage_key in
  match SourceStore.get_parent_location source item.1 draft_preferred with
  | None => Ok None
  | Some parent_loc =>
      match SourceStore.get_item source parent_loc with
      | Raise e => Raise e
      | Ok old_parent =>
          match split_parent_key published_course_usage_key parent_loc with
          | None => Raise ItemNotFoundError
          | Some key =>
              match blocks !! key with
              | None => Raise ItemNotFoundError
              | Some stored =>
                  match children_refs stored with
                  | Raise e => Raise e
                  | Ok refs =>
                      let children := rooted ck <$> refs in
                      if bool_decide (item.2 ∈ children) then Ok None
                      else
                        match xblock_children old_parent with
                        | Raise e => Raise e
                        | Ok old_children =>
                            Ok (Some (<[key :=
                              <["children" :=
                                  VRefList (block_ref <$>
                                    list_insert
                                      (insertion_cursor old_children item.1 ck children)
                                      item.2 children)]> stored]> blocks))
                        end
                  end
              end
          end
      end
  end.

(** The store after [writes] writes to the branch [b] of [ck], the last of
    which wrote [blocks]. *)
Definition store_after (s : SplitStore.t) (ck : CourseLocator.t) (b : string)
    (writes : nat) (blocks : Structure) : SplitStore.t :=
  match writes with
  | 0 => s
  | S k =>
      SplitStore.mk
        (<[course_id ck :=
             <[b := Version.mk (SplitStore.next_guid s + k) blocks]>
               (default ∅ (SplitStore.course_index s !! course_id ck))]>
           (SplitStore.course_index s))
        (SplitStore.next_guid s + S k)
  end.

(** The loop on the snapshot: the snapshot and the number of writes at the
    end (or at the raise), and what the loop returns. *)
Fixpoint run_blocks {A St : Type}
    (step : SourceStore.t → A → St → Structure → result (St * option Structure))
    (source : SourceStore.t) (items : list A) (st : St)
    (blocks : Structure) (writes : nat) : Structure * nat * result St :=
  match items with
  | [] => (blocks, writes, Ok st)
  | x :: rest =>
      match step source x st blocks with
      | Raise e => (blocks, writes, Raise e)
      | Ok (st', None) => run_blocks step source rest st' blocks writes
      | Ok (st', Some blocks') => run_blocks step source rest st' blocks' (S writes)
      end
  end.

(** Two outcomes with the same stores and the same result; the log may
    differ. *)
Definition same_effect {A} (o1 o2 : Outcome.t A) : Prop :=
  Outcome.world o1 = Outcome.world o2
  ∧ Outcome.returned o1 = Outcome.returned o2.

(** [adopt_blocks] as a step of the adoption loop. *)
Definition adopt_step (published_course_usage_key : BlockUsageLocator.t)
    (source : SourceStore.t) (item : Location.t * BlockUsageLocator.t)
    (_ : unit) (blocks : Structure) : result (unit * option Structure) :=
  match adopt_blocks source published_course_usage_key item blocks with
  | Ok o => Ok (tt, o)
  | Raise e => Raise e
  end.

(** What a snapshot owes to an earlier one: the same blocks, and child
    references that were there before or are among [extra]. *)
Definition adopted_from (blocks0 blocks : Structure) (extra : list BlockRef) : Prop :=
  (∀ key, is_Some (blocks !! key) ↔ is_Some (blocks0 !! key))
  ∧ ∀ key stored refs r,
      blocks !! key = Some stored → children_refs stored = Ok refs → r ∈ refs →
      r ∈ extra
      ∨ ∃ stored0 refs0,
          blocks0 !! key = Some stored0 ∧ children_refs stored0 = Ok refs0
          ∧ r ∈ refs0.

(** A function applied to what a computation returns. *)
Definition map_result {A B} (f : A → B) (r : result A) : result B :=
  match r with Ok a => Ok (f a) | Raise e => Raise e end.

(** The same block under another usage key. *)
Definition relocate (l : BlockUsageLocator.t) (b : SplitBlock.t) : SplitBlock.t :=
  SplitBlock.mk l (SplitBlock.fields b) (SplitBlock.stored b) (SplitBlock.dirty b).

(** What lines 119-129 leave in the block: the stored fields after the
    deletions, overridden by the written ones. *)
Definition in_place_update (to_json : Field → PyValue → PyValue)
    (published_course_usage_key : BlockUsageLocator.t) (module : XBlock.t)
    (split_module : SplitBlock.t) : result (gmap string (Value BlockRef)) :=
  match delete_unset_fields module split_module with
  | Raise e => Raise e
  | Ok split_module =>
      match _get_fields_translate_references module
              (draft_course published_course_usage_key)
              (BlockUsageLocator.block_id published_course_usage_key) with
      | Raise e => Raise e
      | Ok fields =>
          let split_module := write_fields fields split_module in
          Ok ((serialize to_json <$> SplitBlock.dirty split_module)
              ∪ SplitBlock.stored split_module)
      end
  end.

(** The key and the draft locator of a legacy module, line 116. *)
Definition block_key (module : XBlock.t) : BlockKey :=
  (XBlock.category module, Location.block_id (XBlock.location module)).

Definition draft_locator (published_course_usage_key : BlockUsageLocator.t)
    (module : XBlock.t) : BlockUsageLocator.t :=
  make_usage_key (draft_course published_course_usage_key)
    (XBlock.category module) (Some (Location.block_id (XBlock.location module))).

(** What [add_draft_module] does to the pending table and to the snapshot
    [blocks] of the draft branch. *)
Definition add_draft_blocks (to_json : Field → PyValue → PyValue)
    (block_class : string → gmap string FieldKind)
    (published_course_usage_key : BlockUsageLocator.t) (source : SourceStore.t)
    (module : XBlock.t) (awaiting_adoption : gmap Location.t BlockUsageLocator.t)
    (blocks : Structure)
  : result (gmap Location.t BlockUsageLocator.t * option Structure) :=
  match blocks !! block_key module with
  | Some stored =>
      match in_place_update to_json published_course_usage_key module
              (SplitBlock.mk (draft_locator published_course_usage_key module)
                 (block_class (XBlock.category module)) stored ∅) with
      | Raise e => Raise e
      | Ok stored' =>
          Ok (awaiting_adoption, Some (<[block_key module := stored']> blocks))
      end
  | None =>
      match _get_json_fields_translate_references to_json module
              (draft_course published_course_usage_key)
              (BlockUsageLocator.block_id published_course_usage_key) with
      | Raise e => Raise e
      | Ok fields =>
          Ok (<[XBlock.location module :=
                  draft_locator published_course_usage_key module]>
                awaiting_adoption,
              Some (<[block_key module := relativize <$> fields]> blocks))
      end
  end.

(** The whole draft pass: the first loop on the draft modules, then the
    adoption loop on what the first loop left pending. *)
Definition draft_pass_blocks (to_json : Field → PyValue → PyValue)
    (block_class : string → gmap string FieldKind)
    (iteritems : gmap Location.t BlockUsageLocator.t
                 → list (Location.t * BlockUsageLocator.t))
    (published_course_usage_key : BlockUsageLocator.t)
    (source : SourceStore.t) (source_course_key : CourseKey.t)
    (blocks : Structure) : Structure * nat * result unit :=
  let r1 := run_blocks
              (add_draft_blocks to_json block_class published_course_usage_key)
              source (SourceStore.get_items source source_course_key draft_only)
              ∅ blocks 0 in
  match r1.2 with
  | Raise e => (r1.1.1, r1.1.2, Raise e)
  | Ok awaiting_adoption =>
      let r2 := run_blocks (adopt_step published_course_usage_key) source
                  (iteritems awaiting_adoption) tt r1.1.1 0 in
      (r2.1.1, r1.1.2 + r2.1.2, r2.2)
  end.

(** What [copy_published_module] does to the snapshot [blocks]. *)
Definition copy_blocks (to_json : Field → PyValue → PyValue)
    (new_course : SplitBlock.t) (old_course_loc : Location.t)
    (source : SourceStore.t) (module : XBlock.t) (_ : unit) (blocks : Structure)
  : result (unit * option Structure) :=
  if bool_decide (XBlock.location module ≠ old_course_loc) then
    match _get_json_fields_translate_references to_json module
            (SplitBlock.id new_course)
            (BlockUsageLocator.block_id (SplitBlock.location new_course)) with
    | Raise e => Raise e
    | Ok fields =>
        if bool_decide (is_Some (blocks !! block_key module))
        then Raise DuplicateItemError
        else Ok (tt, Some (<[block_key module := relativize <$> fields]> blocks))
    end
  else Ok (tt, None).

(** One write for a step that wrote. *)
Definition writes {A} (o : option A) : nat :=
  match o with Some _ => 1 | None => 0 end.

(** The identifier line 161 gives to a child of the source parent. *)
Definition sibling_loc (ck : CourseLocator.t) (l : Location.t)
  : BlockUsageLocator.t :=
  make_usage_key ck (Location.category l) (Some (Location.block_id l)).

(** What the source store tells [adopt] about a pending location: nothing
    for an orphan, else the key of the destination parent and the source
    parent. *)
Definition adoption_target (published_course_usage_key : BlockUsageLocator.t)
    (source : SourceStore.t) (location : Location.t)
  : result (option (BlockKey * XBlock.t)) :=
  match SourceStore.get_parent_location source location draft_preferred with
  | None => Ok None
  | Some parent_loc =>
      match SourceStore.get_item source parent_loc with
      | Raise e => Raise e
      | Ok old_parent =>
          match split_parent_key published_course_usage_key parent_loc with
          | None => Raise ItemNotFoundError
          | Some key => Ok (Some (key, old_parent))
          end
      end
  end.

(** What [adopt] does to the stored fields of the destination parent. *)
Definition adopt_stored (ck : CourseLocator.t)
    (item : Location.t * BlockUsageLocator.t) (old_parent : XBlock.t)
    (stored : gmap string (Value BlockRef))
  : result (option (gmap string (Value BlockRef))) :=
  match children_refs stored with
  | Raise e => Raise e
  | Ok refs =>
      let children := rooted ck <$> refs in
      if bool_decide (item.2 ∈ children) then Ok None
      else
        match xblock_children old_parent with
        | Raise e => Raise e
        | Ok old_children =>
            Ok (Some (<["children" :=
                  VRefList (block_ref <$>
                    list_insert (insertion_cursor old_children item.1 ck children)
                      item.2 children)]> stored))
        end
  end.

(** The parent's stored fields with one more child. *)
Definition with_child (ck : CourseLocator.t) (old_children : list Location.t)
    (item : Location.t * BlockUsageLocator.t) (refs : list BlockRef)
    (stored : gmap string (Value BlockRef)) : gmap string (Value BlockRef) :=
  <["children" :=
      VRefList (block_ref <$>
        list_insert (sibling_cursor old_children item.1 ck (rooted ck <$> refs))
          item.2 (rooted ck <$> refs))]> stored.

(** Distinct children of a source parent go to distinct destination
    identifiers, as the children of one course do; a child may be listed
    more than once. *)
Definition distinct_siblings (ck : CourseLocator.t)
    (old_children : list Location.t) : bool :=
  forallb
    (λ child1,
       forallb
         (λ child2,
            bool_decide (sibling_loc ck child1 = sibling_loc ck child2
                         → child1 = child2))
         old_children)
    old_children.

(** The source parent of a pending location lists it, and its distinct
    children go to distinct destination identifiers. *)
Definition parent_lists (ck : CourseLocator.t) (source : SourceStore.t)
    (location : Location.t) : bool :=
  match SourceStore.get_parent_location source location draft_preferred with
  | None => true
  | Some parent_loc =>
      match SourceStore.get_item source parent_loc with
      | Raise _ => true
      | Ok old_parent =>
          match xblock_children old_parent with
          | Raise _ => true
          | Ok old_children =>
              bool_decide (location ∈ old_children)
              && distinct_siblings ck old_children
          end
      end
  end.

(** Two pending locations whose source parents go to one destination parent
    have the same source parent. *)
Definition one_parent (published_course_usage_key : BlockUsageLocator.t)
    (source : SourceStore.t) (location1 location2 : Location.t) : bool :=
  match SourceStore.get_parent_location source location1 draft_preferred,
        SourceStore.get_parent_location source location2 draft_preferred with
  | Some parent1, Some parent2 =>
      bool_decide (split_parent_key published_course_usage_key parent1
                   = split_parent_key published_course_usage_key parent2
                   → parent1 = parent2)
  | _, _ => true
  end.

(** Two entries of the pending table that can be adopted in either order. *)
Definition independent_adoptions (published_course_usage_key : BlockUsageLocator.t)
    (source : SourceStore.t) (x y : Location.t * BlockUsageLocator.t) : Prop :=
  let ck := draft_course published_course_usage_key in
  x.2 = sibling_loc ck x.1 ∧ y.2 = sibling_loc ck y.1 ∧ x.1 ≠ y.1
  ∧ parent_lists ck source x.1 = true ∧ parent_lists ck source y.1 = true
  ∧ one_parent published_course_usage_key source x.1 y.1 = true.

(** A snapshot with the stored fields of [key] replaced, if they are. *)
Definition replaced (key : BlockKey) (blocks : Structure)
    (o : option (gmap string (Value BlockRef))) : option Structure :=
  (λ stored, <[key := stored]> blocks) <$> o.

(** Two draft modules that go to different blocks. *)
Definition independent_drafts (x y : XBlock.t) : Prop :=
  block_key x ≠ block_key y ∧ XBlock.location x ≠ XBlock.location y.

(** What the draft pass relies on in the source store: the draft modules
    have distinct keys, a module's category is that of its location, the
    parent of a module lists it, distinct children of that parent have
    distinct (category, block identifier), and modules whose parents go to
    one destination parent have one source parent. *)
Definition well_formed_drafts (published_course_usage_key : BlockUsageLocator.t)
    (source : SourceStore.t) (modules : list XBlock.t) : bool :=
  let ck := draft_course published_course_usage_key in
  bool_decide (NoDup (block_key <$> modules))
  && forallb
       (λ module,
          bool_decide (XBlock.category module
                       = Location.category (XBlock.location module))
          && parent_lists ck source (XBlock.location module))
       modules
  && forallb
       (λ module1,
          forallb
            (λ module2,
               one_parent published_course_usage_key source
                 (XBlock.location module1) (XBlock.location module2))
            modules)
       modules.

(** ** Shapes of field values and logs *)


(** A computation that logs nothing. *)
Definition silent {A} (m : M A) : Prop := ∀ w, Outcome.logged (m w) = [].

(** A computation whose every log record is the warning of line 145, for a
    location that has no parent in the source store. *)
Definition warns_orphans {A} (m : M A) : Prop :=
  ∀ w,
    Forall
      (λ record,
         ∃ location,
           record = Warn "No parent found in source course for %s" location
           ∧ SourceStore.get_parent_location (World.source_modulestore w)
               location draft_preferred = None)
      (Outcome.logged (m w)).

(** ** A toy course

    The scenario of the spec: a published course with one chapter and two
    published verticals, and a vertical that exists only as a draft; the
    chapter, as the legacy store keeps it, lists all three. *)
Module Toy.
Definition ck : CourseKey.t := CourseKey.mk "edX" "toy" "2012".

Definition loc (category name : string) : Location.t :=
  Location.mk ck category name.

Definition container_fields : gmap string FieldKind :=
  {[ "children" := ReferenceList; "display_name" := OtherField;
     "parent_ref" := Reference ]}.

Definition block (category name : string) (children : list Location.t)
    (display_name : string) : XBlock.t :=
  XBlock.mk (loc category name) category container_fields
    {[ "children" := PyList children; "display_name" := PyRaw display_name ]}.

Definition course : XBlock.t := block "course" "2012" [loc "chapter" "ch1"] "Toy".
Definition ch1 : XBlock.t :=
  block "chapter" "ch1"
    [loc "vertical" "v1"; loc "vertical" "v2"; loc "vertical" "v3"] "Chapter".
Definition v1 : XBlock.t := block "vertical" "v1" [] "One".
Definition v2 : XBlock.t := block "vertical" "v2" [] "Two".
Definition v3 : XBlock.t := block "vertical" "v3" [] "Three".

(** The draft of the first vertical: renamed, its [children] not set. *)
Definition v1_draft : XBlock.t :=
  XBlock.mk (loc "vertical" "v1") "vertical" container_fields
    {[ "display_name" := PyRaw "Uno" ]}.

(** A block whose single reference is explicitly set to null. *)
Definition null_ref : XBlock.t :=
  XBlock.mk (loc "html" "h1") "html" container_fields
    {[ "parent_ref" := PyNone; "display_name" := PyRaw "Html" ]}.

Definition published : list XBlock.t := [course; ch1; v1; v3].
Definition drafts : list XBlock.t := [v2].

Definition find_block (l : Location.t) (blocks : list XBlock.t) : option XBlock.t :=
  snd <$> list_find (λ b, XBlock.location b = l) blocks.

Definition lists_child (l : Location.t) (b : XBlock.t) : bool :=
  match xblock_children b with
  | Ok children => bool_decide (l ∈ children)
  | Raise _ => false
  end.

Definition source : SourceStore.t :=
  SourceStore.mk
    (λ k, if bool_decide (k = ck) then Ok course else Raise ItemNotFoundError)
    (λ k revision,
       match revision with
       | published_only => published
       | draft_only => drafts
       | draft_preferred => (drafts ++ published)%list
       end)
    (λ l, match find_block l (drafts ++ published)%list with
          | Some b => Ok b
          | None => Raise ItemNotFoundError
          end)
    (λ l revision,
       XBlock.location <$>
         (snd <$> list_find (λ b, lists_child l b = true) (drafts ++ published)%list)).

Definition to_json : Field → PyValue → PyValue := λ _ v, v.
Definition block_class : string → gmap string FieldKind := λ _, container_fields.
Definition root_block_id : string := "course".

Definition empty_store : SplitStore.t := SplitStore.mk ∅ 0.
Definition world : World.t := World.mk source empty_store.

Definition new_course_key : CourseLocator.t :=
  CourseLocator.mk "edX" "toy" "2012" (Some BranchName.published) None.

(** The migration of the toy course into the empty split store. *)
Definition migrated : Outcome.t CourseLocator.t :=
  migrate_mongo_course to_json block_class root_block_id map_to_list ck 7
    None None None world.

Definition new_course_id : CourseLocator.t :=
  CourseLocator.mk "edX" "toy" "2012" (Some BranchName.published) (Some 0).
End Toy.

(** The split store after the published copy when the draft branch sees the
    repaired parent: the chapter lists the two published verticals, and the
    first loop of the draft pass has created the private vertical. *)
Module ToyDraft.
Definition ref (category name : string) : string * option string :=
  (category, Some name).

Definition stored (children : list (string * option string)) (display_name : string)
  : gmap string (Value (string * option string)) :=
  {[ "children" := VRefList children; "display_name" := VPlain (PyRaw display_name) ]}.

Definition published_blocks : gmap (string * string) (gmap string (Value (string * option string))) :=
  {[ ("course", "course") := stored [ref "chapter" "ch1"] "Toy";
     ("chapter", "ch1") := stored [ref "vertical" "v1"; ref "vertical" "v3"] "Chapter";
     ("vertical", "v1") := stored [] "One";
     ("vertical", "v3") := stored [] "Three" ]}.

Definition draft_blocks : gmap (string * string) (gmap string (Value (string * option string))) :=
  <[("vertical", "v2") := stored [] "Two"]> published_blocks.

Definition store : SplitStore.t :=
  SplitStore.mk
    {[ ("edX", "toy", "2012") :=
         {[ BranchName.published := Version.mk 4 published_blocks;
            BranchName.draft := Version.mk 5 draft_blocks ]} ]}
    6.

Definition world : World.t := World.mk Toy.source store.

Definition published_course_usage_key : BlockUsageLocator.t :=
  make_usage_key
    (CourseLocator.mk "edX" "toy" "2012" (Some BranchName.published) (Some 0))
    "course" (Some "course").

Definition draft_course_loc : CourseLocator.t :=
  for_branch (BlockUsageLocator.course_key published_course_usage_key)
    BranchName.draft.

Definition locator (category name : string) : BlockUsageLocator.t :=
  make_usage_key draft_course_loc category (Some name).

(** The chapter as [get_item] loads it from the draft branch, and its
    children. *)
Definition loaded (category name : string) : BlockUsageLocator.t :=
  make_usage_key (with_version draft_course_loc 5) category (Some name).

Definition ch1 : SplitBlock.t :=
  SplitBlock.mk (loaded "chapter" "ch1") Toy.container_fields
    (stored [ref "vertical" "v1"; ref "vertical" "v3"] "Chapter") ∅.

Definition ch1_children : list BlockUsageLocator.t :=
  [loaded "vertical" "v1"; loaded "vertical" "v3"].

(** The adoption of the private vertical. *)
Definition adopted : Outcome.t unit :=
  adopt Toy.to_json Toy.block_class published_course_usage_key 7
    (Toy.loc "vertical" "v2", locator "vertical" "v2") tt world.
End ToyDraft.

(** A chapter with two private verticals: the legacy chapter lists four
    children, of which the second and the fourth exist only as drafts; the
    draft branch of the split course is still the published copy. *)
Module ToyOrder.
Definition v4 : XBlock.t := Toy.block "vertical" "v4" [] "Four".

Definition ch1 : XBlock.t :=
  Toy.block "chapter" "ch1"
    [Toy.loc "vertical" "v1"; Toy.loc "vertical" "v2"; Toy.loc "vertical" "v3";
     Toy.loc "vertical" "v4"] "Chapter".

Definition blocks : list XBlock.t := [Toy.course; ch1; Toy.v1; Toy.v2; Toy.v3; v4].

(** The legacy store, yielding the draft modules in the order [drafts]. *)
Definition source (drafts : list XBlock.t) : SourceStore.t :=
  SourceStore.mk
    (λ k, if bool_decide (k = Toy.ck) then Ok Toy.course else Raise ItemNotFoundError)
    (λ k revision,
       match revision with
       | published_only => [Toy.course; ch1; Toy.v1; Toy.v3]
       | draft_only => drafts
       | draft_preferred => blocks
       end)
    (λ l, match Toy.find_block l blocks with
          | Some b => Ok b
          | None => Raise ItemNotFoundError
          end)
    (λ l revision,
       XBlock.location <$>
         (snd <$> list_find (λ b, Toy.lists_child l b = true) blocks)).

Definition store : SplitStore.t :=
  SplitStore.mk
    {[ ("edX", "toy", "2012") :=
         {[ BranchName.published := Version.mk 4 ToyDraft.published_blocks;
            BranchName.draft := Version.mk 4 ToyDraft.published_blocks ]} ]}
    5.

Definition world (drafts : list XBlock.t) : World.t := World.mk (source drafts) store.

(** A dict that yields its items in the opposite order. *)
Definition reversed (awaiting_adoption : gmap Location.t BlockUsageLocator.t)
  : list (Location.t * BlockUsageLocator.t) :=
  reverse (map_to_list awaiting_adoption).
End ToyOrder.

(** Legacy stores that are not consistent, each in one way, over the split
    store of [ToyOrder]: the draft branch holds the chapter with the two
    published verticals. *)
Module ToyIll.
(** A legacy store holding [blocks], yielding [drafts] as its draft-only
    modules and answering [get_parent_location] with [parent]. *)
Definition source (blocks drafts : list XBlock.t)
    (parent : Location.t → option Location.t) : SourceStore.t :=
  SourceStore.mk
    (λ k, if bool_decide (k = Toy.ck) then Ok Toy.course else Raise ItemNotFoundError)
    (λ k revision,
       match revision with
       | published_only => [Toy.course; Toy.v1; Toy.v3]
       | draft_only => drafts
       | draft_preferred => blocks
       end)
    (λ l, match Toy.find_block l blocks with
          | Some b => Ok b
          | None => Raise ItemNotFoundError
          end)
    (λ l revision, parent l).

(** The draft pass over [source], the pending table iterated by
    [iteritems]. *)
Definition draft_pass
    (iteritems : gmap Location.t BlockUsageLocator.t
                 → list (Location.t * BlockUsageLocator.t))
    (source : SourceStore.t) : Outcome.t unit :=
  _add_draft_modules_to_course Toy.to_json Toy.block_class iteritems
    ToyDraft.published_course_usage_key Toy.ck 7 (World.mk source ToyOrder.store).

(** A stored field of a block of the draft branch. *)
Definition draft_field (s : SplitStore.t) (category name field : string)
  : option (Value (string * option string)) :=
  match lookup_version s ToyDraft.draft_course_loc with
  | Ok v => Version.blocks v !! (category, name) ≫= (.!! field)
  | Raise _ => None
  end.

Definition stored_field (o : Outcome.t unit) (category name field : string)
  : option (Value (string * option string)) :=
  draft_field (World.split_modulestore (Outcome.world o)) category name field.

Definition chapter (children : list Location.t) : XBlock.t :=
  Toy.block "chapter" "ch1" children "Chapter".

Definition under_chapter (l : Location.t) : option Location.t :=
  if bool_decide (Location.category l = "vertical")
  then Some (Toy.loc "chapter" "ch1") else None.

(** The chapter is the parent of the private verticals [v2] and [v4] and
    lists neither. *)
Definition unlisted : SourceStore.t :=
  source
    [Toy.course; chapter [Toy.loc "vertical" "v1"; Toy.loc "vertical" "v3"];
     Toy.v1; Toy.v2; Toy.v3; ToyOrder.v4]
    [Toy.v2; ToyOrder.v4] under_chapter.

(** Two drafts of the first vertical. *)
Definition v1_eins : XBlock.t :=
  XBlock.mk (Toy.loc "vertical" "v1") "vertical" Toy.container_fields
    {[ "display_name" := PyRaw "Eins" ]}.

Definition twice (drafts : list XBlock.t) : SourceStore.t :=
  source [Toy.course; Toy.ch1; Toy.v1; Toy.v3] drafts under_chapter.

(** A private module whose category is not that of its location. *)
Definition v2_html : XBlock.t :=
  XBlock.mk (Toy.loc "vertical" "v2") "html" Toy.container_fields
    {[ "display_name" := PyRaw "Two" ]}.

Definition miscategorised : SourceStore.t :=
  source
    [Toy.course;
     chapter [Toy.loc "vertical" "v1"; Toy.loc "vertical" "v2";
              Toy.loc "vertical" "v4"; Toy.loc "vertical" "v3"];
     Toy.v1; v2_html; Toy.v3; ToyOrder.v4]
    [v2_html; ToyOrder.v4] under_chapter.

(** Two source parents of category [course]: both go to the root of the
    destination course. *)
Definition two_roots : SourceStore.t :=
  source
    [Toy.block "course" "2012"
       [Toy.loc "chapter" "ch1"; Toy.loc "vertical" "v2"] "Toy";
     Toy.block "course" "alt"
       [Toy.loc "chapter" "ch1"; Toy.loc "vertical" "v4"] "Alt";
     Toy.v2; ToyOrder.v4]
    [Toy.v2; ToyOrder.v4]
    (λ l, if bool_decide (l = Toy.loc "vertical" "v2")
          then Some (Toy.loc "course" "2012")
          else if bool_decide (l = Toy.loc "vertical" "v4")
               then Some (Toy.loc "course" "alt")
               else None).

(** A chapter that also lists a vertical of another course with the block
    identifier of its own private vertical. *)
Definition foreign_v2 : Location.t :=
  Location.mk (CourseKey.mk "edX" "other" "2012") "vertical" "v2".

Definition two_courses : SourceStore.t :=
  source
    [Toy.course;
     chapter [foreign_v2; Toy.loc "vertical" "v4"; Toy.loc "vertical" "v2";
              Toy.loc "vertical" "v1"; Toy.loc "vertical" "v3"];
     Toy.v1; Toy.v2; Toy.v3; ToyOrder.v4]
    [Toy.v2; ToyOrder.v4] under_chapter.
End ToyIll.

(** * Properties *)

(** ** Loops *)

Lemma for_in_app {A S} (l1 l2 : list A) (body : A → S → result S) (s : S) :
  for_in (l1 ++ l2) body s =
  match for_in l1 body s with
  | Ok s' => for_in l2 body s'
  | Raise e => Raise e
  end.
Proof.
  revert s. induction l1 as [|x l1 IH]; intros s; simpl; [done|].
  destruct (body x s); [apply IH | done].
Qed.

(** ** Reference translation (4.1) *)

(** C4. Both field copiers translate a reference in the same way: the key
    is rooted in the destination namespace and keeps the category; a
    reference to a block of category "course" gets the [course_block_id]
    argument as its block identifier, whatever the identifier of the source
    root is, and any other reference keeps its block identifier. *)
Theorem get_translation_root_substitution
    (new_course_key : CourseLocator.t) (course_block_id : option string)
    (location : Location.t) :
  json_get_translation new_course_key course_block_id location
  = fields_get_translation new_course_key course_block_id location
  ∧ BlockUsageLocator.course_key
      (json_get_translation new_course_key course_block_id location)
    = new_course_key
  ∧ BlockUsageLocator.block_type
      (json_get_translation new_course_key course_block_id location)
    = Location.category location
  ∧ (Location.category location = "course" →
     json_get_translation new_course_key course_block_id location
     = make_usage_key new_course_key "course" course_block_id)
  ∧ (Location.category location ≠ "course" →
     json_get_translation new_course_key course_block_id location
     = make_usage_key new_course_key (Location.category location)
         (Some (Location.block_id location))).
Proof.
  unfold json_get_translation, fields_get_translation.
  repeat split; try done.
  - intros Hc. rewrite Hc. by rewrite bool_decide_eq_false_2 by (by intros ?).
  - intros Hc. by rewrite bool_decide_eq_true_2.
Qed.

Lemma get_translation_root_substitution_witness :
  json_get_translation Toy.new_course_key (Some "course") (Toy.loc "course" "2012")
  = make_usage_key Toy.new_course_key "course" (Some "course")
  ∧ json_get_translation Toy.new_course_key (Some "course") (Toy.loc "vertical" "v1")
  = make_usage_key Toy.new_course_key "vertical" (Some "v1").
Proof.
  split.
  - apply (get_translation_root_substitution Toy.new_course_key (Some "course")
             (Toy.loc "course" "2012")).
    reflexivity.
  - apply (get_translation_root_substitution Toy.new_course_key (Some "course")
             (Toy.loc "vertical" "v1")).
    simpl. discriminate.
Defined.

Lemma for_in_same_raise {A S1 S2} (l : list A)
    (body1 : A → S1 → result S1) (body2 : A → S2 → result S2) :
  (∀ x s1 s2, same_raise (body1 x s1) (body2 x s2)) →
  ∀ s1 s2, same_raise (for_in l body1 s1) (for_in l body2 s2).
Proof.
  intros Hbody. induction l as [|x l IH]; intros s1 s2; simpl; [done|].
  specialize (Hbody x s1 s2).
  destruct (body1 x s1), (body2 x s2); simpl in *; done.
Qed.

(** A loop that collects entries into a dict: what the dict holds at the end
    when no two items share a key. *)
Section Collect.
Context {A V K : Type} `{Countable K}.
Variable entry : A → option (result V).
Variable key : A → K.
Variable body : A → gmap K V → result (gmap K V).
Hypothesis body_eq : ∀ x acc,
  body x acc = match entry x with
               | None => Ok acc
               | Some (Ok v) => Ok (<[key x := v]> acc)
               | Some (Raise e) => Raise e
               end.

Lemma for_in_collect_lookup (l : list A) (acc r : gmap K V) (k : K) (v : V) :
  NoDup (key <$> l) →
  for_in l body acc = Ok r →
  r !! k = Some v ↔
    (∃ x, x ∈ l ∧ key x = k ∧ entry x = Some (Ok v))
    ∨ (acc !! k = Some v ∧ ∀ x w, x ∈ l → key x = k → entry x ≠ Some (Ok w)).
Proof.
  revert acc. induction l as [|x l IH]; intros acc Hnd Hrun; simpl in *.
  - inversion Hrun; subst. split.
    + intros Hk. right. split; [done|]. intros ? ? Hin. by apply elem_of_nil in Hin.
    + intros [(? & Hin & _)|[Hk _]]; [by apply elem_of_nil in Hin | done].
  - apply NoDup_cons in Hnd as [Hx Hnd].
    rewrite body_eq in Hrun.
    destruct (entry x) as [[w|e]|] eqn:Hentry; [| done |].
    + rewrite (IH _ Hnd Hrun). split.
      * intros [(y & Hy & Hky & Hey)|[Hacc Hno]].
        { left. exists y. split; [by right|done]. }
        destruct (decide (key x = k)) as [<-|Hne].
        { rewrite lookup_insert_eq in Hacc. inversion Hacc; subst.
          left. exists x. split; [by left|done]. }
        rewrite lookup_insert_ne in Hacc by done. right. split; [done|].
        intros y w' [->|Hy]%elem_of_cons Hky; [done|]. by eapply Hno.
      * intros [(y & [->|Hy]%elem_of_cons & Hky & Hey)|[Hacc Hno]].
        { right. rewrite Hentry in Hey. inversion Hey; subst.
          rewrite lookup_insert_eq. split; [done|].
          intros y w' Hy Hky. exfalso. apply Hx.
          apply list_elem_of_fmap. by exists y. }
        { left. by exists y. }
        destruct (decide (key x = k)) as [Heq|Hne].
        { exfalso. eapply (Hno x w); [by left|done|done]. }
        right. rewrite lookup_insert_ne by done. split; [done|].
        intros y w' Hy. apply Hno. by right.
    + rewrite (IH _ Hnd Hrun). split.
      * intros [(y & Hy & Hky & Hey)|[Hacc Hno]].
        { left. exists y. split; [by right|done]. }
        right. split; [done|].
        intros y w' [->|Hy]%elem_of_cons Hky; [by rewrite Hentry|]. by eapply Hno.
      * intros [(y & [->|Hy]%elem_of_cons & Hky & Hey)|[Hacc Hno]].
        { by rewrite Hentry in Hey. }
        { left. by exists y. }
        right. split; [done|]. intros y w' Hy. apply Hno. by right.
Qed.

Lemma for_in_collect_ok (l : list A) (acc : gmap K V) :
  (∀ x e, x ∈ l → entry x ≠ Some (Raise e)) →
  ∃ r, for_in l body acc = Ok r.
Proof.
  revert acc. induction l as [|x l IH]; intros acc Hok; simpl; [by eexists|].
  rewrite body_eq.
  destruct (entry x) as [[w|e]|] eqn:Hentry.
  - apply IH. intros y e Hy. apply Hok. by right.
  - exfalso. by eapply (Hok x e); [left|].
  - apply IH. intros y e Hy. apply Hok. by right.
Qed.

Lemma for_in_collect_no_raise (l : list A) (acc r : gmap K V) :
  for_in l body acc = Ok r → ∀ x e, x ∈ l → entry x ≠ Some (Raise e).
Proof.
  revert acc. induction l as [|x l IH]; intros acc Hrun y e Hy; simpl in *.
  { by apply elem_of_nil in Hy. }
  rewrite body_eq in Hrun.
  apply elem_of_cons in Hy as [->|Hy].
  - by destruct (entry x) as [[w|e']|].
  - destruct (entry x) as [[w|e']|]; [|done|]; by eapply IH.
Qed.

Lemma for_in_collect_raise (l : list A) (acc : gmap K V) (e : Exn) :
  for_in l body acc = Raise e → ∃ x, x ∈ l ∧ entry x = Some (Raise e).
Proof.
  revert acc. induction l as [|x l IH]; intros acc; simpl; [done|].
  rewrite body_eq.
  destruct (entry x) as [[w|e']|] eqn:Hentry.
  - intros (y & Hy & He)%IH. exists y. split; [by right|done].
  - intros [= ->]. exists x. split; [by left|done].
  - intros (y & Hy & He)%IH. exists y. split; [by right|done].
Qed.
End Collect.

(** ** The field copiers (4.2) *)

Section CopierFacts.
Variable to_json : Field → PyValue → PyValue.
Variables (xblock : XBlock.t) (new_course_key : CourseLocator.t)
  (course_block_id : option string).

Let json_entry (p : string * FieldKind) :=
  match XBlock.field_data xblock !! p.1 with
  | Some field_value =>
      Some (json_field to_json new_course_key course_block_id p field_value)
  | None => None
  end.

Let fields_entry (p : string * FieldKind) :=
  match XBlock.field_data xblock !! p.1 with
  | Some field_value =>
      Some (fields_field new_course_key course_block_id p field_value)
  | None => None
  end.

Lemma NoDup_fields_items :
  NoDup (fst <$> map_to_list (XBlock.fields xblock))
  ∧ NoDup ((λ p : string * FieldKind, p) <$> map_to_list (XBlock.fields xblock)).
Proof.
  split; [apply NoDup_fst_map_to_list|].
  rewrite list_fmap_id. apply NoDup_map_to_list.
Qed.

Lemma json_copier_spec :
  (∀ r, _get_json_fields_translate_references to_json xblock new_course_key
          course_block_id = Ok r →
     ∀ name v, r !! name = Some v ↔
       ∃ kind field_value,
         XBlock.fields xblock !! name = Some kind
         ∧ XBlock.field_data xblock !! name = Some field_value
         ∧ json_field to_json new_course_key course_block_id (name, kind)
             field_value = Ok v)
  ∧ ((∀ name kind field_value e,
        XBlock.fields xblock !! name = Some kind →
        XBlock.field_data xblock !! name = Some field_value →
        json_field to_json new_course_key course_block_id (name, kind)
          field_value ≠ Raise e) ↔
     ∃ r, _get_json_fields_translate_references to_json xblock new_course_key
            course_block_id = Ok r)
  ∧ (∀ e, _get_json_fields_translate_references to_json xblock new_course_key
            course_block_id = Raise e →
     ∃ name kind field_value,
       XBlock.fields xblock !! name = Some kind
       ∧ XBlock.field_data xblock !! name = Some field_value
       ∧ json_field to_json new_course_key course_block_id (name, kind)
           field_value = Raise e).
Proof.
  unfold _get_json_fields_translate_references.
  match goal with |- context [for_in _ ?b _] => set (body := b) end.
  assert (Hbody : ∀ x acc,
    body x acc = match json_entry x with
                 | None => Ok acc
                 | Some (Ok v) => Ok (<[x.1 := v]> acc)
                 | Some (Raise e) => Raise e
                 end).
  { intros [n k] acc. unfold body, json_entry, is_set_on; simpl.
    destruct (XBlock.field_data xblock !! n) as [fv|] eqn:Hfv.
    - rewrite bool_decide_eq_true_2 by eauto.
      by destruct (json_field _ _ _ _ _).
    - by rewrite bool_decide_eq_false_2 by (by intros [? ?]). }
  split; [|split].
  - intros r Hrun name v.
    eapply (for_in_collect_lookup json_entry fst body Hbody) in Hrun;
      [|apply NoDup_fields_items].
    rewrite Hrun. split.
    + intros [([n k] & Hin & Hk & He)|[Hc _]]; [|by rewrite lookup_empty in Hc].
      simpl in Hk; subst n. apply elem_of_map_to_list in Hin.
      unfold json_entry in He; simpl in He.
      destruct (XBlock.field_data xblock !! name) as [fv|] eqn:Hfv; [|done].
      exists k, fv. by inversion He.
    + intros (kind & fv & Hf & Hd & Hj). left. exists (name, kind).
      split; [by apply elem_of_map_to_list|]. split; [done|].
      unfold json_entry; simpl. by rewrite Hd, Hj.
  - split.
    + intros Hok. apply (for_in_collect_ok json_entry fst body Hbody).
      intros [n k] e Hin%elem_of_map_to_list He.
      unfold json_entry in He; simpl in He.
      destruct (XBlock.field_data xblock !! n) as [fv|] eqn:Hfv; [|done].
      inversion He as [He']. by eapply Hok.
    + intros [r Hrun] name kind fv e Hk Hd Hj.
      eapply (for_in_collect_no_raise json_entry fst body Hbody _ _ _ Hrun
                (name, kind) e); [by apply elem_of_map_to_list|].
      unfold json_entry; simpl. by rewrite Hd, Hj.
  - intros e Hrun.
    apply (for_in_collect_raise json_entry fst body Hbody) in Hrun
      as ([n k] & Hin%elem_of_map_to_list & He).
    unfold json_entry in He; simpl in He.
    destruct (XBlock.field_data xblock !! n) as [fv|] eqn:Hfv; [|done].
    exists n, k, fv. by inversion He.
Qed.

Lemma fields_copier_spec :
  (∀ r, _get_fields_translate_references xblock new_course_key
          course_block_id = Ok r →
     ∀ name kind v, r !! (name, kind) = Some v ↔
       ∃ field_value,
         XBlock.fields xblock !! name = Some kind
         ∧ XBlock.field_data xblock !! name = Some field_value
         ∧ fields_field new_course_key course_block_id (name, kind)
             field_value = Ok v)
  ∧ ((∀ name kind field_value e,
        XBlock.fields xblock !! name = Some kind →
        XBlock.field_data xblock !! name = Some field_value →
        fields_field new_course_key course_block_id (name, kind)
          field_value ≠ Raise e) ↔
     ∃ r, _get_fields_translate_references xblock new_course_key
            course_block_id = Ok r)
  ∧ (∀ e, _get_fields_translate_references xblock new_course_key
            course_block_id = Raise e →
     ∃ name kind field_value,
       XBlock.fields xblock !! name = Some kind
       ∧ XBlock.field_data xblock !! name = Some field_value
       ∧ fields_field new_course_key course_block_id (name, kind)
           field_value = Raise e).
Proof.
  unfold _get_fields_translate_references.
  match goal with |- context [for_in _ ?b _] => set (body := b) end.
  assert (Hbody : ∀ x acc,
    body x acc = match fields_entry x with
                 | None => Ok acc
                 | Some (Ok v) => Ok (<[x := v]> acc)
                 | Some (Raise e) => Raise e
                 end).
  { intros [n k] acc. unfold body, fields_entry, is_set_on; simpl.
    destruct (XBlock.field_data xblock !! n) as [fv|] eqn:Hfv.
    - rewrite bool_decide_eq_true_2 by eauto.
      by destruct (fields_field _ _ _ _).
    - by rewrite bool_decide_eq_false_2 by (by intros [? ?]). }
  split; [|split].
  - intros r Hrun name kind v.
    eapply (for_in_collect_lookup fields_entry (λ p, p) body Hbody) in Hrun;
      [|apply NoDup_fields_items].
    rewrite Hrun. split.
    + intros [([n k] & Hin & Hk & He)|[Hc _]]; [|by rewrite lookup_empty in Hc].
      inversion Hk; subst n k. apply elem_of_map_to_list in Hin.
      unfold fields_entry in He; simpl in He.
      destruct (XBlock.field_data xblock !! name) as [fv|] eqn:Hfv; [|done].
      exists fv. by inversion He.
    + intros (fv & Hf & Hd & Hj). left. exists (name, kind).
      split; [by apply elem_of_map_to_list|]. split; [done|].
      unfold fields_entry; simpl. by rewrite Hd, Hj.
  - split.
    + intros Hok. apply (for_in_collect_ok fields_entry (λ p, p) body Hbody).
      intros [n k] e Hin%elem_of_map_to_list He.
      unfold fields_entry in He; simpl in He.
      destruct (XBlock.field_data xblock !! n) as [fv|] eqn:Hfv; [|done].
      inversion He as [He']. by eapply Hok.
    + intros [r Hrun] name kind fv e Hk Hd Hj.
      eapply (for_in_collect_no_raise fields_entry (λ p, p) body Hbody _ _ _ Hrun
                (name, kind) e); [by apply elem_of_map_to_list|].
      unfold fields_entry; simpl. by rewrite Hd, Hj.
  - intros e Hrun.
    apply (for_in_collect_raise fields_entry (λ p, p) body Hbody) in Hrun
      as ([n k] & Hin%elem_of_map_to_list & He).
    unfold fields_entry in He; simpl in He.
    destruct (XBlock.field_data xblock !! n) as [fv|] eqn:Hfv; [|done].
    exists n, k, fv. by inversion He.
Qed.

(** For one field the two copiers raise alike, and the JSON copier returns
    the JSON representation of what the raw copier returns. *)
Lemma fields_field_json_field field field_value :
  match fields_field new_course_key course_block_id field field_value with
  | Ok v =>
      json_field to_json new_course_key course_block_id field field_value
      = Ok (json_repr to_json field v)
  | Raise e =>
      json_field to_json new_course_key course_block_id field field_value
      = Raise e
  end.
Proof.
  destruct field as [n k]. unfold fields_field, json_field; simpl.
  destruct k, field_value; simpl; try done; by case_bool_decide.
Qed.
End CopierFacts.

(** C10. The two field copiers agree on every block and destination
    namespace: they raise alike; when they return, both hold an entry for
    exactly the explicitly set fields, the one under the field's name and
    the other under its descriptor; the entry of the JSON copier is the JSON
    representation of the entry of the raw copier, so that a reference field
    which is not null has the same translated value in both. *)
Theorem field_copiers_agree (to_json : Field → PyValue → PyValue)
    (xblock : XBlock.t) (new_course_key : CourseLocator.t)
    (course_block_id : option string) :
  match _get_json_fields_translate_references to_json xblock new_course_key
          course_block_id,
        _get_fields_translate_references xblock new_course_key course_block_id
  with
  | Ok by_name, Ok by_field =>
      (∀ name, is_Some (by_name !! name) ↔
         is_Some (XBlock.fields xblock !! name) ∧ is_set_on name xblock = true)
      ∧ (∀ name kind, is_Some (by_field !! (name, kind)) ↔
           XBlock.fields xblock !! name = Some kind ∧ is_set_on name xblock = true)
      ∧ (∀ name kind v, by_field !! (name, kind) = Some v →
           by_name !! name = Some (json_repr to_json (name, kind) v))
      ∧ (∀ name kind, XBlock.fields xblock !! name = Some kind →
           kind ≠ OtherField →
           XBlock.field_data xblock !! name ≠ Some PyNone →
           by_name !! name = by_field !! (name, kind))
  | Raise e1, Raise e2 => e1 = e2
  | _, _ => False
  end.
Proof.
  pose proof (json_copier_spec to_json xblock new_course_key course_block_id)
    as (Hjl & Hjo & Hjr).
  pose proof (fields_copier_spec xblock new_course_key course_block_id)
    as (Hfl & Hfo & Hfr).
  assert (Hsame : same_raise
    (_get_json_fields_translate_references to_json xblock new_course_key
       course_block_id)
    (_get_fields_translate_references xblock new_course_key course_block_id)).
  { apply for_in_same_raise. intros [n k] s1 s2.
    destruct (is_set_on n xblock); [|done].
    destruct (XBlock.field_data xblock !! n) as [fv|]; [|done].
    pose proof (fields_field_json_field to_json new_course_key course_block_id
                  (n, k) fv) as Hone.
    cbv zeta.
    destruct (fields_field _ _ _ _); by rewrite Hone. }
  destruct (_get_json_fields_translate_references _ _ _ _) as [by_name|e1];
    destruct (_get_fields_translate_references _ _ _) as [by_field|e2];
    try done.
  specialize (Hjl _ eq_refl). specialize (Hfl _ eq_refl).
  assert (Hjok : ∀ name kind fv, XBlock.fields xblock !! name = Some kind →
            XBlock.field_data xblock !! name = Some fv →
            ∃ v, fields_field new_course_key course_block_id (name, kind) fv
                 = Ok v).
  { intros name kind fv Hk Hd.
    destruct (fields_field new_course_key course_block_id (name, kind) fv)
      as [v|e] eqn:Hone; [by eexists|].
    exfalso. eapply Hfo; eauto. }
  assert (Hset : ∀ name, is_set_on name xblock = true ↔
                         is_Some (XBlock.field_data xblock !! name)).
  { intros name. unfold is_set_on. by rewrite bool_decide_eq_true. }
  assert (Hrel : ∀ name kind v, by_field !! (name, kind) = Some v →
            by_name !! name = Some (json_repr to_json (name, kind) v)).
  { intros name kind v (fv & Hk & Hd & Hv)%Hfl. apply Hjl. exists kind, fv.
    split; [done|]. split; [done|].
    pose proof (fields_field_json_field to_json new_course_key course_block_id
                  (name, kind) fv) as Hone.
    by rewrite Hv in Hone. }
  split; [|split; [|split]]; [| |exact Hrel|].
  - intros name. rewrite Hset. split.
    + intros [v (kind & fv & Hk & Hd & _)%Hjl]. split; eauto.
    + intros [[kind Hk] [fv Hd]].
      destruct (Hjok _ _ _ Hk Hd) as [v Hv].
      assert (by_field !! (name, kind) = Some v) as Hv' by (apply Hfl; eauto).
      rewrite (Hrel _ _ _ Hv'). eauto.
  - intros name kind. rewrite Hset. split.
    + intros [v (fv & Hk & Hd & _)%Hfl]. split; eauto.
    + intros [Hk [fv Hd]].
      destruct (Hjok _ _ _ Hk Hd) as [v Hv].
      exists v. apply Hfl; eauto.
  - intros name kind Hk Hkind Hnull.
    destruct (by_field !! (name, kind)) as [v|] eqn:Hv.
    + rewrite (Hrel _ _ _ Hv). f_equal.
      apply Hfl in Hv as (fv & _ & Hd & Hone).
      unfold fields_field in Hone; simpl in Hone.
      destruct kind, fv; simplify_eq; try done;
        try (by case_bool_decide; simplify_eq).
    + destruct (by_name !! name) as [v|] eqn:Hn; [|done].
      apply Hjl in Hn as (kind' & fv & Hk' & Hd & _).
      rewrite Hk in Hk'. inversion Hk'; subst kind'.
      destruct (Hjok _ _ _ Hk Hd) as [v' Hv'].
      assert (by_field !! (name, kind) = Some v') as Hv'' by (apply Hfl; eauto).
      by rewrite Hv in Hv''.
Qed.

(** C7. A single-reference field that is explicitly set to null is never
    handed to the reference translation: in both copiers the loop body
    takes the last branch for it and does not raise, the field is in the
    output with the null value (its [read_json] in the JSON copier), and
    when a copier raises it is another field that raised. *)
Theorem null_reference_passes_through (to_json : Field → PyValue → PyValue)
    (xblock : XBlock.t) (new_course_key : CourseLocator.t)
    (course_block_id : option string) (name : string) :
  XBlock.fields xblock !! name = Some Reference →
  XBlock.field_data xblock !! name = Some PyNone →
  json_field to_json new_course_key course_block_id (name, Reference) PyNone
  = Ok (VPlain (read_json to_json (name, Reference) PyNone))
  ∧ fields_field new_course_key course_block_id (name, Reference) PyNone
    = Ok (VPlain PyNone)
  ∧ (∀ r, _get_json_fields_translate_references to_json xblock new_course_key
            course_block_id = Ok r →
       r !! name = Some (VPlain (read_json to_json (name, Reference) PyNone)))
  ∧ (∀ r, _get_fields_translate_references xblock new_course_key
            course_block_id = Ok r →
       r !! (name, Reference) = Some (VPlain PyNone))
  ∧ (∀ e, _get_json_fields_translate_references to_json xblock new_course_key
            course_block_id = Raise e →
       ∃ other kind field_value,
         other ≠ name
         ∧ XBlock.fields xblock !! other = Some kind
         ∧ XBlock.field_data xblock !! other = Some field_value
         ∧ json_field to_json new_course_key course_block_id (other, kind)
             field_value = Raise e)
  ∧ (∀ e, _get_fields_translate_references xblock new_course_key
            course_block_id = Raise e →
       ∃ other kind field_value,
         other ≠ name
         ∧ XBlock.fields xblock !! other = Some kind
         ∧ XBlock.field_data xblock !! other = Some field_value
         ∧ fields_field new_course_key course_block_id (other, kind)
             field_value = Raise e).
Proof.
  intros Hkind Hnull.
  pose proof (json_copier_spec to_json xblock new_course_key course_block_id)
    as (Hjl & _ & Hjr).
  pose proof (fields_copier_spec xblock new_course_key course_block_id)
    as (Hfl & _ & Hfr).
  split; [done|]. split; [done|]. split; [|split; [|split]].
  - intros r Hr. apply (Hjl r Hr). by exists Reference, PyNone.
  - intros r Hr. apply (Hfl r Hr). by exists PyNone.
  - intros e (other & kind & fv & Hk & Hd & Hj)%Hjr.
    exists other, kind, fv. split; [|done].
    intros ->. rewrite Hkind in Hk. rewrite Hnull in Hd. by simplify_eq.
  - intros e (other & kind & fv & Hk & Hd & Hj)%Hfr.
    exists other, kind, fv. split; [|done].
    intros ->. rewrite Hkind in Hk. rewrite Hnull in Hd. by simplify_eq.
Qed.

Lemma null_reference_passes_through_witness :
  _get_json_fields_translate_references Toy.to_json Toy.null_ref
    Toy.new_course_key (Some "course")
  = Ok {[ "parent_ref" := VPlain PyNone; "display_name" := VPlain (PyRaw "Html") ]}
  ∧ ∀ r, _get_fields_translate_references Toy.null_ref Toy.new_course_key
           (Some "course") = Ok r →
         r !! ("parent_ref", Reference) = Some (VPlain PyNone).
Proof.
  split; [vm_compute; reflexivity|].
  apply (null_reference_passes_through Toy.to_json Toy.null_ref
           Toy.new_course_key (Some "course") "parent_ref");
    vm_compute; reflexivity.
Defined.

(** ** Running in the world *)

Lemma bind_ok {A B} (m : M A) (k : A → M B) (w : World.t) (a : A) :
  Outcome.returned (m w) = Ok a →
  Outcome.world (bind m k w) = Outcome.world (k a (Outcome.world (m w)))
  ∧ Outcome.returned (bind m k w) = Outcome.returned (k a (Outcome.world (m w)))
  ∧ Outcome.logged (bind m k w)
    = Outcome.logged (m w) ++ Outcome.logged (k a (Outcome.world (m w))).
Proof. intros Hm. unfold bind. by rewrite Hm. Qed.

Lemma bind_raise {A B} (m : M A) (k : A → M B) (w : World.t) (e : Exn) :
  Outcome.returned (m w) = Raise e →
  Outcome.world (bind m k w) = Outcome.world (m w)
  ∧ Outcome.returned (bind m k w) = Raise e
  ∧ Outcome.logged (bind m k w) = Outcome.logged (m w).
Proof. intros Hm. unfold bind. by rewrite Hm. Qed.

Lemma for_each_cons {A S} (x : A) (l : list A) (body : A → S → M S) (s : S) :
  for_each (x :: l) body s = bind (body x s) (for_each l body).
Proof. done. Qed.

Lemma for_each_app {A S} (l1 l2 : list A) (body : A → S → M S) (s : S) :
  ∀ w, for_each (l1 ++ l2) body s w
       = bind (for_each l1 body s) (for_each l2 body) w.
Proof.
  revert s. induction l1 as [|x l1 IH]; intros s w; simpl.
  - unfold bind, ret; simpl. by destruct (for_each l2 body s w) as [? ? []].
  - unfold bind; cbn beta.
    destruct (body x s w) as [w1 lg1 [s1|e]] eqn:Hb; simpl; [|done].
    rewrite IH. unfold bind.
    destruct (for_each l1 body s1 w1) as [w2 lg2 [s2|e]]; simpl; [|done].
    by rewrite app_assoc.
Qed.

(** ** The source store is only read (4.3) *)

Lemma keeps_source_ret {A} (a : A) : keeps_source (ret a).
Proof. done. Qed.

Lemma keeps_source_raise {A} (e : Exn) : keeps_source (raise (A:=A) e).
Proof. done. Qed.

Lemma keeps_source_lift {A} (r : result A) : keeps_source (lift r).
Proof. done. Qed.

Lemma keeps_source_log_warn msg arg : keeps_source (log_warn msg arg).
Proof. done. Qed.

Lemma keeps_source_source_read {A} (f : SourceStore.t → A) :
  keeps_source (source_read f).
Proof. done. Qed.

Lemma keeps_source_split_read {A} (f : SplitStore.t → A) :
  keeps_source (split_read f).
Proof. done. Qed.

Lemma keeps_source_split_write {A} (f : SplitStore.t → result (SplitStore.t * A)) :
  keeps_source (split_write f).
Proof.
  intros w. unfold split_write.
  by destruct (f (World.split_modulestore w)) as [[s' a]|e].
Qed.

Lemma keeps_source_bind {A B} (m : M A) (k : A → M B) :
  keeps_source m → (∀ a, keeps_source (k a)) → keeps_source (bind m k).
Proof.
  intros Hm Hk w. unfold bind.
  destruct (Outcome.returned (m w)) as [a|e] eqn:Hr; simpl.
  - by rewrite Hk, Hm.
  - apply Hm.
Qed.

Lemma keeps_source_for_each {A S} (l : list A) (body : A → S → M S) (s : S) :
  (∀ x s, keeps_source (body x s)) → keeps_source (for_each l body s).
Proof.
  intros Hbody. revert s. induction l as [|x l IH]; intros s; simpl.
  - apply keeps_source_ret.
  - apply keeps_source_bind; [apply Hbody | apply IH].
Qed.

Create HintDb keeps_source.
#[local] Hint Resolve keeps_source_ret keeps_source_raise keeps_source_lift
  keeps_source_log_warn keeps_source_source_read keeps_source_split_read
  keeps_source_split_write : keeps_source.

Ltac keeps_source :=
  repeat first
    [ solve [auto with keeps_source]
    | apply keeps_source_bind; [|intros ?]
    | apply keeps_source_for_each; intros ? ?
    | match goal with
      | |- keeps_source (match ?x with _ => _ end) => destruct x
      | |- keeps_source (if ?b then _ else _) => destruct b
      | |- keeps_source (let '(_, _) := ?p in _) => destruct p
      end ].

Section Frame.
Variable to_json : Field → PyValue → PyValue.
Variable block_class : string → gmap string FieldKind.
Variable root_block_id : string.
Variable iteritems :
  gmap Location.t BlockUsageLocator.t → list (Location.t * BlockUsageLocator.t).

Lemma keeps_source_copy_published new_course old_course_loc source_course_key user_id :
  keeps_source (_copy_published_modules_to_course to_json new_course
                  old_course_loc source_course_key user_id).
Proof.
  unfold _copy_published_modules_to_course, copy_published_module. keeps_source.
Qed.

Lemma keeps_source_add_draft published_course_usage_key source_course_key user_id :
  keeps_source (_add_draft_modules_to_course to_json block_class iteritems
                  published_course_usage_key source_course_key user_id).
Proof.
  unfold _add_draft_modules_to_course, add_draft_module, adopt, split_get_item.
  keeps_source.
Qed.
End Frame.

#[local] Hint Resolve keeps_source_copy_published keeps_source_add_draft
  : keeps_source.

(** C9. Every run of [migrate_mongo_course], whether it returns or raises,
    leaves the source modulestore as it was: the migrator reaches it through
    its read methods only and every write goes to the split store. *)
Theorem migrate_mongo_course_keeps_source
    (to_json : Field → PyValue → PyValue)
    (block_class : string → gmap string FieldKind) (root_block_id : string)
    (iteritems : gmap Location.t BlockUsageLocator.t
                 → list (Location.t * BlockUsageLocator.t))
    (source_course_key : CourseKey.t) (user_id : nat)
    (new_org new_course new_run : option string) (w : World.t) :
  World.source_modulestore
    (Outcome.world
       (migrate_mongo_course to_json block_class root_block_id iteritems
          source_course_key user_id new_org new_course new_run w))
  = World.source_modulestore w.
Proof.
  revert w. fold (keeps_source
    (migrate_mongo_course to_json block_class root_block_id iteritems
       source_course_key user_id new_org new_course new_run)).
  unfold migrate_mongo_course, bulk_write_operations.
  keeps_source.
Qed.

(** ** Stepping through a computation *)

Lemma bind_ret_l {A B} (a : A) (k : A → M B) w : bind (ret a) k w = k a w.
Proof. unfold bind, ret; simpl. by destruct (k a w). Qed.

Lemma bind_lift {A B} (r : result A) (k : A → M B) w :
  bind (lift r) k w
  = match r with Ok a => k a w | Raise e => Outcome.mk w [] (Raise e) end.
Proof. unfold bind, lift; simpl. destruct r; [by destruct (k a w)|done]. Qed.

Lemma bind_source_read {A B} (f : SourceStore.t → A) (k : A → M B) w :
  bind (source_read f) k w = k (f (World.source_modulestore w)) w.
Proof. unfold bind, source_read; simpl. by destruct (k _ w). Qed.

Lemma bind_split_read {A B} (f : SplitStore.t → A) (k : A → M B) w :
  bind (split_read f) k w = k (f (World.split_modulestore w)) w.
Proof. unfold bind, split_read; simpl. by destruct (k _ w). Qed.

Lemma bind_split_write {A B} (f : SplitStore.t → result (SplitStore.t * A))
    (k : A → M B) w :
  bind (split_write f) k w
  = match f (World.split_modulestore w) with
    | Ok (s', a) => k a (World.mk (World.source_modulestore w) s')
    | Raise e => Outcome.mk w [] (Raise e)
    end.
Proof.
  unfold bind, split_write; simpl.
  destruct (f (World.split_modulestore w)) as [[s' a]|e]; simpl; [|done].
  by destruct (k a _).
Qed.

Lemma bind_log_warn {B} msg arg (k : unit → M B) w :
  bind (log_warn msg arg) k w
  = let o := k tt w in
    Outcome.mk (Outcome.world o) (Warn msg arg :: Outcome.logged o)
      (Outcome.returned o).
Proof. done. Qed.

Lemma bind_assoc {A B C} (m : M A) (k : A → M B) (k' : B → M C) w :
  bind (bind m k) k' w = bind m (λ a, bind (k a) k') w.
Proof.
  unfold bind.
  destruct (m w) as [w1 lg1 [a|e]]; simpl; [|done].
  destruct (k a w1) as [w2 lg2 [b|e]]; simpl; [|done].
  by rewrite app_assoc.
Qed.

Lemma split_write_run {A} (f : SplitStore.t → result (SplitStore.t * A)) w :
  split_write f w
  = match f (World.split_modulestore w) with
    | Ok (s', a) => Outcome.mk (World.mk (World.source_modulestore w) s') [] (Ok a)
    | Raise e => Outcome.mk w [] (Raise e)
    end.
Proof. done. Qed.

Ltac step :=
  first
    [ rewrite bind_assoc
    | rewrite bind_source_read
    | rewrite bind_split_read
    | rewrite bind_lift
    | rewrite bind_ret_l
    | rewrite bind_split_write
    | rewrite split_write_run ];
  cbv beta.

(** ** Facts about the identifiers *)

Lemma course_id_for_branch ck b : course_id (for_branch ck b) = course_id ck.
Proof. done. Qed.

Lemma course_id_with_version ck g : course_id (with_version ck g) = course_id ck.
Proof. done. Qed.

Lemma version_agnostic_with_version ck g :
  CourseLocator.version_guid ck = None →
  course_version_agnostic (with_version ck g) = ck.
Proof. destruct ck; simpl. by intros ->. Qed.

Lemma version_agnostic_idemp l :
  version_agnostic (version_agnostic l) = version_agnostic l.
Proof. done. Qed.

Lemma block_ref_rooted ck r : block_ref (rooted ck r) = r.
Proof. by destruct r. Qed.

Lemma rooted_block_ref l : rooted (BlockUsageLocator.course_key l) (block_ref l) = l.
Proof. by destruct l. Qed.

Lemma version_agnostic_rooted ck g r :
  CourseLocator.version_guid ck = None →
  version_agnostic (rooted (with_version ck g) r) = rooted ck r.
Proof.
  intros Hck. unfold version_agnostic, rooted, make_usage_key; simpl.
  by rewrite version_agnostic_with_version.
Qed.

Lemma rooted_inj ck : Inj (=) (=) (rooted ck).
Proof. intros [a b] [c d] Heq. by inversion Heq. Qed.

(** ** Facts about the split store *)

Section StoreFacts.
Variable to_json : Field → PyValue → PyValue.
Variable block_class : string → gmap string FieldKind.

Lemma lookup_version_with_version s ck g :
  lookup_version s (with_version ck g) = lookup_version s ck.
Proof. done. Qed.

Lemma lookup_version_write s ck b blocks ck' :
  course_id ck' = course_id ck →
  CourseLocator.branch ck' = Some b →
  lookup_version (write_version s ck b blocks) ck'
  = Ok (Version.mk (SplitStore.next_guid s) blocks).
Proof.
  intros Hid Hb. unfold lookup_version, write_version; simpl.
  by rewrite Hb, Hid, lookup_insert_eq, lookup_insert_eq.
Qed.

Lemma lookup_version_write_other s ck b blocks ck' :
  course_id ck' = course_id ck →
  CourseLocator.branch ck' ≠ Some b →
  lookup_version (write_version s ck b blocks) ck' = lookup_version s ck'.
Proof.
  intros Hid Hb. unfold lookup_version, write_version; simpl.
  destruct (CourseLocator.branch ck') as [b'|] eqn:Hb'; [|done].
  rewrite Hid, lookup_insert_eq.
  destruct (SplitStore.course_index s !! course_id ck) as [versions|]; simpl.
  - rewrite lookup_insert_ne; [done|]. by intros ->.
  - rewrite lookup_insert_ne; [by rewrite lookup_empty|]. by intros ->.
Qed.

Lemma write_version_twice s ck b blocks1 blocks2 :
  write_version (write_version s ck b blocks1) ck b blocks2
  = SplitStore.mk
      (<[course_id ck :=
           <[b := Version.mk (S (SplitStore.next_guid s)) blocks2]>
             (default ∅ (SplitStore.course_index s !! course_id ck))]>
         (SplitStore.course_index s))
      (S (S (SplitStore.next_guid s))).
Proof.
  unfold write_version; simpl.
  by rewrite lookup_insert_eq, insert_insert_eq; simpl; rewrite insert_insert_eq.
Qed.
End StoreFacts.

(** ** One adoption, seen on the snapshot of the draft branch *)

(** The cursor only looks at the children through [version_agnostic]. *)
Lemma scan_for_sibling_version_agnostic idxs children sibling_loc cursor :
  scan_for_sibling idxs (version_agnostic <$> children) sibling_loc cursor
  = scan_for_sibling idxs children sibling_loc cursor.
Proof.
  induction idxs as [|idx idxs IH]; simpl; [done|].
  rewrite list_lookup_fmap.
  destruct (children !! idx) as [child|]; simpl; [|done].
  rewrite version_agnostic_idemp. by rewrite IH.
Qed.

Lemma walk_old_children_version_agnostic old_children draft_location ck children cursor :
  walk_old_children old_children draft_location ck (version_agnostic <$> children) cursor
  = walk_old_children old_children draft_location ck children cursor.
Proof.
  revert cursor. induction old_children as [|c rest IH]; intros cursor; simpl; [done|].
  case_bool_decide; [done|].
  by rewrite length_fmap, scan_for_sibling_version_agnostic, IH.
Qed.

Lemma insertion_cursor_version_agnostic old_children draft_location ck children :
  insertion_cursor old_children draft_location ck (version_agnostic <$> children)
  = insertion_cursor old_children draft_location ck children.
Proof. apply walk_old_children_version_agnostic. Qed.

Lemma existsb_elem_of_version_agnostic nl children :
  existsb (λ child, bool_decide (nl = version_agnostic child)) children
  = bool_decide (nl ∈ version_agnostic <$> children).
Proof.
  destruct (existsb _ children) eqn:He; symmetry.
  - apply bool_decide_eq_true_2.
    apply existsb_exists in He as (x & Hin & Hx).
    apply bool_decide_eq_true_1 in Hx. subst.
    apply list_elem_of_fmap. exists x. split; [done|by apply list_elem_of_In].
  - apply bool_decide_eq_false_2. intros (x & -> & Hin)%list_elem_of_fmap.
    assert (existsb (λ child, bool_decide (version_agnostic x = version_agnostic child))
              children = true) as Hex; [|congruence].
    apply existsb_exists. exists x.
    split; [by apply list_elem_of_In | by apply bool_decide_eq_true_2].
Qed.

Lemma list_insert_fmap {A B} (f : A → B) i x (l : list A) :
  f <$> list_insert i x l = list_insert i (f x) (f <$> l).
Proof. unfold list_insert. by rewrite fmap_app, fmap_cons, fmap_take, fmap_drop. Qed.

Lemma block_ref_rooted_fmap ck (refs : list BlockRef) : block_ref <$> (rooted ck <$> refs) = refs.
Proof.
  rewrite <- list_fmap_compose. rewrite <- (list_fmap_id refs) at 2.
  apply list_fmap_ext. intros ? r _. apply block_ref_rooted.
Qed.

Lemma version_agnostic_rooted_fmap ck g (refs : list BlockRef) :
  CourseLocator.version_guid ck = None →
  version_agnostic <$> (rooted (with_version ck g) <$> refs) = rooted ck <$> refs.
Proof.
  intros Hck. rewrite <- list_fmap_compose.
  apply list_fmap_ext. intros ? r _. by apply version_agnostic_rooted.
Qed.

Section AdoptRun.
Variable to_json : Field → PyValue → PyValue.
Variable block_class : string → gmap string FieldKind.
Variables (published_course_usage_key : BlockUsageLocator.t) (user_id : nat).

Let ck := draft_course published_course_usage_key.

Lemma get_item_head s v category block_id :
  lookup_version s ck = Ok v →
  get_item block_class s (make_usage_key ck category block_id)
  = match block_id with
    | None => Raise ItemNotFoundError
    | Some bid =>
        match Version.blocks v !! (category, bid) with
        | None => Raise ItemNotFoundError
        | Some stored =>
            Ok (SplitBlock.mk
                  (make_usage_key (with_version ck (Version.guid v)) category (Some bid))
                  (block_class category) stored ∅)
        end
    end.
Proof. intros Hv. unfold get_item; simpl. by rewrite Hv. Qed.

Lemma split_children_loaded l fields stored :
  split_children (SplitBlock.mk l fields stored ∅)
  = match children_refs stored with
    | Ok refs => Ok (rooted (BlockUsageLocator.course_key l) <$> refs)
    | Raise e => Raise e
    end.
Proof.
  unfold split_children, children_refs; simpl.
  by destruct (stored !! "children") as [[]|].
Qed.

Lemma update_item_children s v category bid stored children g :
  lookup_version s ck = Ok v →
  Version.blocks v !! (category, bid) = Some stored →
  update_item to_json s
    (set_children children
       (SplitBlock.mk (make_usage_key (with_version ck g) category (Some bid))
          (block_class category) stored ∅))
    user_id
  = Ok (write_version s ck BranchName.draft
          (<[(category, bid) :=
               <["children" := VRefList (block_ref <$> children)]> stored]>
             (Version.blocks v))).
Proof.
  intros Hv Hstored. unfold update_item, set_children, write_to; simpl.
  rewrite lookup_version_with_version. fold ck. rewrite Hv. simpl.
  rewrite Hstored. rewrite bool_decide_eq_true_2 by eauto.
  rewrite insert_empty, map_fmap_singleton. unfold serialize; simpl.
  by rewrite <- insert_union_singleton_l.
Qed.

Lemma adopt_run item w v :
  lookup_version (World.split_modulestore w) ck = Ok v →
  let o := adopt to_json block_class published_course_usage_key user_id item tt w in
  Outcome.world o
  = match adopt_blocks (World.source_modulestore w) published_course_usage_key
            item (Version.blocks v) with
    | Ok (Some blocks) =>
        World.mk (World.source_modulestore w)
          (write_version (World.split_modulestore w) ck BranchName.draft blocks)
    | _ => w
    end
  ∧ Outcome.returned o
    = match adopt_blocks (World.source_modulestore w) published_course_usage_key
              item (Version.blocks v) with
      | Ok _ => Ok tt
      | Raise e => Raise e
      end.
Proof.
  intros Hv. destruct item as [draft_location new_locator].
  cbv zeta. unfold adopt, adopt_blocks, split_get_item; simpl.
  fold (draft_course published_course_usage_key). fold ck.
  destruct (SourceStore.get_parent_location _ _ _) as [parent_loc|]; [|done].
  do 3 step.
  destruct (SourceStore.get_item _ parent_loc) as [old_parent|e]; [|done].
  do 3 step.
  rewrite (get_item_head _ v) by done.
  unfold split_parent_key.
  destruct (if bool_decide (Location.category parent_loc ≠ "course")
            then Some (Location.block_id parent_loc)
            else BlockUsageLocator.block_id published_course_usage_key)
    as [bid|]; [|done].
  destruct (Version.blocks v !! (Location.category parent_loc, bid))
    as [stored|] eqn:Hstored; simpl in Hstored; rewrite ?Hstored; [|done].
  step. rewrite split_children_loaded. simpl.
  destruct (children_refs stored) as [refs|e]; [|done].
  rewrite existsb_elem_of_version_agnostic.
  rewrite version_agnostic_rooted_fmap by done.
  case_bool_decide; [done|].
  step.
  destruct (xblock_children old_parent) as [old_children|e]; [|done].
  step.
  rewrite (update_item_children _ v) by done. simpl.
  rewrite <- (insertion_cursor_version_agnostic _ _ _ (rooted (with_version ck _) <$> refs)).
  rewrite version_agnostic_rooted_fmap by done.
  by rewrite !list_insert_fmap, !block_ref_rooted_fmap.
Qed.
End AdoptRun.

(** ** The sibling cursor (4.5) *)

Lemma scan_for_sibling_list_find i n children sibling_loc cursor :
  scan_for_sibling (seq i n) children sibling_loc cursor
  = match list_find (λ child, version_agnostic child = sibling_loc)
            (take n (drop i children)) with
    | Some (j, _) => i + j + 1
    | None => cursor
    end.
Proof.
  revert i. induction n as [|n IH]; intros i; simpl.
  { done. }
  destruct (children !! i) as [child|] eqn:Hi.
  - rewrite (drop_S _ _ _ Hi). simpl.
    case_bool_decide as Hm.
    + rewrite decide_True by done. simpl. lia.
    + rewrite decide_False by done. rewrite IH.
      destruct (list_find _ (take n (drop (S i) children))) as [[j ?]|]; simpl; lia.
  - apply lookup_ge_None in Hi. by rewrite drop_ge by done.
Qed.

Lemma scan_for_sibling_position_from children sibling_loc cursor :
  scan_for_sibling (seq cursor (length children - cursor)) children sibling_loc cursor
  = match position_from cursor children sibling_loc with
    | Some i => i + 1
    | None => cursor
    end.
Proof.
  rewrite scan_for_sibling_list_find. unfold position_from.
  rewrite take_ge by (rewrite length_drop; lia).
  by destruct (list_find _ _) as [[j ?]|].
Qed.

Lemma walk_old_children_foldl old_children draft_location ck children cursor :
  walk_old_children old_children draft_location ck children cursor
  = foldl (advance_past ck children) cursor
      (preceding_siblings old_children draft_location).
Proof.
  revert cursor. induction old_children as [|c rest IH]; intros cursor; simpl; [done|].
  case_bool_decide; [done|]. simpl.
  by rewrite IH, scan_for_sibling_position_from.
Qed.

Lemma insertion_cursor_sibling_cursor old_children draft_location ck children :
  insertion_cursor old_children draft_location ck children
  = sibling_cursor old_children draft_location ck children.
Proof. apply walk_old_children_foldl. Qed.

(** C1. When the source parent of a pending adoption resolves and the
    translated identifier is not yet among the children of the destination
    parent, [adopt] inserts it at the position the walk of 4.5 describes:
    the cursor starts at zero, goes through the source parent's children
    that come before the adopted child and moves one past each of them that
    is found in the destination list at or after the cursor.  For a source
    parent [A, B, C] and a destination parent holding the copies of A and
    C, B ends up between them. *)
Theorem adoption_inserts_at_sibling_cursor
    (to_json : Field → PyValue → PyValue)
    (block_class : string → gmap string FieldKind)
    (published_course_usage_key : BlockUsageLocator.t) (user_id : nat)
    (draft_location : Location.t) (new_locator : BlockUsageLocator.t)
    (w : World.t) (parent_loc : Location.t) (old_parent : XBlock.t)
    (old_children : list Location.t) (new_parent : SplitBlock.t)
    (children : list BlockUsageLocator.t) :
  let new_draft_course_loc := draft_course published_course_usage_key in
  let split_parent_loc :=
    make_usage_key new_draft_course_loc (Location.category parent_loc)
      (if bool_decide (Location.category parent_loc ≠ "course")
       then Some (Location.block_id parent_loc)
       else BlockUsageLocator.block_id published_course_usage_key) in
  BlockUsageLocator.course_key new_locator = new_draft_course_loc →
  SourceStore.get_parent_location (World.source_modulestore w) draft_location
    draft_preferred = Some parent_loc →
  SourceStore.get_item (World.source_modulestore w) parent_loc = Ok old_parent →
  xblock_children old_parent = Ok old_children →
  get_item block_class (World.split_modulestore w) split_parent_loc = Ok new_parent →
  split_children new_parent = Ok children →
  existsb (λ child, bool_decide (new_locator = version_agnostic child)) children
  = false →
  let o := adopt to_json block_class published_course_usage_key user_id
             (draft_location, new_locator) tt w in
  insertion_cursor old_children draft_location new_draft_course_loc children
  = sibling_cursor old_children draft_location new_draft_course_loc children
  ∧ Outcome.returned o = Ok tt
  ∧ ∃ new_parent' children',
      get_item block_class (World.split_modulestore (Outcome.world o))
        split_parent_loc = Ok new_parent'
      ∧ split_children new_parent' = Ok children'
      ∧ version_agnostic <$> children'
        = list_insert
            (sibling_cursor old_children draft_location new_draft_course_loc children)
            new_locator (version_agnostic <$> children)
      ∧ ∀ A C a c,
          old_children = [A; draft_location; C] →
          A ≠ draft_location →
          children = [a; c] →
          version_agnostic a
          = make_usage_key new_draft_course_loc (Location.category A)
              (Some (Location.block_id A)) →
          version_agnostic <$> children'
          = [version_agnostic a; new_locator; version_agnostic c].
Proof.
  intros ck split_parent_loc Hroot Hparent Hold Hold_children Hget Hchildren Hnew o.
  split; [apply insertion_cursor_sibling_cursor|].
  assert (Hck : CourseLocator.version_guid ck = None) by done.
  subst split_parent_loc. subst ck.
  destruct (lookup_version (World.split_modulestore w)
              (draft_course published_course_usage_key)) as [v|e] eqn:Hv;
    [|by unfold get_item in Hget; simpl in Hget; rewrite Hv in Hget].
  rewrite (get_item_head block_class published_course_usage_key _ v) in Hget by done.
  destruct (if bool_decide (Location.category parent_loc ≠ "course")
            then Some (Location.block_id parent_loc)
            else BlockUsageLocator.block_id published_course_usage_key)
    as [bid|] eqn:Hbid; [|done].
  destruct (Version.blocks v !! (Location.category parent_loc, bid))
    as [stored|] eqn:Hstored; [|done].
  inversion Hget; subst new_parent; clear Hget.
  rewrite split_children_loaded in Hchildren; simpl in Hchildren.
  destruct (children_refs stored) as [refs|] eqn:Hrefs; [|done].
  inversion Hchildren; subst children; clear Hchildren.
  rewrite existsb_elem_of_version_agnostic, version_agnostic_rooted_fmap in Hnew
    by done.
  destruct (adopt_run to_json block_class published_course_usage_key user_id
              (draft_location, new_locator) w v Hv) as [Hworld Hret].
  fold o in Hworld, Hret.
  unfold adopt_blocks in Hworld, Hret; cbn [fst snd] in Hworld, Hret.
  unfold split_parent_key in Hworld, Hret.
  rewrite Hparent, Hold, Hbid, Hstored, Hrefs in Hworld, Hret.
  rewrite Hnew, Hold_children in Hworld, Hret.
  split; [done|].
  rewrite Hworld; simpl.
  rewrite (get_item_head block_class published_course_usage_key _
             (Version.mk (SplitStore.next_guid (World.split_modulestore w)) _))
    by (by apply lookup_version_write).
  simpl. rewrite lookup_insert_eq.
  eexists _, _. split; [done|].
  rewrite split_children_loaded; simpl.
  unfold children_refs at 1. rewrite lookup_insert_eq.
  split; [done|].
  match goal with |- ?P ∧ _ => assert (Hins : P) end.
  { rewrite <- insertion_cursor_sibling_cursor.
    rewrite <- (insertion_cursor_version_agnostic _ _ _
                  (rooted (with_version (draft_course published_course_usage_key)
                             (Version.guid v)) <$> refs)).
    rewrite !version_agnostic_rooted_fmap by done.
    rewrite list_insert_fmap, block_ref_rooted_fmap, list_insert_fmap.
    by rewrite <- Hroot, rooted_block_ref. }
  split; [exact Hins|].
  intros A C a c -> HA Hac Ha.
  rewrite Hins, Hac, <- insertion_cursor_sibling_cursor.
  unfold insertion_cursor; simpl.
  rewrite bool_decide_eq_false_2 by done.
  rewrite (bool_decide_eq_true_2 _ Ha).
  by rewrite bool_decide_eq_true_2.
Qed.

Lemma adoption_inserts_at_sibling_cursor_witness :
  ∃ new_parent' children',
    get_item Toy.block_class
      (World.split_modulestore
         (Outcome.world
            (adopt Toy.to_json Toy.block_class
               ToyDraft.published_course_usage_key 7
               (Toy.loc "vertical" "v2", ToyDraft.locator "vertical" "v2") tt
               ToyDraft.world)))
      (ToyDraft.locator "chapter" "ch1") = Ok new_parent'
    ∧ split_children new_parent' = Ok children'
    ∧ version_agnostic <$> children'
      = [ToyDraft.locator "vertical" "v1"; ToyDraft.locator "vertical" "v2";
         ToyDraft.locator "vertical" "v3"].
Proof.
  destruct (adoption_inserts_at_sibling_cursor Toy.to_json Toy.block_class
              ToyDraft.published_course_usage_key 7
              (Toy.loc "vertical" "v2") (ToyDraft.locator "vertical" "v2")
              ToyDraft.world (Toy.loc "chapter" "ch1") Toy.ch1
              [Toy.loc "vertical" "v1"; Toy.loc "vertical" "v2";
               Toy.loc "vertical" "v3"]
              ToyDraft.ch1 ToyDraft.ch1_children)
    as (_ & _ & new_parent' & children' & Hget & Hchildren & _ & Hbetween);
    try (vm_compute; reflexivity).
  exists new_parent', children'.
  split; [exact Hget|]. split; [exact Hchildren|].
  apply (Hbetween (Toy.loc "vertical" "v1") (Toy.loc "vertical" "v3")
           (ToyDraft.loaded "vertical" "v1") (ToyDraft.loaded "vertical" "v3"));
    [reflexivity | discriminate | reflexivity | reflexivity].
Defined.

(** ** Loops that write to one branch *)

Lemma store_after_write s ck b n blocks blocks' :
  write_version (store_after s ck b n blocks) ck b blocks'
  = store_after s ck b (S n) blocks'.
Proof.
  destruct n as [|k]; unfold write_version; simpl.
  - by rewrite Nat.add_0_r, Nat.add_1_r.
  - rewrite lookup_insert_eq, insert_insert_eq; simpl. rewrite insert_insert_eq.
    by rewrite <- !Nat.add_succ_r.
Qed.

Lemma lookup_version_store_after s ck b k blocks :
  CourseLocator.branch ck = Some b →
  lookup_version (store_after s ck b (S k) blocks) ck
  = Ok (Version.mk (SplitStore.next_guid s + k) blocks).
Proof.
  intros Hb. unfold lookup_version; simpl.
  by rewrite Hb, !lookup_insert_eq.
Qed.

Lemma store_after_store_after s ck b n blocks m blocks' :
  store_after (store_after s ck b n blocks) ck b (S m) blocks'
  = store_after s ck b (n + S m) blocks'.
Proof.
  destruct n as [|k]; [done|]. simpl.
  rewrite lookup_insert_eq; simpl. rewrite !insert_insert_eq.
  replace (SplitStore.next_guid s + S k + m)
    with (SplitStore.next_guid s + (k + S m)) by lia.
  replace (SplitStore.next_guid s + S k + S m)
    with (SplitStore.next_guid s + S (k + S m)) by lia.
  done.
Qed.

Section BranchLoop.
Context {A St : Type}.
Variable body : A → St → M St.
Variable step :
  SourceStore.t → A → St → Structure → result (St * option Structure).
Variables (ck : CourseLocator.t) (b : string).
Hypothesis branch_ck : CourseLocator.branch ck = Some b.
Hypothesis body_step : ∀ x st w v,
  lookup_version (World.split_modulestore w) ck = Ok v →
  Outcome.world (body x st w)
  = match step (World.source_modulestore w) x st (Version.blocks v) with
    | Ok (_, Some blocks) =>
        World.mk (World.source_modulestore w)
          (write_version (World.split_modulestore w) ck b blocks)
    | _ => w
    end
  ∧ Outcome.returned (body x st w)
    = match step (World.source_modulestore w) x st (Version.blocks v) with
      | Ok (st', _) => Ok st'
      | Raise e => Raise e
      end.

Lemma run_blocks_writes source items st blocks n :
  run_blocks step source items st blocks n
  = let r := run_blocks step source items st blocks 0 in (r.1.1, n + r.1.2, r.2).
Proof.
  revert st blocks n. induction items as [|x rest IH]; intros st blocks n; simpl.
  { by rewrite Nat.add_0_r. }
  destruct (step source x st blocks) as [[st' [blocks'|]]|e]; simpl.
  - rewrite (IH st' blocks' (S n)), (IH st' blocks' 1). simpl.
    f_equal. f_equal. lia.
  - apply IH.
  - by rewrite Nat.add_0_r.
Qed.

Lemma run_blocks_no_write source items st blocks :
  (run_blocks step source items st blocks 0).1.2 = 0 →
  (run_blocks step source items st blocks 0).1.1 = blocks.
Proof.
  revert st blocks. induction items as [|x rest IH]; intros st blocks; simpl; [done|].
  destruct (step source x st blocks) as [[st' [blocks'|]]|e]; simpl; [|apply IH|done].
  rewrite run_blocks_writes. simpl. lia.
Qed.

Lemma for_each_run items st w v :
  lookup_version (World.split_modulestore w) ck = Ok v →
  let r := run_blocks step (World.source_modulestore w) items st (Version.blocks v) 0 in
  Outcome.world (for_each items body st w)
  = World.mk (World.source_modulestore w)
      (store_after (World.split_modulestore w) ck b r.1.2 r.1.1)
  ∧ Outcome.returned (for_each items body st w) = r.2.
Proof.
  revert st w v. induction items as [|x rest IH]; intros st w v Hv; simpl.
  { by destruct w. }
  destruct (body_step x st w v Hv) as [Hworld Hret].
  destruct (step (World.source_modulestore w) x st (Version.blocks v))
    as [[st' [blocks'|]]|e] eqn:Hstep.
  - destruct (bind_ok (body x st) (for_each rest body) w st' Hret) as (-> & -> & _).
    rewrite Hworld.
    edestruct (IH st' (World.mk (World.source_modulestore w)
                 (write_version (World.split_modulestore w) ck b blocks')))
      as [IHw IHr].
    { simpl. by apply lookup_version_write. }
    simpl in IHw, IHr. rewrite IHw, IHr.
    rewrite (run_blocks_writes _ _ _ _ 1).
    pose proof (run_blocks_no_write (World.source_modulestore w) rest st' blocks') as Hno.
    destruct (run_blocks step (World.source_modulestore w) rest st' blocks' 0)
      as [[blocks'' n] r]; cbn [fst snd] in *.
    split; [|done]. f_equal.
    assert (Hone : write_version (World.split_modulestore w) ck b blocks'
                   = store_after (World.split_modulestore w) ck b 1 blocks')
      by exact (store_after_write _ ck b 0 blocks' blocks').
    rewrite Hone. destruct n as [|n].
    + by rewrite Hno.
    + apply store_after_store_after.
  - destruct (bind_ok (body x st) (for_each rest body) w st' Hret) as (-> & -> & _).
    rewrite Hworld. by apply IH.
  - destruct (bind_raise (body x st) (for_each rest body) w e Hret) as (-> & -> & _).
    rewrite Hworld. by destruct w.
Qed.
End BranchLoop.

(** ** Outcomes that agree on the world and on what is returned *)

Lemma same_effect_refl {A} (o : Outcome.t A) : same_effect o o.
Proof. done. Qed.

Lemma same_effect_bind {A B} (m m' : M A) (k k' : A → M B) w w' :
  same_effect (m w) (m' w') →
  (∀ a, same_effect (k a (Outcome.world (m w))) (k' a (Outcome.world (m' w')))) →
  same_effect (bind m k w) (bind m' k' w').
Proof.
  intros [Hw Hr] Hk. unfold bind.
  destruct (m w) as [w1 lg1 r1], (m' w') as [w1' lg1' r1']; simpl in *.
  subst w1' r1'. destruct r1 as [a|e]; simpl; [|done].
  apply Hk.
Qed.

Lemma same_effect_bind_any {A B} (m m' : M A) (k k' : A → M B) w w' :
  same_effect (m w) (m' w') →
  (∀ a w1, same_effect (k a w1) (k' a w1)) →
  same_effect (bind m k w) (bind m' k' w').
Proof.
  intros [Hw Hr] Hk. unfold bind.
  destruct (m w) as [w1 lg1 r1], (m' w') as [w1' lg1' r1']; simpl in *.
  subst w1' r1'. destruct r1 as [a|e]; simpl; [|done].
  apply Hk.
Qed.

Section Orphan.
Variable to_json : Field → PyValue → PyValue.
Variable block_class : string → gmap string FieldKind.
Variables (published_course_usage_key : BlockUsageLocator.t) (user_id : nat).

Let adopt_loop (items : list (Location.t * BlockUsageLocator.t)) : M unit :=
  for_each items (adopt to_json block_class published_course_usage_key user_id) tt.

Lemma adopt_orphan draft_location new_locator w :
  SourceStore.get_parent_location (World.source_modulestore w) draft_location
    draft_preferred = None →
  adopt to_json block_class published_course_usage_key user_id
    (draft_location, new_locator) tt w
  = Outcome.mk w [Warn "No parent found in source course for %s" draft_location]
      (Ok tt).
Proof. intros Hnone. unfold adopt. step. by rewrite Hnone. Qed.

Lemma keeps_source_adopt item :
  keeps_source (adopt to_json block_class published_course_usage_key user_id item tt).
Proof. unfold adopt, split_get_item. keeps_source. Qed.

Lemma adopt_loop_filter (P : Location.t * BlockUsageLocator.t → Prop)
    `{∀ item, Decision (P item)} items w :
  (∀ item, item ∈ items → ¬ P item →
     SourceStore.get_parent_location (World.source_modulestore w) item.1
       draft_preferred = None) →
  same_effect (adopt_loop items w) (adopt_loop (filter P items) w).
Proof.
  unfold adopt_loop. revert w.
  induction items as [|[dl nl] items IH]; intros w Horphan; [done|].
  rewrite filter_cons. case_decide as HP.
  - rewrite !for_each_cons. apply same_effect_bind; [done|]. intros [].
    apply IH. intros item Hitem. rewrite keeps_source_adopt.
    apply Horphan. by right.
  - rewrite for_each_cons. unfold bind.
    rewrite adopt_orphan by (by apply (Horphan (dl, nl)); [left|]). simpl.
    destruct (IH w) as [IHw IHr]; [|done].
    intros item Hitem. apply Horphan. by right.
Qed.

Lemma adopt_loop_logs_orphan pre post draft_location new_locator w :
  SourceStore.get_parent_location (World.source_modulestore w) draft_location
    draft_preferred = None →
  is_ok (Outcome.returned (adopt_loop pre w)) = true →
  Warn "No parent found in source course for %s" draft_location
    ∈ Outcome.logged (adopt_loop (pre ++ (draft_location, new_locator) :: post) w).
Proof.
  intros Hnone Hpre. unfold adopt_loop in *.
  rewrite for_each_app. unfold bind at 1.
  pose proof (keeps_source_for_each pre
    (adopt to_json block_class published_course_usage_key user_id) tt
    (λ x _, keeps_source_adopt x) w) as Hsrc.
  destruct (for_each pre _ tt w) as [w1 lg1 [[]|e]];
    cbn [Outcome.returned Outcome.world Outcome.logged] in *; [|done].
  rewrite for_each_cons. unfold bind.
  rewrite adopt_orphan by (by rewrite Hsrc). simpl.
  apply elem_of_app. right. by left.
Qed.
End Orphan.

(** ** The adoption loop on the snapshot of the draft branch *)

Lemma adopted_from_refl blocks : adopted_from blocks blocks [].
Proof. split; [done|]. intros key stored refs r ? ? ?. right. eauto. Qed.

Lemma adopted_from_trans blocks0 blocks1 blocks2 extra1 extra2 :
  adopted_from blocks0 blocks1 extra1 →
  adopted_from blocks1 blocks2 extra2 →
  adopted_from blocks0 blocks2 (extra1 ++ extra2).
Proof.
  intros [Hdom1 Hrefs1] [Hdom2 Hrefs2]. split.
  - intros key. by rewrite Hdom2, Hdom1.
  - intros key stored refs r Hkey Hrefs Hr.
    destruct (Hrefs2 _ _ _ _ Hkey Hrefs Hr) as [Hin|(stored1 & refs1 & Hk1 & Hr1 & Hin1)].
    { left. apply elem_of_app. by right. }
    destruct (Hrefs1 _ _ _ _ Hk1 Hr1 Hin1) as [Hin|Hold]; [|by right].
    left. apply elem_of_app. by left.
Qed.

Lemma elem_of_list_insert {A} (x y : A) i l :
  x ∈ list_insert i y l → x = y ∨ x ∈ l.
Proof.
  unfold list_insert. intros [Hin|[->|Hin]%elem_of_cons]%elem_of_app.
  - right. by eapply subseteq_take.
  - by left.
  - right. by eapply subseteq_drop.
Qed.

Lemma adopt_blocks_shape source published_course_usage_key item blocks blocks' :
  adopt_blocks source published_course_usage_key item blocks = Ok (Some blocks') →
  ∃ key stored refs cursor,
    blocks !! key = Some stored
    ∧ children_refs stored = Ok refs
    ∧ blocks' = <[key := <["children" :=
                    VRefList (list_insert cursor (block_ref item.2) refs)]> stored]>
                  blocks.
Proof.
  unfold adopt_blocks. intros Hadopt.
  destruct (SourceStore.get_parent_location _ _ _) as [parent_loc|]; [|done].
  destruct (SourceStore.get_item _ _) as [old_parent|]; [|done].
  destruct (split_parent_key _ _) as [key|]; [|done].
  destruct (blocks !! key) as [stored|] eqn:Hstored; [|done].
  destruct (children_refs stored) as [refs|] eqn:Hrefs; [|done].
  case_bool_decide; [done|].
  destruct (xblock_children old_parent) as [old_children|]; [|done].
  inversion Hadopt; subst blocks'; clear Hadopt.
  exists key, stored, refs. eexists. split; [done|]. split; [done|].
  by rewrite list_insert_fmap, block_ref_rooted_fmap.
Qed.

Lemma adopt_blocks_adopted_from source published_course_usage_key item blocks blocks' :
  adopt_blocks source published_course_usage_key item blocks = Ok (Some blocks') →
  adopted_from blocks blocks' [block_ref item.2].
Proof.
  intros (key & stored & refs & cursor & Hkey & Hrefs & ->)%adopt_blocks_shape.
  split.
  - intros key'. destruct (decide (key = key')) as [<-|Hne].
    + rewrite lookup_insert_eq, Hkey. split; eauto.
    + by rewrite lookup_insert_ne.
  - intros key' stored' refs' r Hkey' Hrefs' Hr.
    destruct (decide (key = key')) as [<-|Hne].
    + rewrite lookup_insert_eq in Hkey'. inversion Hkey'; subst stored'.
      unfold children_refs in Hrefs'. rewrite lookup_insert_eq in Hrefs'.
      inversion Hrefs'; subst refs'.
      apply elem_of_list_insert in Hr as [->|Hr]; [left; by left|].
      right. eauto.
    + rewrite lookup_insert_ne in Hkey' by done. right. eauto.
Qed.

Lemma adopt_loop_adopted_from source published_course_usage_key items blocks n :
  adopted_from blocks
    (run_blocks (adopt_step published_course_usage_key) source items tt blocks n).1.1
    ((λ item, block_ref item.2) <$> items).
Proof.
  revert blocks n. induction items as [|item items IH]; intros blocks n; simpl.
  { apply adopted_from_refl. }
  unfold adopt_step at 1.
  destruct (adopt_blocks source published_course_usage_key item blocks)
    as [[blocks'|]|e] eqn:Hadopt; simpl.
  - apply (adopted_from_trans _ blocks' _ [_]); [|apply IH].
    by eapply adopt_blocks_adopted_from.
  - apply (adopted_from_trans _ blocks _ [_]); [|apply IH].
    destruct (adopted_from_refl blocks) as [Hdom Hrefs].
    split; [done|]. intros. right. eauto.
  - destruct (adopted_from_refl blocks) as [Hdom Hrefs].
    split; [done|]. intros. right. eauto.
Qed.

Section AdoptLoop.
Variable to_json : Field → PyValue → PyValue.
Variable block_class : string → gmap string FieldKind.
Variables (published_course_usage_key : BlockUsageLocator.t) (user_id : nat).

Lemma adopt_loop_run items w v :
  lookup_version (World.split_modulestore w)
    (draft_course published_course_usage_key) = Ok v →
  let r := run_blocks (adopt_step published_course_usage_key)
             (World.source_modulestore w) items tt (Version.blocks v) 0 in
  Outcome.world
    (for_each items (adopt to_json block_class published_course_usage_key user_id)
       tt w)
  = World.mk (World.source_modulestore w)
      (store_after (World.split_modulestore w)
         (draft_course published_course_usage_key) BranchName.draft r.1.2 r.1.1)
  ∧ Outcome.returned
      (for_each items (adopt to_json block_class published_course_usage_key user_id)
         tt w)
    = r.2.
Proof.
  apply for_each_run; [done|].
  intros item [] w' v' Hv'.
  destruct (adopt_run to_json block_class published_course_usage_key user_id
              item w' v' Hv') as [Hworld Hret].
  unfold adopt_step.
  by destruct (adopt_blocks _ _ _ _) as [[?|]|].
Qed.

Lemma adopt_no_branch item w e :
  lookup_version (World.split_modulestore w)
    (draft_course published_course_usage_key) = Raise e →
  Outcome.world
    (adopt to_json block_class published_course_usage_key user_id item tt w) = w.
Proof.
  intros Hv. destruct item as [draft_location new_locator].
  unfold adopt, split_get_item.
  step.
  destruct (SourceStore.get_parent_location _ _ _) as [parent_loc|]; [|done].
  do 3 step.
  destruct (SourceStore.get_item _ parent_loc) as [old_parent|]; [|done].
  do 3 step. unfold get_item; simpl.
  fold (draft_course published_course_usage_key). by rewrite Hv.
Qed.

Lemma adopt_loop_no_branch items w e :
  lookup_version (World.split_modulestore w)
    (draft_course published_course_usage_key) = Raise e →
  Outcome.world
    (for_each items (adopt to_json block_class published_course_usage_key user_id)
       tt w) = w.
Proof.
  intros Hv. induction items as [|item items IH]; simpl; [done|].
  pose proof (adopt_no_branch item w e Hv) as Hitem.
  unfold bind. destruct (adopt _ _ _ _ item tt w) as [w1 lg1 [[]|e1]];
    simpl in *; subst w1; done.
Qed.
End AdoptLoop.

(** ** Orphans (4.5, 7) *)

Section OrphanSkip.
Variable to_json : Field → PyValue → PyValue.
Variable block_class : string → gmap string FieldKind.
Variable root_block_id : string.
Variables (published_course_usage_key : BlockUsageLocator.t) (user_id : nat).

Let ck := draft_course published_course_usage_key.
Let adopt_loop (items : list (Location.t * BlockUsageLocator.t)) : M unit :=
  for_each items (adopt to_json block_class published_course_usage_key user_id) tt.

Lemma has_item_head s l :
  BlockUsageLocator.course_key l = ck →
  has_item s l = true ↔
    ∃ v, lookup_version s ck = Ok v
         ∧ ref_exists (Version.blocks v) (block_ref l) = true.
Proof.
  intros Hl. unfold has_item. rewrite Hl.
  destruct (lookup_version s ck) as [v|e]; split.
  - eauto.
  - by intros (v' & [= <-] & Hv').
  - done.
  - by intros (v' & ? & _).
Qed.

Lemma ref_exists_adopted_from blocks0 blocks extra r :
  adopted_from blocks0 blocks extra →
  ref_exists blocks r = ref_exists blocks0 r.
Proof.
  intros [Hdom _]. unfold ref_exists. destruct r.2 as [bid|]; [|done].
  apply bool_decide_ext, Hdom.
Qed.

(** The adoption loop keeps every block of the draft branch. *)
Lemma adopt_loop_keeps_item items w l :
  BlockUsageLocator.course_key l = ck →
  has_item (World.split_modulestore w) l = true →
  has_item (World.split_modulestore (Outcome.world (adopt_loop items w))) l = true.
Proof.
  intros Hl Hhas. pose proof Hhas as Hhas0.
  apply (has_item_head _ _ Hl) in Hhas as (v & Hv & Hexists).
  destruct (adopt_loop_run to_json block_class published_course_usage_key
              user_id items w v Hv) as [Hworld _].
  fold (adopt_loop items) in Hworld. rewrite Hworld; simpl.
  pose proof (adopt_loop_adopted_from (World.source_modulestore w)
                published_course_usage_key items (Version.blocks v) 0) as Hfrom.
  destruct (run_blocks _ _ items tt (Version.blocks v) 0) as [[blocks' n] r];
    simpl in *.
  destruct n as [|k]; [done|].
  apply (has_item_head _ _ Hl). eexists. split.
  - by apply lookup_version_store_after.
  - simpl. by rewrite (ref_exists_adopted_from _ _ _ _ Hfrom).
Qed.

(** A child reference of the draft branch after the adoption loop was there
    before or is one of the adopted identifiers. *)
Lemma adopt_loop_children items w parent new_parent children l :
  BlockUsageLocator.course_key parent = ck →
  BlockUsageLocator.course_key l = ck →
  (∀ item, item ∈ items → block_ref item.2 ≠ block_ref l) →
  get_item block_class
    (World.split_modulestore (Outcome.world (adopt_loop items w))) parent
  = Ok new_parent →
  split_children new_parent = Ok children →
  l ∈ version_agnostic <$> children →
  ∃ old_parent old_children,
    get_item block_class (World.split_modulestore w) parent = Ok old_parent
    ∧ split_children old_parent = Ok old_children
    ∧ l ∈ version_agnostic <$> old_children.
Proof.
  intros Hparent Hl Hother Hget Hchildren Hin.
  destruct (lookup_version (World.split_modulestore w) ck) as [v|e] eqn:Hv; cycle 1.
  { unfold adopt_loop in Hget.
    rewrite (adopt_loop_no_branch _ _ _ _ items w e Hv) in Hget. eauto. }
  destruct (adopt_loop_run to_json block_class published_course_usage_key
              user_id items w v Hv) as [Hworld _].
  fold (adopt_loop items) in Hworld. rewrite Hworld in Hget; simpl in Hget.
  pose proof (adopt_loop_adopted_from (World.source_modulestore w)
                published_course_usage_key items (Version.blocks v) 0) as Hfrom.
  destruct (run_blocks _ _ items tt (Version.blocks v) 0) as [[blocks' n] r];
    simpl in *.
  destruct n as [|k]; [eauto|].
  destruct parent as [pck category block_id]; simpl in Hparent; subst pck.
  change (BlockUsageLocator.mk ck category block_id)
    with (make_usage_key ck category block_id) in *.
  rewrite (get_item_head block_class published_course_usage_key _
             (Version.mk _ blocks')) in Hget
    by (by apply lookup_version_store_after).
  rewrite (get_item_head block_class published_course_usage_key _ v) by done.
  destruct block_id as [bid|]; [|done]. simpl in Hget.
  destruct (blocks' !! (category, bid)) as [stored'|] eqn:Hstored'; [|done].
  inversion Hget; subst new_parent; clear Hget.
  rewrite split_children_loaded in Hchildren; simpl in Hchildren.
  destruct (children_refs stored') as [refs'|] eqn:Hrefs'; [|done].
  inversion Hchildren; subst children; clear Hchildren.
  rewrite version_agnostic_rooted_fmap in Hin by done.
  apply list_elem_of_fmap in Hin as (ref & -> & Hr).
  destruct Hfrom as [_ Hfrom].
  destruct (Hfrom _ _ _ _ Hstored' Hrefs' Hr)
    as [Hextra|(stored0 & refs0 & Hstored0 & Hrefs0 & Hr0)].
  { exfalso. apply list_elem_of_fmap in Hextra as (item & Hitem & Hin).
    apply (Hother item Hin). by rewrite block_ref_rooted. }
  rewrite Hstored0. eexists _, _. split; [done|].
  rewrite split_children_loaded; simpl. rewrite Hrefs0. split; [done|].
  rewrite version_agnostic_rooted_fmap by done.
  apply list_elem_of_fmap. eauto.
Qed.
End OrphanSkip.

Lemma same_effect_bind_same {A B} (m : M A) (k k' : A → M B) w :
  (∀ a, same_effect (k a (Outcome.world (m w))) (k' a (Outcome.world (m w)))) →
  same_effect (bind m k w) (bind m k' w).
Proof. intros Hk. by apply same_effect_bind. Qed.

Section Iteration.
Variable to_json : Field → PyValue → PyValue.
Variable block_class : string → gmap string FieldKind.
Variable root_block_id : string.
Variables iteritems iteritems' :
  gmap Location.t BlockUsageLocator.t → list (Location.t * BlockUsageLocator.t).
Variable user_id : nat.

(** Two iteration orders of the pending table that make the adoption loop
    end alike make the draft pass and the migration end alike. *)
Lemma add_draft_same_effect published_course_usage_key source_course_key w :
  (∀ d w', World.source_modulestore w' = World.source_modulestore w →
     same_effect
       (for_each (iteritems d)
          (adopt to_json block_class published_course_usage_key user_id) tt w')
       (for_each (iteritems' d)
          (adopt to_json block_class published_course_usage_key user_id) tt w')) →
  same_effect
    (_add_draft_modules_to_course to_json block_class iteritems
       published_course_usage_key source_course_key user_id w)
    (_add_draft_modules_to_course to_json block_class iteritems'
       published_course_usage_key source_course_key user_id w).
Proof.
  intros Hloop. unfold _add_draft_modules_to_course.
  apply same_effect_bind_same. intros modules.
  apply same_effect_bind_same. intros awaiting_adoption.
  apply Hloop.
  match goal with
  | |- World.source_modulestore (Outcome.world (?m ?w1)) = _ =>
      assert (keeps_source m) as -> by
        (unfold add_draft_module, split_get_item; keeps_source)
  end.
  done.
Qed.

Lemma migrate_same_effect source_course_key new_org new_course new_run w :
  (∀ published_course_usage_key d w',
     World.source_modulestore w' = World.source_modulestore w →
     same_effect
       (for_each (iteritems d)
          (adopt to_json block_class published_course_usage_key user_id) tt w')
       (for_each (iteritems' d)
          (adopt to_json block_class published_course_usage_key user_id) tt w')) →
  same_effect
    (migrate_mongo_course to_json block_class root_block_id iteritems
       source_course_key user_id new_org new_course new_run w)
    (migrate_mongo_course to_json block_class root_block_id iteritems'
       source_course_key user_id new_org new_course new_run w).
Proof.
  intros Hloop. unfold migrate_mongo_course, bulk_write_operations.
  apply same_effect_bind_same. intros original_course.
  apply same_effect_bind_same. intros fields.
  apply same_effect_bind_same. intros new_course_block.
  apply same_effect_bind_same. intros [].
  apply same_effect_bind_any; [|done].
  - apply add_draft_same_effect. intros d w' Hw'. apply Hloop.
    rewrite Hw'.
    rewrite keeps_source_copy_published.
    match goal with
    | |- World.source_modulestore (Outcome.world (?m ?w1)) = _ =>
        assert (keeps_source m) as -> by keeps_source
    end.
    match goal with
    | |- World.source_modulestore (Outcome.world (?m ?w1)) = _ =>
        assert (keeps_source m) as -> by keeps_source
    end.
    match goal with
    | |- World.source_modulestore (Outcome.world (?m ?w1)) = _ =>
        assert (keeps_source m) as -> by keeps_source
    end.
    done.
Qed.
End Iteration.

(** C8. A pending adoption whose source parent lookup finds no parent is
    logged and skipped: the step changes nothing and does not raise, the
    loop ends as it would without that entry, the block stays in the draft
    tree, no parent of the draft tree gets a reference to it, and the
    migration ends (same world, same returned identifier or exception) as
    it would if the entry were never iterated. *)
Theorem orphan_is_logged_and_skipped
    (to_json : Field → PyValue → PyValue)
    (block_class : string → gmap string FieldKind) (root_block_id : string)
    (iteritems : gmap Location.t BlockUsageLocator.t
                 → list (Location.t * BlockUsageLocator.t))
    (published_course_usage_key : BlockUsageLocator.t) (user_id : nat)
    (draft_location : Location.t) (new_locator : BlockUsageLocator.t)
    (pre post : list (Location.t * BlockUsageLocator.t)) (w : World.t) :
  SourceStore.get_parent_location (World.source_modulestore w) draft_location
    draft_preferred = None →
  BlockUsageLocator.course_key new_locator
  = draft_course published_course_usage_key →
  (∀ item, item ∈ pre ++ post → block_ref item.2 ≠ block_ref new_locator) →
  let adopt_loop := λ items,
    for_each items (adopt to_json block_class published_course_usage_key user_id) tt in
  let o := adopt_loop (pre ++ (draft_location, new_locator) :: post) w in
  adopt to_json block_class published_course_usage_key user_id
    (draft_location, new_locator) tt w
  = Outcome.mk w [Warn "No parent found in source course for %s" draft_location]
      (Ok tt)
  ∧ same_effect o (adopt_loop (pre ++ post) w)
  ∧ (is_ok (Outcome.returned (adopt_loop pre w)) = true →
     Warn "No parent found in source course for %s" draft_location
       ∈ Outcome.logged o)
  ∧ (has_item (World.split_modulestore w) new_locator = true →
     has_item (World.split_modulestore (Outcome.world o)) new_locator = true)
  ∧ (∀ parent new_parent children,
       BlockUsageLocator.course_key parent
       = draft_course published_course_usage_key →
       get_item block_class (World.split_modulestore (Outcome.world o)) parent
       = Ok new_parent →
       split_children new_parent = Ok children →
       new_locator ∈ version_agnostic <$> children →
       ∃ old_parent old_children,
         get_item block_class (World.split_modulestore w) parent = Ok old_parent
         ∧ split_children old_parent = Ok old_children
         ∧ new_locator ∈ version_agnostic <$> old_children)
  ∧ (∀ source_course_key new_org new_course new_run w0,
       World.source_modulestore w0 = World.source_modulestore w →
       same_effect
         (migrate_mongo_course to_json block_class root_block_id iteritems
            source_course_key user_id new_org new_course new_run w0)
         (migrate_mongo_course to_json block_class root_block_id
            (λ d, filter (λ item, item.1 ≠ draft_location) (iteritems d))
            source_course_key user_id new_org new_course new_run w0)).
Proof.
  intros Hnone Hroot Hother adopt_loop o.
  assert (Hsame : same_effect o (adopt_loop (pre ++ post) w)).
  { unfold o, adopt_loop. rewrite !for_each_app.
    apply same_effect_bind_same. intros [].
    rewrite for_each_cons. unfold bind at 1.
    rewrite adopt_orphan; [simpl; done|].
    rewrite (keeps_source_for_each pre _ tt
               (λ x _, keeps_source_adopt to_json block_class
                         published_course_usage_key user_id x)).
    done. }
  split; [by apply adopt_orphan|]. split; [exact Hsame|].
  split; [by apply adopt_loop_logs_orphan|].
  split; [by apply adopt_loop_keeps_item|].
  split.
  - intros parent new_parent children Hparent Hget.
    destruct Hsame as [-> _] in Hget. revert Hget.
    by apply adopt_loop_children.
  - intros source_course_key new_org new_course new_run w0 Hw0.
    apply migrate_same_effect. intros pcuk d w' Hw'.
    apply adopt_loop_filter. intros [dl nl] _ Hitem.
    apply dec_stable in Hitem. simpl in *. subst dl.
    by rewrite Hw', Hw0.
Qed.

Lemma orphan_is_logged_and_skipped_witness :
  same_effect
    (for_each [(Toy.loc "vertical" "v2", ToyDraft.locator "vertical" "v2");
               (Toy.loc "vertical" "lost", ToyDraft.locator "vertical" "lost")]
       (adopt Toy.to_json Toy.block_class ToyDraft.published_course_usage_key 7)
       tt ToyDraft.world)
    (for_each [(Toy.loc "vertical" "v2", ToyDraft.locator "vertical" "v2")]
       (adopt Toy.to_json Toy.block_class ToyDraft.published_course_usage_key 7)
       tt ToyDraft.world)
  ∧ Warn "No parent found in source course for %s" (Toy.loc "vertical" "lost")
    ∈ Outcome.logged
        (for_each [(Toy.loc "vertical" "v2", ToyDraft.locator "vertical" "v2");
                   (Toy.loc "vertical" "lost", ToyDraft.locator "vertical" "lost")]
           (adopt Toy.to_json Toy.block_class ToyDraft.published_course_usage_key 7)
           tt ToyDraft.world).
Proof.
  destruct (orphan_is_logged_and_skipped Toy.to_json Toy.block_class
              Toy.root_block_id map_to_list ToyDraft.published_course_usage_key 7
              (Toy.loc "vertical" "lost") (ToyDraft.locator "vertical" "lost")
              [(Toy.loc "vertical" "v2", ToyDraft.locator "vertical" "v2")] []
              ToyDraft.world)
    as (_ & Hsame & Hlog & _).
  - vm_compute; reflexivity.
  - reflexivity.
  - intros item [->|[]%elem_of_nil]%elem_of_cons. discriminate.
  - split; [exact Hsame|]. apply Hlog. vm_compute; reflexivity.
Defined.

(** ** One draft module, seen on the snapshot of the draft branch *)

Lemma for_in_map_result {A S S'} (f : S → S') (l : list A)
    (body : A → S → result S) (body' : A → S' → result S') :
  (∀ x s, body' x (f s) = map_result f (body x s)) →
  ∀ s, for_in l body' (f s) = map_result f (for_in l body s).
Proof.
  intros Hbody. induction l as [|x l IH]; intros s; simpl; [done|].
  rewrite Hbody. destruct (body x s); simpl; [apply IH|done].
Qed.

Lemma delete_unset_fields_relocate module l b :
  delete_unset_fields module (relocate l b)
  = map_result (relocate l) (delete_unset_fields module b).
Proof.
  unfold delete_unset_fields.
  apply (for_in_map_result (relocate l)). intros [name kind] s.
  unfold split_is_set_on; simpl.
  destruct (_ || _); [|done].
  destruct (XBlock.fields module !! name); [|done].
  by destruct (negb _).
Qed.

Lemma write_fields_relocate fields l b :
  write_fields fields (relocate l b) = relocate l (write_fields fields b).
Proof.
  unfold write_fields. revert b.
  induction (map_to_list fields) as [|[field value] items IH]; intros b; [done|].
  simpl. by rewrite <- IH.
Qed.

Lemma in_place_update_relocate to_json published_course_usage_key module l b :
  in_place_update to_json published_course_usage_key module (relocate l b)
  = in_place_update to_json published_course_usage_key module b.
Proof.
  unfold in_place_update. rewrite delete_unset_fields_relocate.
  destruct (delete_unset_fields module b) as [b'|]; simpl; [|done].
  destruct (_get_fields_translate_references _ _ _) as [fields|]; [|done].
  by rewrite write_fields_relocate.
Qed.

Section AddDraftRun.
Variable to_json : Field → PyValue → PyValue.
Variable block_class : string → gmap string FieldKind.
Variables (published_course_usage_key : BlockUsageLocator.t) (user_id : nat).

Let ck := draft_course published_course_usage_key.

Lemma delete_unset_fields_location module b b' :
  delete_unset_fields module b = Ok b' →
  SplitBlock.location b' = SplitBlock.location b.
Proof.
  unfold delete_unset_fields.
  generalize (map_to_list (SplitBlock.fields b)). intros l. revert b.
  induction l as [|[name kind] l IH]; intros b; simpl.
  { by intros [= ->]. }
  destruct (split_is_set_on name b).
  - destruct (XBlock.fields module !! name); [|done].
    destruct (negb _); [|apply IH].
    intros Hrun. by rewrite (IH _ Hrun).
  - apply IH.
Qed.

Lemma write_fields_location fields b :
  SplitBlock.location (write_fields fields b) = SplitBlock.location b.
Proof.
  unfold write_fields. revert b.
  induction (map_to_list fields) as [|[field value] items IH]; intros b; [done|].
  simpl. by rewrite IH.
Qed.

Lemma update_item_head s v b category bid g :
  lookup_version s ck = Ok v →
  SplitBlock.location b = make_usage_key (with_version ck g) category (Some bid) →
  is_Some (Version.blocks v !! (category, bid)) →
  update_item to_json s b user_id
  = Ok (write_version s ck BranchName.draft
          (<[(category, bid) :=
               (serialize to_json <$> SplitBlock.dirty b) ∪ SplitBlock.stored b]>
             (Version.blocks v))).
Proof.
  intros Hv Hl Hkey. unfold update_item. rewrite Hl.
  unfold make_usage_key.
  cbn [BlockUsageLocator.course_key BlockUsageLocator.block_type
       BlockUsageLocator.block_id].
  rewrite lookup_version_with_version, Hv. simpl.
  by rewrite bool_decide_eq_true_2.
Qed.

Lemma create_item_head s v category bid fields :
  lookup_version s ck = Ok v →
  Version.blocks v !! (category, bid) = None →
  create_item s ck category user_id (Some bid) fields
  = Ok (write_version s ck BranchName.draft
          (<[(category, bid) := relativize <$> fields]> (Version.blocks v))).
Proof.
  intros Hv Hkey. unfold create_item. rewrite Hv. simpl.
  by rewrite bool_decide_eq_false_2 by (rewrite Hkey; by intros [? ?]).
Qed.

Lemma add_draft_run module awaiting_adoption w v :
  lookup_version (World.split_modulestore w) ck = Ok v →
  let o := add_draft_module to_json block_class published_course_usage_key
             user_id module awaiting_adoption w in
  Outcome.world o
  = match add_draft_blocks to_json block_class published_course_usage_key
            (World.source_modulestore w) module awaiting_adoption
            (Version.blocks v) with
    | Ok (_, Some blocks) =>
        World.mk (World.source_modulestore w)
          (write_version (World.split_modulestore w) ck BranchName.draft blocks)
    | _ => w
    end
  ∧ Outcome.returned o
    = match add_draft_blocks to_json block_class published_course_usage_key
              (World.source_modulestore w) module awaiting_adoption
              (Version.blocks v) with
      | Ok (awaiting_adoption', _) => Ok awaiting_adoption'
      | Raise e => Raise e
      end.
Proof.
  intros Hv. cbv zeta.
  unfold add_draft_module, add_draft_blocks, split_get_item, block_key.
  fold (draft_course published_course_usage_key). fold ck.
  step. unfold has_item; simpl. fold ck. rewrite Hv.
  unfold ref_exists; simpl.
  destruct (Version.blocks v !! (XBlock.category module,
              Location.block_id (XBlock.location module)))
    as [stored|] eqn:Hstored.
  - rewrite bool_decide_eq_true_2 by eauto.
    do 3 step.
    rewrite (get_item_head block_class published_course_usage_key _ v) by done.
    rewrite Hstored. step.
    match goal with
    | |- context [delete_unset_fields module ?b] =>
        change b with (relocate (SplitBlock.location b)
                         (SplitBlock.mk (draft_locator published_course_usage_key module)
                            (block_class (XBlock.category module)) stored ∅))
    end.
    unfold in_place_update.
    rewrite delete_unset_fields_relocate.
    destruct (delete_unset_fields module _) as [b'|e] eqn:Hdelete; simpl; [|done].
    step.
    destruct (_get_fields_translate_references _ _ _) as [fields|e]; [|done].
    step. rewrite write_fields_relocate.
    rewrite (update_item_head _ v _ (XBlock.category module)
               (Location.block_id (XBlock.location module)) (Version.guid v));
      [done|done|reflexivity|eauto].
  - rewrite bool_decide_eq_false_2 by (rewrite ?Hstored; by intros [? ?]).
    step.
    destruct (_get_json_fields_translate_references _ _ _ _) as [fields|e]; [|done].
    step. simpl.
    rewrite (create_item_head _ v) by done. simpl. done.
Qed.
End AddDraftRun.

(** ** Updating a published block from its draft (4.5) *)

Section DeleteUnset.
Variable module : XBlock.t.

Let body := λ (p : string * FieldKind) (split_module : SplitBlock.t),
  if split_is_set_on p.1 split_module then
    match XBlock.fields module !! p.1 with
    | None => Raise KeyError
    | Some _ =>
        if negb (is_set_on p.1 module)
        then Ok (delete_from p.1 split_module)
        else Ok split_module
    end
  else Ok split_module.

Lemma delete_unset_fields_body b :
  delete_unset_fields module b
  = for_in (map_to_list (SplitBlock.fields b)) body b.
Proof.
  unfold delete_unset_fields. generalize (map_to_list (SplitBlock.fields b)) at 1 2.
  intros l. revert b. induction l as [|[name kind] l IH]; intros b; simpl; [done|].
  unfold body at 1; simpl.
  destruct (split_is_set_on name b); [|apply IH].
  destruct (XBlock.fields module !! name); [|done].
  destruct (negb _); apply IH.
Qed.


Lemma split_is_set_on_false name b :
  split_is_set_on name b = false ↔
    SplitBlock.stored b !! name = None ∧ SplitBlock.dirty b !! name = None.
Proof.
  unfold split_is_set_on. rewrite orb_false_iff, !bool_decide_eq_false.
  rewrite <- !eq_None_not_Some. done.
Qed.

Lemma delete_body_lookup n k b b1 :
  body (n, k) b = Ok b1 →
  SplitBlock.fields b1 = SplitBlock.fields b
  ∧ ∀ name,
      SplitBlock.stored b1 !! name
      = (if decide (name = n ∧ is_set_on name module = false)
         then None else SplitBlock.stored b !! name)
      ∧ SplitBlock.dirty b1 !! name
        = (if decide (name = n ∧ is_set_on name module = false)
           then None else SplitBlock.dirty b !! name).
Proof.
  unfold body; simpl. destruct (split_is_set_on n b) eqn:Hset.
  - destruct (XBlock.fields module !! n); [|done].
    destruct (is_set_on n module) eqn:Hm; simpl; intros [= <-].
    + split; [done|]. intros name. case_decide as Hd; [|done].
      destruct Hd as [-> Hd]. congruence.
    + split; [done|]. intros name. simpl. case_decide as Hd.
      * destruct Hd as [-> _]. by rewrite !lookup_delete_eq.
      * rewrite !lookup_delete_ne; [done|naive_solver..].
  - intros [= <-]. split; [done|]. intros name.
    apply split_is_set_on_false in Hset as [Hs Hd].
    case_decide as Hdec; [|done]. destruct Hdec as [-> _]. done.
Qed.

Lemma delete_loop_lookup (l : list (string * FieldKind)) b b' :
  for_in l body b = Ok b' →
  SplitBlock.fields b' = SplitBlock.fields b
  ∧ ∀ name,
      SplitBlock.stored b' !! name
      = (if decide (name ∈ l.*1 ∧ is_set_on name module = false)
         then None else SplitBlock.stored b !! name)
      ∧ SplitBlock.dirty b' !! name
        = (if decide (name ∈ l.*1 ∧ is_set_on name module = false)
           then None else SplitBlock.dirty b !! name).
Proof.
  revert b. induction l as [|[n k] l IH]; intros b; cbn [for_in].
  { intros [= ->]. split; [done|]. intros name.
    case_decide as Hd; [|done]. destruct Hd as [Hd _].
    by apply elem_of_nil in Hd. }
  destruct (body (n, k) b) as [b1|] eqn:Hb1; [|done].
  apply delete_body_lookup in Hb1 as [Hf1 Hl1].
  intros [Hf Hl]%IH. split; [congruence|]. intros name.
  destruct (Hl name) as [-> ->]. destruct (Hl1 name) as [-> ->].
  repeat case_decide; try done; exfalso; simpl in *;
    rewrite ?elem_of_cons in *; intuition congruence.
Qed.

Lemma delete_loop_stays_set (l : list (string * FieldKind)) b b' name :
  name ∉ l.*1 → for_in l body b = Ok b' →
  split_is_set_on name b' = split_is_set_on name b.
Proof.
  intros Hname Hrun. apply delete_loop_lookup in Hrun as [_ Hl].
  destruct (Hl name) as [Hs Hd].
  case_decide as Hdec; [by destruct Hdec|].
  unfold split_is_set_on. by rewrite Hs, Hd.
Qed.

Lemma delete_loop_ok (l : list (string * FieldKind)) b :
  NoDup l.*1 →
  (∀ name, name ∈ l.*1 → split_is_set_on name b = true →
           is_Some (XBlock.fields module !! name)) →
  ∃ b', for_in l body b = Ok b'.
Proof.
  revert b. induction l as [|[n k] l IH]; intros b Hnd Hok; simpl; [by eexists|].
  apply NoDup_cons in Hnd as [Hn Hnd].
  assert (∃ b1, body (n, k) b = Ok b1) as [b1 Hb1].
  { unfold body; simpl. destruct (split_is_set_on n b) eqn:Hset.
    - destruct (Hok n) as [kind ->]; [by left|done|].
      destruct (negb _); by eexists.
    - by eexists. }
  assert (for_in [(n, k)] body b = Ok b1) as Hone
    by (cbn [for_in]; by rewrite Hb1).
  rewrite Hb1. apply IH; [done|].
  intros name Hname Hset. apply Hok; [by right|].
  rewrite <- Hset. symmetry.
  apply (delete_loop_stays_set [(n, k)]); [|done].
  simpl. intros [->|[]%elem_of_nil]%elem_of_cons. done.
Qed.

Lemma delete_unset_fields_spec b b' :
  delete_unset_fields module b = Ok b' →
  SplitBlock.fields b' = SplitBlock.fields b
  ∧ ∀ name,
      SplitBlock.stored b' !! name
      = (if decide (is_Some (SplitBlock.fields b !! name)
                    ∧ is_set_on name module = false)
         then None else SplitBlock.stored b !! name)
      ∧ SplitBlock.dirty b' !! name
        = (if decide (is_Some (SplitBlock.fields b !! name)
                      ∧ is_set_on name module = false)
           then None else SplitBlock.dirty b !! name).
Proof.
  rewrite delete_unset_fields_body. intros [Hf Hl]%delete_loop_lookup.
  split; [done|]. intros name. destruct (Hl name) as [-> ->].
  assert (name ∈ (map_to_list (SplitBlock.fields b)).*1
          ↔ is_Some (SplitBlock.fields b !! name)) as Hin.
  { rewrite list_elem_of_fmap. split.
    - intros ([n kind] & -> & Hk%elem_of_map_to_list). eauto.
    - intros [kind Hk]. exists (name, kind). by rewrite elem_of_map_to_list. }
  repeat case_decide; try done; exfalso; intuition congruence.
Qed.

Lemma delete_unset_fields_ok b :
  (∀ name, is_Some (SplitBlock.fields b !! name) →
           split_is_set_on name b = true →
           is_Some (XBlock.fields module !! name)) →
  ∃ b', delete_unset_fields module b = Ok b'.
Proof.
  intros Hok. rewrite delete_unset_fields_body.
  apply delete_loop_ok; [apply NoDup_fst_map_to_list|].
  intros name ([n kind] & -> & Hk%elem_of_map_to_list)%list_elem_of_fmap.
  apply Hok. eauto.
Qed.
End DeleteUnset.

Lemma write_loop_lookup (l : list (Field * Value BlockUsageLocator.t)) b :
  (∀ f v f' v', (f, v) ∈ l → (f', v') ∈ l → f.1 = f'.1 → f = f' ∧ v = v') →
  let b' := foldl (λ split_module '(field, value), write_to field value split_module)
              b l in
  SplitBlock.stored b' = SplitBlock.stored b
  ∧ ∀ name,
      (∀ f v, (f, v) ∈ l → f.1 = name → SplitBlock.dirty b' !! name = Some (f, v))
      ∧ ((∀ f v, (f, v) ∈ l → f.1 ≠ name) →
         SplitBlock.dirty b' !! name = SplitBlock.dirty b !! name).
Proof.
  revert b. induction l as [|[f0 v0] l IH]; intros b Hfun; simpl.
  { split; [done|]. intros name. split; [|done].
    intros f v Hin. by apply elem_of_nil in Hin. }
  destruct (IH (write_to f0 v0 b)) as [Hstored Hdirty].
  { intros f v f' v' Hin Hin'. apply Hfun; by right. }
  split; [done|]. intros name. destruct (Hdirty name) as [Hin Hout]. split.
  - intros f v [[= -> ->]|Hl]%elem_of_cons Hname; [|by apply Hin].
    destruct (decide (Exists (λ p : Field * Value BlockUsageLocator.t, p.1.1 = name) l))
      as [Hex|Hex].
    + apply Exists_exists in Hex as ([f' v'] & Hl & Hname').
      destruct (Hfun f0 v0 f' v') as [-> ->];
        [by left|by right|simpl in *; congruence|].
      by apply Hin.
    + rewrite Hout.
      * simpl. subst name. apply lookup_insert_eq.
      * intros f' v' Hl Hname'. apply Hex, Exists_exists. by exists (f', v').
  - intros Hno. rewrite Hout.
    + simpl. rewrite lookup_insert_ne; [done|]. apply (Hno f0 v0). by left.
    + intros f v Hl. apply (Hno f v). by right.
Qed.

Section InPlace.
Variable to_json : Field → PyValue → PyValue.
Variables (published_course_usage_key : BlockUsageLocator.t) (module : XBlock.t).

Let copied :=
  _get_fields_translate_references module
    (draft_course published_course_usage_key)
    (BlockUsageLocator.block_id published_course_usage_key).

Lemma write_fields_lookup fields b :
  copied = Ok fields →
  SplitBlock.stored (write_fields fields b) = SplitBlock.stored b
  ∧ ∀ name,
      (∀ kind v, fields !! (name, kind) = Some v →
         SplitBlock.dirty (write_fields fields b) !! name = Some ((name, kind), v))
      ∧ ((∀ kind, fields !! (name, kind) = None) →
         SplitBlock.dirty (write_fields fields b) !! name
         = SplitBlock.dirty b !! name).
Proof.
  intros Hcopied.
  destruct (fields_copier_spec module (draft_course published_course_usage_key)
              (BlockUsageLocator.block_id published_course_usage_key))
    as (Hlookup & _).
  specialize (Hlookup fields Hcopied).
  destruct (write_loop_lookup (map_to_list fields) b) as [Hstored Hdirty].
  { intros [n k] v [n' k'] v' Hin%elem_of_map_to_list Hin'%elem_of_map_to_list Hname.
    simpl in Hname; subst n'.
    pose proof Hin as (fv & Hk & _)%Hlookup.
    pose proof Hin' as (fv' & Hk' & _)%Hlookup.
    assert (k = k') as -> by congruence.
    split; [done|congruence]. }
  split; [done|]. intros name. destruct (Hdirty name) as [Hin Hout]. split.
  - intros kind v Hf. apply Hin; [|done]. by apply elem_of_map_to_list.
  - intros Hno. apply Hout. intros [n k] v Hl%elem_of_map_to_list Hname.
    simpl in Hname; subst n. by rewrite Hno in Hl.
Qed.

Lemma in_place_update_lookup b stored' :
  SplitBlock.dirty b = ∅ →
  in_place_update to_json published_course_usage_key module b = Ok stored' →
  ∃ fields,
    copied = Ok fields
    ∧ ∀ name,
        (∀ kind v, fields !! (name, kind) = Some v →
           stored' !! name = Some (serialize to_json ((name, kind), v)))
        ∧ ((∀ kind, fields !! (name, kind) = None) →
           stored' !! name
           = if decide (is_Some (SplitBlock.fields b !! name)
                        ∧ is_set_on name module = false)
             then None else SplitBlock.stored b !! name).
Proof.
  intros Hclean. unfold in_place_update. fold copied.
  destruct (delete_unset_fields module b) as [b1|] eqn:Hdelete; [|done].
  destruct copied as [fields|] eqn:Hcopied; [|done].
  intros [= <-]. exists fields. split; [done|]. intros name.
  destruct (write_fields_lookup fields b1 Hcopied) as [Hstored Hdirty].
  destruct (Hdirty name) as [Hin Hout].
  apply delete_unset_fields_spec in Hdelete as [_ Hdeleted].
  destruct (Hdeleted name) as [Hs Hd].
  split.
  - intros kind v Hf. apply lookup_union_Some_l.
    by rewrite lookup_fmap, (Hin kind v Hf).
  - intros Hno. rewrite lookup_union_r.
    + by rewrite Hstored, Hs.
    + rewrite lookup_fmap, (Hout Hno), Hd, Hclean, lookup_empty.
      by case_decide.
Qed.

Lemma in_place_update_ok b :
  SplitBlock.dirty b = ∅ →
  (∀ name, is_Some (SplitBlock.fields b !! name) →
           is_Some (SplitBlock.stored b !! name) →
           is_Some (XBlock.fields module !! name)) →
  is_ok copied = true →
  is_ok (in_place_update to_json published_course_usage_key module b) = true.
Proof.
  intros Hclean Hdeclared Hcopied. unfold in_place_update. fold copied.
  destruct (delete_unset_fields_ok module b) as [b1 ->].
  { intros name Hf Hset. apply Hdeclared; [done|].
    unfold split_is_set_on in Hset. rewrite Hclean, lookup_empty in Hset.
    rewrite (bool_decide_eq_false_2 (is_Some None)) in Hset by (by intros [? ?]).
    rewrite orb_false_r in Hset. by apply bool_decide_eq_true_1 in Hset. }
  by destruct copied.
Qed.
End InPlace.



(** ** The draft pass on the snapshot of the draft branch *)

Lemma store_after_compose s ck b n1 blocks1 n2 blocks2 :
  (n2 = 0 → blocks2 = blocks1) →
  store_after (store_after s ck b n1 blocks1) ck b n2 blocks2
  = store_after s ck b (n1 + n2) blocks2.
Proof.
  intros Hsame. destruct n2 as [|m].
  - rewrite Hsame, Nat.add_0_r by done. done.
  - apply store_after_store_after.
Qed.

Lemma lookup_version_store_after_head s ck b v n blocks :
  CourseLocator.branch ck = Some b →
  lookup_version s ck = Ok v →
  (n = 0 → blocks = Version.blocks v) →
  ∃ g, lookup_version (store_after s ck b n blocks) ck = Ok (Version.mk g blocks).
Proof.
  intros Hb Hv Hsame. destruct n as [|k].
  - exists (Version.guid v). simpl. rewrite Hv, Hsame by done. by destruct v.
  - eexists. by apply lookup_version_store_after.
Qed.

Lemma lookup_version_store_after_other s ck b n blocks ck' :
  course_id ck' = course_id ck →
  CourseLocator.branch ck' ≠ Some b →
  lookup_version (store_after s ck b n blocks) ck' = lookup_version s ck'.
Proof.
  intros Hid Hb. destruct n as [|k]; [done|].
  unfold lookup_version; simpl.
  destruct (CourseLocator.branch ck') as [b'|] eqn:Hb'; [|done].
  rewrite Hid, lookup_insert_eq.
  destruct (SplitStore.course_index s !! course_id ck) as [versions|]; simpl.
  - rewrite lookup_insert_ne; [done|]. by intros ->.
  - rewrite lookup_insert_ne; [by rewrite lookup_empty|]. by intros ->.
Qed.

Section DraftPass.
Variable to_json : Field → PyValue → PyValue.
Variable block_class : string → gmap string FieldKind.
Variable iteritems :
  gmap Location.t BlockUsageLocator.t → list (Location.t * BlockUsageLocator.t).
Variables (published_course_usage_key : BlockUsageLocator.t) (user_id : nat).

Let ck := draft_course published_course_usage_key.

Lemma add_draft_loop_run modules awaiting_adoption w v :
  lookup_version (World.split_modulestore w) ck = Ok v →
  let r := run_blocks
             (add_draft_blocks to_json block_class published_course_usage_key)
             (World.source_modulestore w) modules awaiting_adoption
             (Version.blocks v) 0 in
  Outcome.world
    (for_each modules
       (add_draft_module to_json block_class published_course_usage_key user_id)
       awaiting_adoption w)
  = World.mk (World.source_modulestore w)
      (store_after (World.split_modulestore w) ck BranchName.draft r.1.2 r.1.1)
  ∧ Outcome.returned
      (for_each modules
         (add_draft_module to_json block_class published_course_usage_key user_id)
         awaiting_adoption w)
    = r.2.
Proof.
  apply for_each_run; [done|].
  intros module awaiting w' v' Hv'.
  apply (add_draft_run to_json block_class published_course_usage_key user_id
           module awaiting w' v' Hv').
Qed.

Lemma add_draft_modules_run source_course_key w v :
  lookup_version (World.split_modulestore w) ck = Ok v →
  let r := draft_pass_blocks to_json block_class iteritems
             published_course_usage_key (World.source_modulestore w)
             source_course_key (Version.blocks v) in
  let o := _add_draft_modules_to_course to_json block_class iteritems
             published_course_usage_key source_course_key user_id w in
  Outcome.world o
  = World.mk (World.source_modulestore w)
      (store_after (World.split_modulestore w) ck BranchName.draft r.1.2 r.1.1)
  ∧ Outcome.returned o = r.2.
Proof.
  intros Hv. cbv zeta. unfold _add_draft_modules_to_course, draft_pass_blocks.
  step.
  destruct (add_draft_loop_run
              (SourceStore.get_items (World.source_modulestore w)
                 source_course_key draft_only) ∅ w v Hv) as [Hworld1 Hret1].
  pose proof (run_blocks_no_write
                (add_draft_blocks to_json block_class published_course_usage_key)
                (World.source_modulestore w)
                (SourceStore.get_items (World.source_modulestore w)
                   source_course_key draft_only) ∅ (Version.blocks v)) as Hno1.
  destruct (run_blocks _ _ _ ∅ (Version.blocks v) 0) as [[blocks1 n1] r1];
    cbn [fst snd] in *.
  destruct r1 as [awaiting_adoption|e].
  - destruct (bind_ok _ (λ awaiting_adoption,
                for_each (iteritems awaiting_adoption)
                  (adopt to_json block_class published_course_usage_key user_id) tt)
                w awaiting_adoption Hret1) as (-> & -> & _).
    rewrite Hworld1.
    destruct (lookup_version_store_after_head (World.split_modulestore w) ck
                BranchName.draft v n1 blocks1) as [g Hv1]; [done|done|done|].
    destruct (adopt_loop_run to_json block_class published_course_usage_key
                user_id (iteritems awaiting_adoption)
                (World.mk (World.source_modulestore w)
                   (store_after (World.split_modulestore w) ck BranchName.draft
                      n1 blocks1))
                (Version.mk g blocks1) Hv1) as [Hworld2 Hret2].
    cbn [World.source_modulestore World.split_modulestore Version.blocks]
      in Hworld2, Hret2.
    rewrite Hworld2, Hret2.
    pose proof (run_blocks_no_write (adopt_step published_course_usage_key)
                  (World.source_modulestore w) (iteritems awaiting_adoption) tt
                  blocks1) as Hno2.
    destruct (run_blocks _ _ (iteritems awaiting_adoption) tt blocks1 0)
      as [[blocks2 n2] r2]; cbn [fst snd] in *.
    split; [|done]. f_equal. by apply store_after_compose.
  - destruct (bind_raise _ (λ awaiting_adoption,
                for_each (iteritems awaiting_adoption)
                  (adopt to_json block_class published_course_usage_key user_id) tt)
                w e Hret1) as (-> & -> & _).
    by rewrite Hworld1.
Qed.
End DraftPass.

(** ** The published pass on the snapshot of the published branch (4.4) *)

Lemma draft_ne_published : BranchName.draft ≠ BranchName.published.
Proof. discriminate. Qed.

Lemma get_item_lookup block_class s ck v category block_id :
  lookup_version s ck = Ok v →
  get_item block_class s (make_usage_key ck category block_id)
  = match block_id with
    | None => Raise ItemNotFoundError
    | Some bid =>
        match Version.blocks v !! (category, bid) with
        | None => Raise ItemNotFoundError
        | Some stored =>
            Ok (SplitBlock.mk
                  (make_usage_key (with_version ck (Version.guid v)) category (Some bid))
                  (block_class category) stored ∅)
        end
    end.
Proof. intros Hv. unfold get_item; simpl. by rewrite Hv. Qed.

Lemma clean_block_children blocks stored refs :
  children_refs (clean_block blocks stored) = Ok refs →
  ∀ r, r ∈ refs → ref_exists blocks r = true.
Proof.
  unfold clean_block, children_refs.
  destruct (stored !! "children") as [[r0|refs0|d|p]|] eqn:Hchildren;
    rewrite ?Hchildren; try done.
  - rewrite lookup_insert_eq. intros [= <-] r Hr.
    by apply list_elem_of_filter in Hr as [Hr _].
  - intros [= <-] r Hr. by apply elem_of_nil in Hr.
Qed.

Lemma ref_exists_clean blocks r :
  ref_exists (clean_block blocks <$> blocks) r = ref_exists blocks r.
Proof.
  unfold ref_exists. destruct r.2 as [bid|]; [|done].
  apply bool_decide_ext. rewrite lookup_fmap. apply fmap_is_Some.
Qed.

(** After the repair every child reference of the snapshot resolves. *)
Lemma clean_no_dangling (blocks : Structure) key stored refs r :
  (clean_block blocks <$> blocks) !! key = Some stored →
  children_refs stored = Ok refs → r ∈ refs →
  ref_exists (clean_block blocks <$> blocks) r = true.
Proof.
  rewrite lookup_fmap. intros Hkey Hrefs Hr.
  destruct (blocks !! key) as [stored0|]; [|done].
  inversion Hkey; subst stored. rewrite ref_exists_clean.
  by eapply clean_block_children.
Qed.

Section PublishedPass.
Variable to_json : Field → PyValue → PyValue.
Variables (new_course : SplitBlock.t) (old_course_loc : Location.t).
Variables (source_course_key : CourseKey.t) (user_id : nat).

Let ck := SplitBlock.id new_course.
Hypothesis published_ck : CourseLocator.branch ck = Some BranchName.published.

Lemma copy_published_run module w v :
  lookup_version (World.split_modulestore w) ck = Ok v →
  let o := copy_published_module to_json new_course old_course_loc user_id
             module tt w in
  Outcome.world o
  = match copy_blocks to_json new_course old_course_loc
            (World.source_modulestore w) module tt (Version.blocks v) with
    | Ok (_, Some blocks) =>
        World.mk (World.source_modulestore w)
          (write_version (World.split_modulestore w) ck BranchName.published blocks)
    | _ => w
    end
  ∧ Outcome.returned o
    = match copy_blocks to_json new_course old_course_loc
              (World.source_modulestore w) module tt (Version.blocks v) with
      | Ok (st, _) => Ok st
      | Raise e => Raise e
      end.
Proof.
  intros Hv. cbv zeta. unfold copy_published_module, copy_blocks. fold ck.
  case_bool_decide; [|done].
  step.
  destruct (_get_json_fields_translate_references _ _ _ _) as [fields|e]; [|done].
  rewrite split_write_run. unfold create_item. rewrite Hv, published_ck.
  unfold block_key. by case_bool_decide.
Qed.

Lemma copy_loop_run modules w v :
  lookup_version (World.split_modulestore w) ck = Ok v →
  let r := run_blocks (copy_blocks to_json new_course old_course_loc)
             (World.source_modulestore w) modules tt (Version.blocks v) 0 in
  Outcome.world
    (for_each modules
       (copy_published_module to_json new_course old_course_loc user_id) tt w)
  = World.mk (World.source_modulestore w)
      (store_after (World.split_modulestore w) ck BranchName.published r.1.2 r.1.1)
  ∧ Outcome.returned
      (for_each modules
         (copy_published_module to_json new_course old_course_loc user_id) tt w)
    = r.2.
Proof.
  apply for_each_run; [done|].
  intros module [] w' v' Hv'. by apply copy_published_run.
Qed.

(** What the copy loop leaves in the snapshot when it returns. *)
Lemma copy_loop_blocks source modules blocks blocks' n :
  run_blocks (copy_blocks to_json new_course old_course_loc) source modules tt
    blocks 0 = (blocks', n, Ok tt) →
  (∀ key stored, blocks !! key = Some stored → blocks' !! key = Some stored)
  ∧ (∀ module, module ∈ modules → XBlock.location module ≠ old_course_loc →
       ∃ fields,
         _get_json_fields_translate_references to_json module ck
           (BlockUsageLocator.block_id (SplitBlock.location new_course))
         = Ok fields
         ∧ blocks' !! block_key module = Some (relativize <$> fields))
  ∧ size blocks'
    = size blocks
      + length (filter (λ module, XBlock.location module ≠ old_course_loc) modules).
Proof.
  revert blocks n. induction modules as [|module modules IH]; intros blocks n.
  { intros [= <- <-]. split; [done|]. split; [|by rewrite Nat.add_0_r].
    intros module Hin. by apply elem_of_nil in Hin. }
  cbn [run_blocks]. unfold copy_blocks at 1. fold ck.
  rewrite filter_cons.
  case_bool_decide as Hroot.
  - destruct (_get_json_fields_translate_references _ _ _ _) as [fields|e]
      eqn:Hfields; [|done].
    case_bool_decide as Hdup; [done|].
    rewrite run_blocks_writes. cbn zeta.
    destruct (run_blocks _ source modules tt _ 0) as [[blocks1 n1] r1] eqn:Hrun.
    cbn [fst snd]. intros [= -> <- ->].
    destruct (IH _ _ Hrun) as (Hkeep & Hcopied & Hsize).
    apply eq_None_not_Some in Hdup.
    split; [|split].
    + intros key stored Hkey. apply Hkeep.
      rewrite lookup_insert_ne; [done|]. intros <-. congruence.
    + intros module' [->|Hin]%elem_of_cons Hroot'; [|by apply Hcopied].
      exists fields. split; [done|]. apply Hkeep. apply lookup_insert_eq.
    + rewrite decide_True by done. simpl.
      rewrite Hsize, map_size_insert_None by done. lia.
  - case_decide as Hd; [done|]. intros Hrun.
    destruct (IH _ _ Hrun) as (Hkeep & Hcopied & Hsize).
    split; [done|]. split; [|done].
    intros module' [->|Hin]%elem_of_cons Hroot'; [done|by apply Hcopied].
Qed.

Lemma lookup_version_inv s ck' v :
  lookup_version s ck' = Ok v →
  ∃ b versions,
    CourseLocator.branch ck' = Some b
    ∧ SplitStore.course_index s !! course_id ck' = Some versions
    ∧ versions !! b = Some v.
Proof.
  unfold lookup_version.
  destruct (CourseLocator.branch ck') as [b|]; [|done].
  destruct (SplitStore.course_index s !! course_id ck') as [versions|]; [|done].
  destruct (versions !! b) as [v'|] eqn:Hb; [|done].
  intros [= ->]. eauto.
Qed.

(** The published pass when it returns: the published branch points to the
    repaired snapshot and the draft branch to the snapshot as copied. *)
Lemma copy_published_modules_run w v :
  lookup_version (World.split_modulestore w) ck = Ok v →
  let r := run_blocks (copy_blocks to_json new_course old_course_loc)
             (World.source_modulestore w)
             (SourceStore.get_items (World.source_modulestore w)
                source_course_key published_only)
             tt (Version.blocks v) 0 in
  let o := _copy_published_modules_to_course to_json new_course old_course_loc
             source_course_key user_id w in
  Outcome.returned o = Ok tt →
  r.2 = Ok tt
  ∧ World.source_modulestore (Outcome.world o) = World.source_modulestore w
  ∧ ∃ g g',
      lookup_version (World.split_modulestore (Outcome.world o)) ck
      = Ok (Version.mk g (clean_block r.1.1 <$> r.1.1))
      ∧ lookup_version (World.split_modulestore (Outcome.world o))
          (for_branch ck BranchName.draft)
        = Ok (Version.mk g' r.1.1).
Proof.
  intros Hv. cbv zeta. unfold _copy_published_modules_to_course. fold ck.
  step.
  destruct (copy_loop_run
              (SourceStore.get_items (World.source_modulestore w)
                 source_course_key published_only) w v Hv) as [Hworld1 Hret1].
  pose proof (run_blocks_no_write (copy_blocks to_json new_course old_course_loc)
                (World.source_modulestore w)
                (SourceStore.get_items (World.source_modulestore w)
                   source_course_key published_only) tt (Version.blocks v)) as Hno.
  destruct (run_blocks _ _ _ tt (Version.blocks v) 0) as [[blocks1 n1] r1];
    cbn [fst snd] in *.
  destruct r1 as [[]|e]; cycle 1.
  { destruct (bind_raise _ (λ _ : unit,
       index_info ←← split_read (λ s, get_course_index_info s ck);;
       match index_info with
       | None => raise TypeError
       | Some versions =>
           match versions !! BranchName.published with
           | None => raise KeyError
           | Some v0 =>
               split_write (λ s, Ok
                 (update_course_index s ck (<[BranchName.draft := v0]> versions), tt));;;
               split_write (λ s, with_unit (internal_clean_children s ck))
           end
       end) w e Hret1) as (_ & -> & _). done. }
  destruct (bind_ok _ (λ _ : unit,
       index_info ←← split_read (λ s, get_course_index_info s ck);;
       match index_info with
       | None => raise TypeError
       | Some versions =>
           match versions !! BranchName.published with
           | None => raise KeyError
           | Some v0 =>
               split_write (λ s, Ok
                 (update_course_index s ck (<[BranchName.draft := v0]> versions), tt));;;
               split_write (λ s, with_unit (internal_clean_children s ck))
           end
       end) w tt Hret1) as (-> & -> & _).
  rewrite Hworld1. clear Hworld1 Hret1.
  destruct (lookup_version_store_after_head (World.split_modulestore w) ck
              BranchName.published v n1 blocks1) as [g1 Hv1]; [done..|].
  set (s1 := store_after (World.split_modulestore w) ck BranchName.published
               n1 blocks1) in *.
  destruct (lookup_version_inv _ _ _ Hv1) as (b & versions & Hb & Hindex & Hhead).
  rewrite published_ck in Hb. inversion Hb; subst b; clear Hb.
  step. cbn [World.split_modulestore World.source_modulestore].
  unfold get_course_index_info. rewrite Hindex, Hhead.
  step. cbn [World.split_modulestore World.source_modulestore].
  rewrite split_write_run. cbn [World.split_modulestore World.source_modulestore].
  set (s2 := update_course_index s1 ck _).
  assert (Hv2 : lookup_version s2 ck = Ok (Version.mk g1 blocks1)).
  { unfold lookup_version, s2, update_course_index; simpl.
    rewrite published_ck, lookup_insert_eq.
    by rewrite lookup_insert_ne, Hhead by apply draft_ne_published. }
  assert (Hd2 : lookup_version s2 (for_branch ck BranchName.draft)
                = Ok (Version.mk g1 blocks1)).
  { unfold lookup_version, s2, update_course_index; simpl.
    change (course_id (for_branch ck BranchName.draft)) with (course_id ck).
    by rewrite lookup_insert_eq, lookup_insert_eq. }
  unfold internal_clean_children. rewrite Hv2, published_ck. simpl.
  intros _. split; [done|]. split; [done|].
  eexists _, g1. split.
  - by apply lookup_version_write.
  - rewrite lookup_version_write_other; [done|done|].
    simpl. by intros [=].
Qed.
End PublishedPass.

(** ** The whole migration (4.3) *)

Lemma lookup_version_agnostic s ck ck' :
  course_version_agnostic ck = course_version_agnostic ck' →
  lookup_version s ck = lookup_version s ck'.
Proof.
  destruct ck, ck'. unfold course_version_agnostic, lookup_version, course_id; simpl.
  by intros [= -> -> -> ->].
Qed.

Lemma clean_block_ext (blocks blocks' : Structure) stored :
  (∀ r, ref_exists blocks r = ref_exists blocks' r) →
  clean_block blocks stored = clean_block blocks' stored.
Proof.
  intros Hext. unfold clean_block.
  destruct (stored !! "children") as [[| refs | |]|]; try done.
  do 2 f_equal. apply list_filter_iff. intros r. by rewrite Hext.
Qed.

Section Migration.
Variable to_json : Field → PyValue → PyValue.
Variable block_class : string → gmap string FieldKind.
Variable root_block_id : string.
Variable iteritems :
  gmap Location.t BlockUsageLocator.t → list (Location.t * BlockUsageLocator.t).
Variables (source_course_key : CourseKey.t) (user_id : nat).
Variables (new_org new_course new_run : option string).

Let org := default (CourseKey.org source_course_key) new_org.
Let course := default (CourseKey.course source_course_key) new_course.
Let run := default (CourseKey.run source_course_key) new_run.
Let new_course_key :=
  CourseLocator.mk org course run (Some BranchName.published) None.
Let migrate :=
  migrate_mongo_course to_json block_class root_block_id iteritems
    source_course_key user_id new_org new_course new_run.

(** The stages a returning migration went through. *)
Lemma migrate_returns w id :
  Outcome.returned (migrate w) = Ok id →
  ∃ original_course fields s1 new_course_block,
    SourceStore.get_course (World.source_modulestore w) source_course_key
    = Ok original_course
    ∧ _get_json_fields_translate_references to_json original_course
        new_course_key None = Ok fields
    ∧ create_course block_class root_block_id (World.split_modulestore w)
        org course run user_id fields BranchName.published
      = Ok (s1, new_course_block)
    ∧ id = SplitBlock.id new_course_block
    ∧ let o2 := _copy_published_modules_to_course to_json new_course_block
                  (XBlock.location original_course) source_course_key user_id
                  (World.mk (World.source_modulestore w) s1) in
      Outcome.returned o2 = Ok tt
      ∧ let o3 := _add_draft_modules_to_course to_json block_class iteritems
                    (SplitBlock.location new_course_block) source_course_key
                    user_id (Outcome.world o2) in
        Outcome.returned o3 = Ok tt
        ∧ Outcome.world (migrate w) = Outcome.world o3.
Proof.
  unfold migrate, migrate_mongo_course, bulk_write_operations.
  fold org course run. fold new_course_key.
  remember (_copy_published_modules_to_course to_json) as copy eqn:Hcopy_def.
  remember (_add_draft_modules_to_course to_json block_class iteritems)
    as draft eqn:Hdraft_def.
  do 2 step.
  destruct (SourceStore.get_course _ _) as [original_course|]; [|by step].
  do 2 step.
  destruct (_get_json_fields_translate_references _ original_course _ _)
    as [fields|] eqn:Hfields; [|done].
  step.
  destruct (create_course _ _ _ _ _ _ _ _ _) as [[s1 new_course_block]|]
    eqn:Hcreate; [|done].
  set (w1 := World.mk (World.source_modulestore w) s1).
  unfold bind at 1.
  destruct (copy new_course_block (XBlock.location original_course)
              source_course_key user_id w1) as [w2 lg2 [[]|]] eqn:Hcopy; [|done].
  cbn [Outcome.returned Outcome.world Outcome.logged].
  unfold bind at 1.
  destruct (draft (SplitBlock.location new_course_block) source_course_key
              user_id w2) as [w3 lg3 [[]|]] eqn:Hdraft; [|done].
  cbn [Outcome.returned Outcome.world Outcome.logged]. unfold ret; simpl.
  intros [= <-].
  exists original_course, fields, s1, new_course_block.
  do 4 (split; [done|]). cbv zeta. fold w1. rewrite Hcopy.
  cbn [Outcome.returned Outcome.world Outcome.logged].
  rewrite Hdraft. do 2 (split; [done|]).
  unfold bind. rewrite Hcopy.
  cbn [Outcome.returned Outcome.world Outcome.logged].
  by rewrite Hdraft.
Qed.

(** The published tree a returning migration leaves: the root and the
    copied modules, repaired. *)
Lemma migrate_published_tree w id :
  Outcome.returned (migrate w) = Ok id →
  ∃ original_course fields new_course_block blocks1 n g,
    SourceStore.get_course (World.source_modulestore w) source_course_key
    = Ok original_course
    ∧ _get_json_fields_translate_references to_json original_course
        new_course_key None = Ok fields
    ∧ id = SplitBlock.id new_course_block
    ∧ course_version_agnostic id = new_course_key
    ∧ SplitBlock.location new_course_block
      = make_usage_key id "course" (Some root_block_id)
    ∧ run_blocks
        (copy_blocks to_json new_course_block (XBlock.location original_course))
        (World.source_modulestore w)
        (SourceStore.get_items (World.source_modulestore w) source_course_key
           published_only)
        tt {[ ("course", root_block_id) := relativize <$> fields ]} 0
      = (blocks1, n, Ok tt)
    ∧ lookup_version (World.split_modulestore (Outcome.world (migrate w))) id
      = Ok (Version.mk g (clean_block blocks1 <$> blocks1)).
Proof.
  intros (original_course & fields & s1 & new_course_block & Hcourse & Hfields
          & Hcreate & -> & Hcopy & Hdraft & ->)%migrate_returns.
  unfold create_course in Hcreate.
  destruct (SplitStore.course_index (World.split_modulestore w) !! (org, course, run));
    [done|].
  injection Hcreate as Hs1 Hblock.
  set (guid := SplitStore.next_guid (World.split_modulestore w)) in *.
  set (ck := CourseLocator.mk org course run (Some BranchName.published) (Some guid))
    in *.
  set (blocks0 := {[ ("course", root_block_id) := relativize <$> fields ]} : Structure)
    in *.
  assert (Hid : SplitBlock.id new_course_block = ck) by (by rewrite <- Hblock).
  assert (Hv1 : lookup_version s1 (SplitBlock.id new_course_block)
                = Ok (Version.mk guid blocks0)).
  { rewrite Hid, <- Hs1. unfold lookup_version; simpl.
    by rewrite lookup_insert_eq, lookup_singleton_eq. }
  destruct (copy_published_modules_run to_json new_course_block
              (XBlock.location original_course) source_course_key user_id
              (ltac:(by rewrite Hid))
              (World.mk (World.source_modulestore w) s1) _ Hv1 Hcopy)
    as (Hrun & Hsrc & g & g' & Hpublished & Hdraft_head).
  cbn [World.source_modulestore World.split_modulestore Version.blocks]
    in Hrun, Hsrc, Hpublished, Hdraft_head.
  destruct (run_blocks _ _ _ tt blocks0 0) as [[blocks1 n] r1] eqn:Hblocks.
  cbn [fst snd] in *. subst r1.
  set (w2 := Outcome.world
               (_copy_published_modules_to_course to_json new_course_block
                  (XBlock.location original_course) source_course_key user_id
                  (World.mk (World.source_modulestore w) s1))) in *.
  destruct (add_draft_modules_run to_json block_class iteritems
              (SplitBlock.location new_course_block) user_id source_course_key
              w2 _ Hdraft_head) as [Hworld3 _].
  exists original_course, fields, new_course_block, blocks1, n, g.
  split; [done|]. split; [done|]. split; [done|].
  split; [by rewrite Hid|].
  split; [by rewrite <- Hblock|].
  split; [done|].
  rewrite Hworld3. cbn [World.split_modulestore].
  rewrite lookup_version_store_after_other; [done|done|].
  rewrite Hid. simpl. by intros [=].
Qed.
End Migration.
(** C5. After a migration that returns, every child reference of every
    block of the published tree resolves to a block of that tree. *)
Theorem published_children_resolve
    (to_json : Field → PyValue → PyValue)
    (block_class : string → gmap string FieldKind) (root_block_id : string)
    (iteritems : gmap Location.t BlockUsageLocator.t
                 → list (Location.t * BlockUsageLocator.t))
    (source_course_key : CourseKey.t) (user_id : nat)
    (new_org new_course new_run : option string) (w : World.t)
    (id : CourseLocator.t) :
  let o := migrate_mongo_course to_json block_class root_block_id iteritems
             source_course_key user_id new_org new_course new_run w in
  Outcome.returned o = Ok id →
  ∀ parent block children child,
    course_version_agnostic (BlockUsageLocator.course_key parent)
    = course_version_agnostic id →
    get_item block_class (World.split_modulestore (Outcome.world o)) parent
    = Ok block →
    split_children block = Ok children →
    child ∈ children →
    has_item (World.split_modulestore (Outcome.world o)) child = true.
Proof.
  intros o Hreturned parent block children child Hparent Hget Hchildren Hchild.
  apply migrate_published_tree in Hreturned
    as (_ & _ & _ & blocks1 & _ & g & _ & _ & _ & _ & _ & _ & Hhead).
  fold o in Hhead.
  rewrite <- (lookup_version_agnostic _ _ _ Hparent) in Hhead.
  destruct parent as [ck category block_id]. simpl in Hhead.
  change (BlockUsageLocator.mk ck category block_id)
    with (make_usage_key ck category block_id) in Hget.
  rewrite (get_item_lookup _ _ _ _ _ _ Hhead) in Hget.
  destruct block_id as [bid|]; [|done]. simpl in Hget.
  destruct ((clean_block blocks1 <$> blocks1) !! (category, bid))
    as [stored|] eqn:Hstored; [|done].
  injection Hget as <-.
  rewrite split_children_loaded in Hchildren; simpl in Hchildren.
  destruct (children_refs stored) as [refs|] eqn:Hrefs; [|done].
  injection Hchildren as <-.
  apply list_elem_of_fmap in Hchild as (r & -> & Hr).
  destruct r as [block_type block_id].
  unfold has_item, rooted, make_usage_key, block_ref.
  cbn [BlockUsageLocator.course_key BlockUsageLocator.block_type
       BlockUsageLocator.block_id fst snd].
  rewrite lookup_version_with_version, Hhead. cbn [Version.blocks].
  by eapply clean_no_dangling.
Qed.

Lemma published_children_resolve_witness :
  has_item (World.split_modulestore (Outcome.world Toy.migrated))
    (make_usage_key (with_version Toy.new_course_id 4) "vertical" (Some "v1"))
  = true.
Proof.
  assert (Hreturned : Outcome.returned Toy.migrated = Ok Toy.new_course_id)
    by (vm_compute; reflexivity).
  assert (Hget : get_item Toy.block_class
            (World.split_modulestore (Outcome.world Toy.migrated))
            (make_usage_key Toy.new_course_id "chapter" (Some "ch1"))
          = Ok (SplitBlock.mk
               (make_usage_key (with_version Toy.new_course_id 4) "chapter"
                  (Some "ch1"))
               Toy.container_fields
               (ToyDraft.stored [ToyDraft.ref "vertical" "v1";
                                 ToyDraft.ref "vertical" "v3"] "Chapter")
               ∅))
    by (vm_compute; reflexivity).
  assert (Hchildren : split_children (SplitBlock.mk
               (make_usage_key (with_version Toy.new_course_id 4) "chapter"
                  (Some "ch1"))
               Toy.container_fields
               (ToyDraft.stored [ToyDraft.ref "vertical" "v1";
                                 ToyDraft.ref "vertical" "v3"] "Chapter")
               ∅)
       = Ok [make_usage_key (with_version Toy.new_course_id 4) "vertical" (Some "v1");
             make_usage_key (with_version Toy.new_course_id 4) "vertical" (Some "v3")])
    by (vm_compute; reflexivity).
  exact (published_children_resolve Toy.to_json Toy.block_class
            Toy.root_block_id map_to_list Toy.ck 7 None None None Toy.world
            Toy.new_course_id Hreturned
            (make_usage_key Toy.new_course_id "chapter" (Some "ch1")) _ _ _
            eq_refl Hget Hchildren
            (list_elem_of_here _ _)).
Defined.

(** C2. After a migration that returns, the published tree holds the root
    and, for every module of the published-only view other than the course
    root, one block with the module's category and block identifier whose
    fields are what the JSON copier returns for the module (with the
    destination root's block identifier as [course_block_id]), less the
    child references the repair strips; it holds no other block. *)
Theorem published_modules_are_copied
    (to_json : Field → PyValue → PyValue)
    (block_class : string → gmap string FieldKind) (root_block_id : string)
    (iteritems : gmap Location.t BlockUsageLocator.t
                 → list (Location.t * BlockUsageLocator.t))
    (source_course_key : CourseKey.t) (user_id : nat)
    (new_org new_course new_run : option string) (w : World.t)
    (id : CourseLocator.t) :
  let o := migrate_mongo_course to_json block_class root_block_id iteritems
             source_course_key user_id new_org new_course new_run w in
  let modules :=
    SourceStore.get_items (World.source_modulestore w) source_course_key
      published_only in
  Outcome.returned o = Ok id →
  ∃ original_course root_fields v,
    SourceStore.get_course (World.source_modulestore w) source_course_key
    = Ok original_course
    ∧ lookup_version (World.split_modulestore (Outcome.world o)) id = Ok v
    ∧ size (Version.blocks v)
      = S (length (filter (λ module, XBlock.location module
                                     ≠ XBlock.location original_course) modules))
    ∧ _get_json_fields_translate_references to_json original_course
        (course_version_agnostic id) None = Ok root_fields
    ∧ Version.blocks v !! ("course", root_block_id)
      = Some (clean_block (Version.blocks v) (relativize <$> root_fields))
    ∧ ∀ module,
        module ∈ modules →
        XBlock.location module ≠ XBlock.location original_course →
        ∃ fields,
          _get_json_fields_translate_references to_json module id
            (Some root_block_id) = Ok fields
          ∧ Version.blocks v
              !! (XBlock.category module, Location.block_id (XBlock.location module))
            = Some (clean_block (Version.blocks v) (relativize <$> fields)).
Proof.
  intros o modules Hreturned.
  apply migrate_published_tree in Hreturned
    as (original_course & root_fields & new_course_block & blocks1 & n & g
        & Hcourse & Hroot & -> & Hkey & Hlocation & Hrun & Hhead).
  fold o in Hhead. fold modules in Hrun.
  apply copy_loop_blocks in Hrun as (Hkeep & Hcopied & Hsize).
  exists original_course, root_fields, (Version.mk g (clean_block blocks1 <$> blocks1)).
  cbn [Version.blocks].
  assert (Hclean : ∀ stored,
    clean_block blocks1 stored = clean_block (clean_block blocks1 <$> blocks1) stored).
  { intros stored. apply clean_block_ext. intros r. by rewrite ref_exists_clean. }
  split; [done|]. split; [done|]. split; [|split; [|split]].
  - by rewrite map_size_fmap, Hsize, map_size_singleton.
  - by rewrite Hkey.
  - rewrite lookup_fmap, (Hkeep _ (relativize <$> root_fields)); simpl.
    + by rewrite Hclean.
    + apply lookup_singleton_eq.
  - intros module Hmodule Hnot_root.
    destruct (Hcopied module Hmodule Hnot_root) as (fields & Hfields & Hblock).
    rewrite Hlocation in Hfields. exists fields. split; [done|].
    unfold block_key in Hblock. rewrite lookup_fmap, Hblock; simpl.
    by rewrite Hclean.
Qed.

Lemma published_modules_are_copied_witness :
  ∃ v, lookup_version (World.split_modulestore (Outcome.world Toy.migrated))
         Toy.new_course_id = Ok v
       ∧ size (Version.blocks v) = 4.
Proof.
  assert (Hreturned : Outcome.returned Toy.migrated = Ok Toy.new_course_id)
    by (vm_compute; reflexivity).
  assert (Hsource : SourceStore.get_course (World.source_modulestore Toy.world)
                      Toy.ck = Ok Toy.course)
    by (vm_compute; reflexivity).
  destruct (published_modules_are_copied Toy.to_json Toy.block_class
              Toy.root_block_id map_to_list Toy.ck 7 None None None Toy.world
              Toy.new_course_id Hreturned)
    as (original_course & root_fields & v & Hcourse & Hv & Hsize & _).
  exists v. split; [exact Hv|].
  rewrite Hsource in Hcourse. injection Hcourse as <-.
  rewrite Hsize. vm_compute; reflexivity.
Defined.
(** ** Loops on a snapshot and the order of their items *)

Lemma distinct_siblings_inj ck old_children child1 child2 :
  distinct_siblings ck old_children = true →
  child1 ∈ old_children → child2 ∈ old_children →
  sibling_loc ck child1 = sibling_loc ck child2 → child1 = child2.
Proof.
  unfold distinct_siblings. rewrite forallb_forall.
  intros Hall H1%list_elem_of_In H2%list_elem_of_In.
  specialize (Hall child1 H1). rewrite forallb_forall in Hall.
  exact (bool_decide_eq_true_1 _ (Hall child2 H2)).
Qed.

Lemma NoDup_fmap_inj {A B} (f : A → B) (l : list A) x y :
  NoDup (f <$> l) → x ∈ l → y ∈ l → f x = f y → x = y.
Proof.
  induction l as [|z l IH]; simpl; [by intros _ ?%elem_of_nil|].
  intros [Hz Hnd]%NoDup_cons [->|Hx]%elem_of_cons [->|Hy]%elem_of_cons Hf.
  - done.
  - destruct Hz. rewrite Hf. apply list_elem_of_fmap. eauto.
  - destruct Hz. rewrite <- Hf. apply list_elem_of_fmap. eauto.
  - by apply IH.
Qed.

Section RunPermutation.
Context {A St : Type}.
Variable step :
  SourceStore.t → A → St → Structure → result (St * option Structure).
Variable source : SourceStore.t.
Variable independent : A → A → Prop.
Hypothesis step_swap : ∀ x y st blocks st1 o1 st2 o2,
  independent x y →
  step source x st blocks = Ok (st1, o1) →
  step source y st1 (default blocks o1) = Ok (st2, o2) →
  ∃ st1' o1' o2',
    step source y st blocks = Ok (st1', o1')
    ∧ step source x st1' (default blocks o1') = Ok (st2, o2')
    ∧ default (default blocks o1') o2' = default (default blocks o1) o2
    ∧ writes o1' + writes o2' = writes o1 + writes o2.

Lemma run_blocks_cons x rest st blocks n :
  run_blocks step source (x :: rest) st blocks n
  = match step source x st blocks with
    | Ok (st', o) =>
        run_blocks step source rest st' (default blocks o) (writes o + n)
    | Raise e => (blocks, n, Raise e)
    end.
Proof. simpl. by destruct (step source x st blocks) as [[st' [blocks'|]]|e]. Qed.

(** A loop that returns, run on a permutation of its items of which any two
    are independent, returns the same and leaves the same snapshot after the
    same number of writes. *)
Lemma run_blocks_perm items items' :
  items ≡ₚ items' →
  NoDup items →
  (∀ x y, x ∈ items → y ∈ items → x ≠ y → independent x y) →
  ∀ st blocks n blocks' n' st',
    run_blocks step source items st blocks n = (blocks', n', Ok st') →
    run_blocks step source items' st blocks n = (blocks', n', Ok st').
Proof.
  induction 1 as [|x l l' Hperm IH|x y l|l l' l'' Hperm1 IH1 Hperm2 IH2];
    intros Hnd Hind st blocks n blocks' n' st'.
  - done.
  - apply NoDup_cons in Hnd as [Hx Hnd].
    rewrite !run_blocks_cons.
    destruct (step source x st blocks) as [[st1 o1]|e]; [|done].
    apply IH; [done|].
    intros a b Ha Hb. apply Hind; by right.
  - apply NoDup_cons in Hnd as [Hy Hnd].
    assert (Hyx : y ≠ x) by (intros ->; apply Hy; by left).
    rewrite !(run_blocks_cons y), !(run_blocks_cons x).
    destruct (step source y st blocks) as [[st1 o1]|e] eqn:Hstep1; [|done].
    rewrite (run_blocks_cons x).
    destruct (step source x st1 (default blocks o1)) as [[st2 o2]|e] eqn:Hstep2;
      [|done].
    destruct (step_swap y x st blocks st1 o1 st2 o2)
      as (st1' & o1' & o2' & Hstep1' & Hstep2' & Hblocks & Hwrites);
      [apply Hind; [by left|right; by left|done]|done|done|].
    rewrite Hstep1', run_blocks_cons, Hstep2', Hblocks.
    replace (writes o2' + (writes o1' + n)) with (writes o2 + (writes o1 + n))
      by lia.
    done.
  - intros Hrun. apply IH2.
    + by rewrite <- Hperm1.
    + intros a b Ha Hb. apply Hind; by rewrite Hperm1.
    + by apply IH1.
Qed.
End RunPermutation.
(** ** Two adoptions under one parent *)

Section Cursor.
Local Open Scope nat_scope.

Lemma advance_past_bounds ck cs (c : nat) s :
  c ≤ advance_past ck cs c s
  ∧ (c ≤ length cs → advance_past ck cs c s ≤ length cs).
Proof.
  unfold advance_past, position_from.
  destruct (list_find _ _) as [[i y]|] eqn:Hfind; [|lia].
  apply list_find_Some in Hfind as (Hi%lookup_lt_Some & _).
  rewrite length_drop in Hi. lia.
Qed.

Lemma foldl_advance_past_bounds ck cs sibs (c : nat) :
  c ≤ foldl (advance_past ck cs) c sibs
  ∧ (c ≤ length cs → foldl (advance_past ck cs) c sibs ≤ length cs).
Proof.
  revert c. induction sibs as [|s sibs IH]; intros c; simpl; [lia|].
  destruct (advance_past_bounds ck cs c s) as [Hge Hle].
  destruct (IH (advance_past ck cs c s)) as [IHge IHle].
  split; [lia|]. intros Hc. by apply IHle, Hle.
Qed.

Lemma advance_past_absent ck cs c s :
  sibling_loc ck s ∉ version_agnostic <$> cs → advance_past ck cs c s = c.
Proof.
  intros Hs. unfold advance_past, position_from.
  destruct (list_find _ _) as [[j y]|] eqn:Hfind; [|done].
  apply list_find_Some in Hfind as (Hj & Hy & _). destruct Hs.
  apply list_elem_of_fmap. exists y. split; [done|].
  eapply subseteq_drop, list_elem_of_lookup_2. done.
Qed.

(** A sibling found before the place of an insertion is found there still,
    and one that is not found is not found either when the inserted
    identifier is not its own. *)
Lemma advance_past_insert_later ck cs (c : nat) s (i : nat) x :
  version_agnostic x ≠ sibling_loc ck s →
  i ≤ length cs →
  advance_past ck cs c s ≤ i →
  advance_past ck (list_insert i x cs) c s = advance_past ck cs c s.
Proof.
  intros Hx Hi Hle.
  pose proof (advance_past_bounds ck cs c s) as [Hge _].
  assert (Hc : c ≤ i) by lia.
  revert Hle. unfold advance_past, position_from, list_insert.
  fold (sibling_loc ck s).
  rewrite <- (drop_take_drop cs c i Hc).
  rewrite (drop_app_le (take i cs)) by (rewrite length_take; lia).
  set (found := λ child, version_agnostic child = sibling_loc ck s).
  destruct (list_find found (drop c (take i cs))) as [[j y]|] eqn:Hfind.
  - by rewrite !(list_find_app_l _ _ _ _ _ Hfind).
  - rewrite !(list_find_app_r _ _ _ Hfind). simpl.
    rewrite decide_False by done.
    destruct (list_find _ (drop i cs)) as [[k z]|]; simpl; [|done].
    rewrite length_drop, length_take. lia.
Qed.

Lemma advance_past_inserted ck cs (i : nat) x s :
  version_agnostic x = sibling_loc ck s →
  i ≤ length cs →
  advance_past ck (list_insert i x cs) i s = S i.
Proof.
  intros Hx Hi. unfold advance_past, position_from, list_insert.
  fold (sibling_loc ck s).
  rewrite drop_app_length' by (rewrite length_take; lia). simpl.
  rewrite decide_True by done. simpl. lia.
Qed.

Lemma advance_past_insert_earlier ck cs (c : nat) s (i : nat) x :
  i ≤ c → i ≤ length cs →
  advance_past ck (list_insert i x cs) (S c) s = S (advance_past ck cs c s).
Proof.
  intros Hic Hi. unfold advance_past, position_from, list_insert.
  rewrite drop_app_ge by (rewrite length_take; lia).
  rewrite length_take, Nat.min_l by done.
  replace (S c - i) with (S (c - i)) by lia. simpl.
  rewrite drop_drop. replace (i + (c - i)) with c by lia.
  destruct (list_find _ _) as [[j y]|]; simpl; lia.
Qed.

Lemma foldl_advance_past_insert_later ck cs sibs (c i : nat) x :
  (∀ s, s ∈ sibs → version_agnostic x ≠ sibling_loc ck s) →
  i ≤ length cs →
  foldl (advance_past ck cs) c sibs ≤ i →
  foldl (advance_past ck (list_insert i x cs)) c sibs
  = foldl (advance_past ck cs) c sibs.
Proof.
  revert c. induction sibs as [|s sibs IH]; intros c Hx Hi Hle; simpl in *; [done|].
  pose proof (foldl_advance_past_bounds ck cs sibs (advance_past ck cs c s))
    as [Hge _].
  rewrite advance_past_insert_later; [|apply Hx; by left|done|lia].
  apply IH; [|done|done]. intros s' Hs'. apply Hx. by right.
Qed.

Lemma foldl_advance_past_insert_earlier ck cs sibs (c i : nat) x :
  i ≤ c → i ≤ length cs →
  foldl (advance_past ck (list_insert i x cs)) (S c) sibs
  = S (foldl (advance_past ck cs) c sibs).
Proof.
  revert c. induction sibs as [|s sibs IH]; intros c Hic Hi; simpl; [done|].
  rewrite advance_past_insert_earlier by done.
  apply IH; [|done].
  pose proof (advance_past_bounds ck cs c s) as [Hge _]. lia.
Qed.

Lemma list_insert_swap {A} (x y : A) (i j : nat) l :
  i ≤ j → j ≤ length l →
  list_insert (S j) y (list_insert i x l) = list_insert i x (list_insert j y l).
Proof.
  intros Hij Hj. unfold list_insert.
  rewrite (take_app_ge (take i l)) by (rewrite length_take; lia).
  rewrite (drop_app_ge (take i l)) by (rewrite length_take; lia).
  rewrite (take_app_le (take j l)) by (rewrite length_take; lia).
  rewrite (drop_app_le (take j l)) by (rewrite length_take; lia).
  rewrite length_take, Nat.min_l by lia.
  replace (S j - i) with (S (j - i)) by lia. simpl.
  rewrite take_take, Nat.min_l by lia.
  rewrite drop_drop. replace (i + (j - i)) with j by lia.
  rewrite take_drop_commute. replace (i + (j - i)) with j by lia.
  by rewrite <- app_assoc.
Qed.

Lemma preceding_siblings_elem_of old a s :
  s ∈ preceding_siblings old a → s ∈ old ∧ s ≠ a.
Proof.
  induction old as [|c old IH]; simpl; [by intros ?%elem_of_nil|].
  case_bool_decide as Hc; [by intros ?%elem_of_nil|].
  intros [->|Hs]%elem_of_cons.
  - split; [by left|done].
  - destruct (IH Hs). split; [by right|done].
Qed.

(** Of two children of the source parent one comes first. *)
Lemma preceding_siblings_split old a b :
  a ≠ b → a ∈ old → b ∈ old →
  (∃ mid, preceding_siblings old b = preceding_siblings old a ++ a :: mid)
  ∨ (∃ mid, preceding_siblings old a = preceding_siblings old b ++ b :: mid).
Proof.
  intros Hab. induction old as [|c old IH]; [by intros ?%elem_of_nil|].
  intros Ha Hb. simpl.
  destruct (decide (c = a)) as [->|Hca].
  { left. rewrite (bool_decide_eq_true_2 (a = a)) by done.
    rewrite (bool_decide_eq_false_2 (a = b)) by done. simpl. eauto. }
  destruct (decide (c = b)) as [->|Hcb].
  { right. rewrite (bool_decide_eq_true_2 (b = b)) by done.
    rewrite (bool_decide_eq_false_2 (b = a)) by done. simpl. eauto. }
  rewrite !bool_decide_eq_false_2 by done.
  apply elem_of_cons in Ha as [->|Ha]; [done|].
  apply elem_of_cons in Hb as [->|Hb]; [done|].
  destruct (IH Ha Hb) as [[mid ->]|[mid ->]]; [left|right]; by exists mid.
Qed.

(** The cursors of two children of which [a] comes first: inserting [a]
    moves the place of [b] by one, inserting [b] leaves the place of [a]. *)
Lemma sibling_cursor_ordered ck cs old a b mid x y :
  preceding_siblings old b = preceding_siblings old a ++ a :: mid →
  distinct_siblings ck old = true →
  a ∈ old → b ∈ old →
  sibling_loc ck a ∉ version_agnostic <$> cs →
  version_agnostic x = sibling_loc ck a →
  version_agnostic y = sibling_loc ck b →
  sibling_cursor old a ck cs ≤ sibling_cursor old b ck cs
  ∧ sibling_cursor old b ck cs ≤ length cs
  ∧ sibling_cursor old b ck (list_insert (sibling_cursor old a ck cs) x cs)
    = S (sibling_cursor old b ck cs)
  ∧ sibling_cursor old a ck (list_insert (sibling_cursor old b ck cs) y cs)
    = sibling_cursor old a ck cs.
Proof.
  intros Hsplit Hnd Ha Hb Hacs Hx Hy. unfold sibling_cursor.
  rewrite Hsplit, !foldl_app. simpl.
  rewrite (advance_past_absent ck cs _ a Hacs).
  set (cA := foldl (advance_past ck cs) 0 (preceding_siblings old a)).
  pose proof (foldl_advance_past_bounds ck cs (preceding_siblings old a) 0)
    as [_ HcA]. fold cA in HcA. specialize (HcA ltac:(lia)).
  pose proof (foldl_advance_past_bounds ck cs mid cA) as [HcB1 HcB2].
  specialize (HcB2 HcA).
  assert (Hpre : ∀ z s, z ∈ old → s ∈ preceding_siblings old z →
                        sibling_loc ck z ≠ sibling_loc ck s).
  { intros z s Hz [Hs Hsz]%preceding_siblings_elem_of Heq.
    apply Hsz. symmetry. by apply (distinct_siblings_inj ck old). }
  split; [done|]. split; [done|]. split.
  - rewrite (foldl_advance_past_insert_later ck cs (preceding_siblings old a));
      [|intros s Hs; rewrite Hx; by apply Hpre|done|done].
    fold cA. rewrite advance_past_inserted by done.
    by apply foldl_advance_past_insert_earlier.
  - apply foldl_advance_past_insert_later; [|done|done].
    intros s Hs. rewrite Hy. apply Hpre; [done|].
    rewrite Hsplit. apply elem_of_app. by left.
Qed.

(** Two children of one source parent, neither among the children of the
    destination parent, end up at the same places whichever is adopted
    first. *)
Lemma sibling_cursor_commute ck cs old a b x y :
  distinct_siblings ck old = true →
  a ∈ old → b ∈ old → a ≠ b →
  sibling_loc ck a ∉ version_agnostic <$> cs →
  sibling_loc ck b ∉ version_agnostic <$> cs →
  version_agnostic x = sibling_loc ck a →
  version_agnostic y = sibling_loc ck b →
  list_insert (sibling_cursor old b ck (list_insert (sibling_cursor old a ck cs) x cs))
    y (list_insert (sibling_cursor old a ck cs) x cs)
  = list_insert (sibling_cursor old a ck (list_insert (sibling_cursor old b ck cs) y cs))
      x (list_insert (sibling_cursor old b ck cs) y cs).
Proof.
  intros Hnd Ha Hb Hab Hacs Hbcs Hx Hy.
  destruct (preceding_siblings_split old a b Hab Ha Hb) as [[mid Hmid]|[mid Hmid]].
  - destruct (sibling_cursor_ordered ck cs old a b mid x y)
      as (Hle & Hlen & -> & ->); [done..|].
    by apply list_insert_swap.
  - destruct (sibling_cursor_ordered ck cs old b a mid y x)
      as (Hle & Hlen & -> & ->); [done..|].
    symmetry. by apply list_insert_swap.
Qed.
End Cursor.
(** ** Two adoptions commute *)

Lemma adopt_blocks_stored source published_course_usage_key item blocks :
  adopt_blocks source published_course_usage_key item blocks
  = match adoption_target published_course_usage_key source item.1 with
    | Raise e => Raise e
    | Ok None => Ok None
    | Ok (Some (key, old_parent)) =>
        match blocks !! key with
        | None => Raise ItemNotFoundError
        | Some stored =>
            match adopt_stored (draft_course published_course_usage_key) item
                    old_parent stored with
            | Raise e => Raise e
            | Ok None => Ok None
            | Ok (Some stored') => Ok (Some (<[key := stored']> blocks))
            end
        end
    end.
Proof.
  unfold adopt_blocks, adoption_target, adopt_stored.
  destruct (SourceStore.get_parent_location _ _ _) as [parent_loc|]; [|done].
  destruct (SourceStore.get_item _ _) as [old_parent|]; [|done].
  destruct (split_parent_key _ _) as [key|]; [|done].
  destruct (blocks !! key) as [stored|]; [|done].
  destruct (children_refs stored) as [refs|]; [|done]. cbv zeta.
  case_bool_decide; [done|].
  by destruct (xblock_children old_parent).
Qed.

Lemma adoption_target_Some published_course_usage_key source location key old_parent :
  adoption_target published_course_usage_key source location
  = Ok (Some (key, old_parent)) →
  ∃ parent_loc,
    SourceStore.get_parent_location source location draft_preferred = Some parent_loc
    ∧ SourceStore.get_item source parent_loc = Ok old_parent
    ∧ split_parent_key published_course_usage_key parent_loc = Some key.
Proof.
  unfold adoption_target. intros Htarget.
  destruct (SourceStore.get_parent_location _ _ _) as [parent_loc|] eqn:Hparent;
    [|done].
  destruct (SourceStore.get_item _ _) as [old_parent'|] eqn:Hitem; [|done].
  destruct (split_parent_key _ _) as [key'|] eqn:Hkey; [|done].
  injection Htarget as -> ->. by exists parent_loc.
Qed.

Lemma children_refs_insert stored refs :
  children_refs (<["children" := VRefList refs]> stored) = Ok refs.
Proof. unfold children_refs. by rewrite lookup_insert_eq. Qed.

Lemma version_agnostic_sibling_loc ck l :
  CourseLocator.version_guid ck = None →
  version_agnostic (sibling_loc ck l) = sibling_loc ck l.
Proof.
  intros Hck. unfold version_agnostic, sibling_loc, make_usage_key; simpl.
  f_equal. destruct ck; simpl in *. by subst.
Qed.

Lemma version_agnostic_rooted_plain ck (refs : list BlockRef) :
  CourseLocator.version_guid ck = None →
  version_agnostic <$> (rooted ck <$> refs) = rooted ck <$> refs.
Proof.
  intros Hck. rewrite <- list_fmap_compose.
  apply list_fmap_ext. intros ? r _. simpl.
  unfold version_agnostic, rooted, make_usage_key; simpl.
  f_equal. destruct ck; simpl in *. by subst.
Qed.

Lemma elem_of_list_insert_old {A} (x y : A) (i : nat) l :
  x ∈ l → x ∈ list_insert i y l.
Proof.
  intros Hx. rewrite <- (take_drop i l) in Hx. unfold list_insert.
  apply elem_of_app in Hx as [Hx|Hx]; apply elem_of_app; [by left|].
  right. by right.
Qed.

Lemma not_elem_of_list_insert {A} (x y : A) (i : nat) l :
  x ≠ y → x ∉ l → x ∉ list_insert i y l.
Proof. intros Hxy Hx [?|?]%elem_of_list_insert; done. Qed.

Lemma adopt_stored_refs ck item old_parent stored refs :
  children_refs stored = Ok refs →
  adopt_stored ck item old_parent stored
  = if bool_decide (item.2 ∈ rooted ck <$> refs) then Ok None
    else match xblock_children old_parent with
         | Raise e => Raise e
         | Ok old_children => Ok (Some (with_child ck old_children item refs stored))
         end.
Proof.
  intros Hrefs. unfold adopt_stored, with_child. rewrite Hrefs. cbv zeta.
  case_bool_decide; [done|].
  destruct (xblock_children old_parent) as [old_children|]; [|done].
  by rewrite insertion_cursor_sibling_cursor.
Qed.

Lemma with_child_refs ck old_children item refs stored :
  BlockUsageLocator.course_key item.2 = ck →
  ∃ refs',
    children_refs (with_child ck old_children item refs stored) = Ok refs'
    ∧ rooted ck <$> refs'
      = list_insert (sibling_cursor old_children item.1 ck (rooted ck <$> refs))
          item.2 (rooted ck <$> refs).
Proof.
  intros Hck. eexists. split; [apply children_refs_insert|].
  rewrite !list_insert_fmap, block_ref_rooted_fmap, <- Hck.
  by rewrite rooted_block_ref.
Qed.

Lemma with_child_with_child ck old1 item1 refs1 old2 item2 refs2 stored :
  with_child ck old2 item2 refs2 (with_child ck old1 item1 refs1 stored)
  = with_child ck old2 item2 refs2 stored.
Proof. unfold with_child. by rewrite insert_insert_eq. Qed.

(** On the stored fields of one destination parent, two pending children of
    the same source parent are adopted with the same result in either
    order. *)
Lemma adopt_stored_swap ck x y old_parent stored o1 o2 :
  CourseLocator.version_guid ck = None →
  x.2 = sibling_loc ck x.1 →
  y.2 = sibling_loc ck y.1 →
  x.1 ≠ y.1 →
  (∀ old_children, xblock_children old_parent = Ok old_children →
     x.1 ∈ old_children ∧ y.1 ∈ old_children
     ∧ distinct_siblings ck old_children = true) →
  adopt_stored ck x old_parent stored = Ok o1 →
  adopt_stored ck y old_parent (default stored o1) = Ok o2 →
  ∃ o1' o2',
    adopt_stored ck y old_parent stored = Ok o1'
    ∧ adopt_stored ck x old_parent (default stored o1') = Ok o2'
    ∧ default (default stored o1') o2' = default (default stored o1) o2
    ∧ writes o1' + writes o2' = writes o1 + writes o2.
Proof.
  intros Hck Hx Hy Hxy Hold Hstep1 Hstep2.
  assert (Hxck : BlockUsageLocator.course_key x.2 = ck) by by rewrite Hx.
  assert (Hyck : BlockUsageLocator.course_key y.2 = ck) by by rewrite Hy.
  destruct (children_refs stored) as [refs|e] eqn:Hrefs;
    [|unfold adopt_stored in Hstep1; by rewrite Hrefs in Hstep1].
  rewrite (adopt_stored_refs _ _ _ _ _ Hrefs) in Hstep1.
  rewrite (adopt_stored_refs _ y _ _ _ Hrefs).
  set (children := rooted ck <$> refs) in *.
  destruct (decide (x.2 ∈ children)) as [Hxin|Hxout].
  - (* [x] is skipped *)
    rewrite bool_decide_eq_true_2 in Hstep1 by done.
    injection Hstep1 as <-. simpl in Hstep2.
    rewrite (adopt_stored_refs _ _ _ _ _ Hrefs) in Hstep2. fold children in Hstep2.
    exists o2. rewrite Hstep2.
    destruct (decide (y.2 ∈ children)) as [Hyin|Hyout].
    + rewrite bool_decide_eq_true_2 in Hstep2 by done. injection Hstep2 as <-.
      exists None. simpl. rewrite (adopt_stored_refs _ _ _ _ _ Hrefs).
      fold children. by rewrite bool_decide_eq_true_2.
    + rewrite bool_decide_eq_false_2 in Hstep2 by done.
      destruct (xblock_children old_parent) as [old_children|]; [|done].
      injection Hstep2 as <-. exists None. simpl.
      destruct (with_child_refs ck old_children y refs stored Hyck)
        as (refs' & Hrefs' & Hchildren').
      rewrite (adopt_stored_refs _ _ _ _ _ Hrefs'), Hchildren'.
      fold children. rewrite bool_decide_eq_true_2; [done|].
      by apply elem_of_list_insert_old.
  - rewrite bool_decide_eq_false_2 in Hstep1 by done.
    destruct (xblock_children old_parent) as [old_children|] eqn:Hchildren; [|done].
    destruct (Hold old_children eq_refl) as (Hxold & Hyold & Hnd).
    injection Hstep1 as <-. simpl in Hstep2.
    destruct (with_child_refs ck old_children x refs stored Hxck)
      as (refs1 & Hrefs1 & Hchildren1).
    rewrite (adopt_stored_refs _ _ _ _ _ Hrefs1), Hchildren, Hchildren1 in Hstep2.
    fold children in Hstep2, Hchildren1.
    assert (Hne : x.2 ≠ y.2).
    { rewrite Hx, Hy. intros Heq. apply Hxy.
      by apply (distinct_siblings_inj ck old_children). }
    destruct (decide (y.2 ∈ children)) as [Hyin|Hyout].
    + (* [y] is skipped *)
      rewrite bool_decide_eq_true_2 in Hstep2
        by by apply elem_of_list_insert_old.
      injection Hstep2 as <-.
      exists None. rewrite bool_decide_eq_true_2 by done.
      exists (Some (with_child ck old_children x refs stored)). simpl.
      rewrite (adopt_stored_refs _ _ _ _ _ Hrefs). fold children.
      by rewrite bool_decide_eq_false_2, Hchildren.
    + rewrite bool_decide_eq_false_2 in Hstep2
        by by apply not_elem_of_list_insert.
      injection Hstep2 as <-.
      rewrite bool_decide_eq_false_2 by done.
      exists (Some (with_child ck old_children y refs stored)). simpl.
      destruct (with_child_refs ck old_children y refs stored Hyck)
        as (refs2 & Hrefs2 & Hchildren2). fold children in Hchildren2.
      rewrite (adopt_stored_refs _ _ _ _ _ Hrefs2), Hchildren, Hchildren2.
      rewrite bool_decide_eq_false_2 by by apply not_elem_of_list_insert.
      eexists. split; [done|]. split; [done|]. split; [|done]. simpl.
      rewrite !with_child_with_child. unfold with_child.
      rewrite Hchildren1, Hchildren2. do 3 f_equal. symmetry.
      apply sibling_cursor_commute; try done.
      * unfold children. rewrite version_agnostic_rooted_plain by done.
        fold children. by rewrite <- Hx.
      * unfold children. rewrite version_agnostic_rooted_plain by done.
        fold children. by rewrite <- Hy.
      * rewrite Hx. by apply version_agnostic_sibling_loc.
      * rewrite Hy. by apply version_agnostic_sibling_loc.
Qed.
(** ** The pending table can be walked in any order *)

Lemma writes_replaced key blocks o : writes (replaced key blocks o) = writes o.
Proof. by destruct o. Qed.

Lemma lookup_replaced key blocks o stored :
  blocks !! key = Some stored →
  default blocks (replaced key blocks o) !! key = Some (default stored o).
Proof. intros Hkey. destruct o; simpl; [by rewrite lookup_insert_eq|done]. Qed.

Lemma lookup_replaced_ne key blocks o key' :
  key ≠ key' →
  default blocks (replaced key blocks o) !! key' = blocks !! key'.
Proof. intros Hne. destruct o; simpl; [by rewrite lookup_insert_ne|done]. Qed.

Lemma replaced_twice key blocks stored o1 o2 :
  default (default blocks (replaced key blocks o1))
    (replaced key (default blocks (replaced key blocks o1)) o2)
  = match writes o1 + writes o2 with
    | 0 => blocks
    | _ => <[key := default (default stored o1) o2]> blocks
    end.
Proof. destruct o1, o2; simpl; [by rewrite insert_insert_eq|done..]. Qed.

Lemma replaced_commute key1 key2 blocks o1 o2 :
  key1 ≠ key2 →
  default (default blocks (replaced key1 blocks o1))
    (replaced key2 (default blocks (replaced key1 blocks o1)) o2)
  = default (default blocks (replaced key2 blocks o2))
      (replaced key1 (default blocks (replaced key2 blocks o2)) o1).
Proof. intros Hne. destruct o1, o2; simpl; [by apply insert_insert_ne|done..]. Qed.

Lemma adopt_step_target published_course_usage_key source item st blocks :
  adopt_step published_course_usage_key source item st blocks
  = match adoption_target published_course_usage_key source item.1 with
    | Raise e => Raise e
    | Ok None => Ok (tt, None)
    | Ok (Some (key, old_parent)) =>
        match blocks !! key with
        | None => Raise ItemNotFoundError
        | Some stored =>
            match adopt_stored (draft_course published_course_usage_key) item
                    old_parent stored with
            | Raise e => Raise e
            | Ok o => Ok (tt, replaced key blocks o)
            end
        end
    end.
Proof.
  unfold adopt_step. rewrite adopt_blocks_stored.
  destruct (adoption_target _ _ _) as [[[key old_parent]|]|]; [|done..].
  destruct (blocks !! key) as [stored|]; [|done].
  by destruct (adopt_stored _ _ _ _) as [[stored'|]|].
Qed.

(** Two adoptions of an iteration of the pending table commute. *)
Lemma adopt_step_swap published_course_usage_key source x y st blocks st1 o1 st2 o2 :
  independent_adoptions published_course_usage_key source x y →
  adopt_step published_course_usage_key source x st blocks = Ok (st1, o1) →
  adopt_step published_course_usage_key source y st1 (default blocks o1)
  = Ok (st2, o2) →
  ∃ st1' o1' o2',
    adopt_step published_course_usage_key source y st blocks = Ok (st1', o1')
    ∧ adopt_step published_course_usage_key source x st1' (default blocks o1')
      = Ok (st2, o2')
    ∧ default (default blocks o1') o2' = default (default blocks o1) o2
    ∧ writes o1' + writes o2' = writes o1 + writes o2.
Proof.
  intros (Hx & Hy & Hxy & Hlx & Hly & Hone).
  rewrite !adopt_step_target. destruct st, st1, st2.
  set (ck := draft_course published_course_usage_key) in *.
  destruct (adoption_target _ _ x.1) as [[[kx opx]|]|] eqn:Htx; [| |done].
  2:{ (* [x] is an orphan *)
      intros [= <-] Hstep2. simpl in Hstep2. exists tt, o2, None.
      rewrite ?adopt_step_target, ?Htx.
      split; [done|]. split; [done|]. split; [done|]. simpl; lia. }
  destruct (adoption_target _ _ y.1) as [[[ky opy]|]|] eqn:Hty; [| |done].
  2:{ (* [y] is an orphan *)
      intros Hstep1 [= <-]. exists tt, None, o1.
      rewrite ?adopt_step_target, ?Htx, ?Hty. simpl.
      split; [done|]. split; [done|]. split; [done|]. lia. }
  destruct (blocks !! kx) as [sx|] eqn:Hkx; [|done].
  destruct (adopt_stored ck x opx sx) as [ox|] eqn:Hox; [|done].
  intros [= <-].
  destruct (decide (kx = ky)) as [<-|Hne].
  - (* one destination parent *)
    rewrite (lookup_replaced _ _ _ _ Hkx).
    destruct (adopt_stored ck y opy (default sx ox)) as [oy|] eqn:Hoy; [|done].
    intros [= <-].
    destruct (adoption_target_Some _ _ _ _ _ Htx) as (px & Hpx & Hix & Hsx).
    destruct (adoption_target_Some _ _ _ _ _ Hty) as (py & Hpy & Hiy & Hsy).
    unfold one_parent in Hone. rewrite Hpx, Hpy in Hone.
    apply bool_decide_eq_true_1 in Hone.
    assert (px = py) as <- by (apply Hone; congruence).
    assert (opy = opx) as -> by congruence.
    destruct (adopt_stored_swap ck x y opx sx ox oy)
      as (ox' & oy' & Hox' & Hoy' & Hsame & Hwrites); try done.
    { intros old_children Hold.
      unfold parent_lists in Hlx, Hly.
      rewrite Hpx, Hix, Hold in Hlx. rewrite Hpy, Hix, Hold in Hly.
      apply andb_true_iff in Hlx as [Hlx%bool_decide_eq_true_1 Hnd].
      apply andb_true_iff in Hly as [Hly%bool_decide_eq_true_1 _].
      done. }
    exists tt, (replaced kx blocks ox'),
      (replaced kx (default blocks (replaced kx blocks ox')) oy').
    rewrite ?adopt_step_target, ?Htx, ?Hty, ?Hkx. fold ck. rewrite Hox'.
    rewrite (lookup_replaced _ _ _ _ Hkx), Hoy'.
    split; [done|]. split; [done|].
    rewrite !writes_replaced. split; [|done].
    rewrite !(replaced_twice _ _ sx), Hsame, Hwrites. done.
  - rewrite (lookup_replaced_ne _ _ _ _ Hne).
    destruct (blocks !! ky) as [sy|] eqn:Hky; [|done].
    destruct (adopt_stored ck y opy sy) as [oy|] eqn:Hoy; [|done].
    intros [= <-].
    exists tt, (replaced ky blocks oy),
      (replaced kx (default blocks (replaced ky blocks oy)) ox).
    rewrite ?adopt_step_target, ?Htx, ?Hty, ?Hky. fold ck. rewrite ?Hoy.
    rewrite (lookup_replaced_ne _ _ _ _ (not_eq_sym Hne)), Hkx, Hox.
    split; [done|]. split; [done|].
    rewrite !writes_replaced. split; [|lia].
    symmetry. by apply replaced_commute.
Qed.

Lemma adopt_loop_perm published_course_usage_key source items items' blocks r :
  items ≡ₚ items' →
  NoDup items →
  (∀ x y, x ∈ items → y ∈ items → x ≠ y →
          independent_adoptions published_course_usage_key source x y) →
  run_blocks (adopt_step published_course_usage_key) source items tt blocks 0
  = (r, Ok tt) →
  run_blocks (adopt_step published_course_usage_key) source items' tt blocks 0
  = (r, Ok tt).
Proof.
  intros Hperm Hnd Hind. destruct r as [blocks' n]. 
  by apply (run_blocks_perm _ _
              (independent_adoptions published_course_usage_key source)
              (adopt_step_swap published_course_usage_key source)).
Qed.
(** ** The draft modules can be visited in any order *)

(** Two draft modules with different keys and locations are written with
    the same result in either order. *)
Lemma add_draft_blocks_swap to_json block_class published_course_usage_key
    source x y st blocks st1 o1 st2 o2 :
  independent_drafts x y →
  add_draft_blocks to_json block_class published_course_usage_key source x st
    blocks = Ok (st1, o1) →
  add_draft_blocks to_json block_class published_course_usage_key source y st1
    (default blocks o1) = Ok (st2, o2) →
  ∃ st1' o1' o2',
    add_draft_blocks to_json block_class published_course_usage_key source y st
      blocks = Ok (st1', o1')
    ∧ add_draft_blocks to_json block_class published_course_usage_key source x
        st1' (default blocks o1') = Ok (st2, o2')
    ∧ default (default blocks o1') o2' = default (default blocks o1) o2
    ∧ writes o1' + writes o2' = writes o1 + writes o2.
Proof.
  intros [Hkey Hloc]. unfold add_draft_blocks. intros Hstep1 Hstep2.
  destruct (blocks !! block_key x) as [sx|] eqn:Hkx.
  - destruct (in_place_update _ _ x _) as [sx'|] eqn:Hux; [|done].
    injection Hstep1 as <- <-. simpl in Hstep2.
    rewrite lookup_insert_ne in Hstep2 by done.
    destruct (blocks !! block_key y) as [sy|] eqn:Hky.
    + destruct (in_place_update _ _ y _) as [sy'|] eqn:Huy; [|done].
      injection Hstep2 as <- <-.
      eexists _, _, _. split; [done|]. simpl.
      rewrite lookup_insert_ne, Hkx, ?Hux by done.
      split; [done|]. split; [|done]. by apply insert_insert_ne.
    + destruct (_get_json_fields_translate_references _ y _ _) as [fy|] eqn:Hfy;
        [|done].
      injection Hstep2 as <- <-.
      eexists _, _, _. split; [done|]. simpl.
      rewrite lookup_insert_ne, Hkx, ?Hux by done.
      split; [done|]. split; [|done]. by apply insert_insert_ne.
  - destruct (_get_json_fields_translate_references _ x _ _) as [fx|] eqn:Hfx;
      [|done].
    injection Hstep1 as <- <-. simpl in Hstep2.
    rewrite lookup_insert_ne in Hstep2 by done.
    destruct (blocks !! block_key y) as [sy|] eqn:Hky.
    + destruct (in_place_update _ _ y _) as [sy'|] eqn:Huy; [|done].
      injection Hstep2 as <- <-.
      eexists _, _, _. split; [done|]. simpl.
      rewrite lookup_insert_ne, Hkx, ?Hfx by done.
      split; [done|]. split; [|done]. by apply insert_insert_ne.
    + destruct (_get_json_fields_translate_references _ y _ _) as [fy|] eqn:Hfy;
        [|done].
      injection Hstep2 as <- <-.
      eexists _, _, _. split; [done|]. simpl.
      rewrite lookup_insert_ne, Hkx, ?Hfx by done.
      split; [by rewrite (insert_insert_ne st)|]. split; [|done].
      by apply insert_insert_ne.
Qed.

Lemma add_draft_loop_perm to_json block_class published_course_usage_key source
    modules modules' awaiting_adoption blocks r awaiting_adoption' :
  modules ≡ₚ modules' →
  NoDup modules →
  (∀ x y, x ∈ modules → y ∈ modules → x ≠ y → independent_drafts x y) →
  run_blocks (add_draft_blocks to_json block_class published_course_usage_key)
    source modules awaiting_adoption blocks 0 = (r, Ok awaiting_adoption') →
  run_blocks (add_draft_blocks to_json block_class published_course_usage_key)
    source modules' awaiting_adoption blocks 0 = (r, Ok awaiting_adoption').
Proof.
  intros Hperm Hnd Hind. destruct r as [blocks' n].
  by apply (run_blocks_perm _ _ independent_drafts
              (add_draft_blocks_swap to_json block_class
                 published_course_usage_key source)).
Qed.

(** The pending table after the first loop holds what it held and, for
    modules of the loop, their location with their new locator. *)
Lemma add_draft_loop_awaiting to_json block_class published_course_usage_key
    source modules awaiting_adoption blocks n r awaiting_adoption' :
  run_blocks (add_draft_blocks to_json block_class published_course_usage_key)
    source modules awaiting_adoption blocks n = (r, Ok awaiting_adoption') →
  ∀ location new_locator,
    awaiting_adoption' !! location = Some new_locator →
    awaiting_adoption !! location = Some new_locator
    ∨ ∃ module,
        module ∈ modules ∧ location = XBlock.location module
        ∧ new_locator = draft_locator published_course_usage_key module.
Proof.
  revert awaiting_adoption blocks n.
  induction modules as [|module modules IH]; intros awaiting_adoption blocks n.
  { simpl. intros [= <- <-]. by left. }
  rewrite run_blocks_cons.
  destruct (add_draft_blocks _ _ _ _ module awaiting_adoption blocks)
    as [[awaiting1 o1]|] eqn:Hstep; [|done].
  intros Hrun location new_locator Hlookup.
  destruct (IH _ _ _ Hrun location new_locator Hlookup)
    as [Hold|(module' & Hin & -> & ->)].
  2:{ right. exists module'. split; [by right|done]. }
  unfold add_draft_blocks in Hstep.
  destruct (blocks !! block_key module) as [stored|].
  - destruct (in_place_update _ _ _ _); [|done].
    injection Hstep as <- _. by left.
  - destruct (_get_json_fields_translate_references _ _ _ _); [|done].
    injection Hstep as <- _.
    destruct (decide (XBlock.location module = location)) as [<-|Hne].
    + rewrite lookup_insert_eq in Hold. injection Hold as <-.
      right. exists module. split; [by left|done].
    + rewrite lookup_insert_ne in Hold by done. by left.
Qed.
(** ** The draft pass does not depend on the order of iteration *)

Lemma well_formed_drafts_spec published_course_usage_key source modules :
  well_formed_drafts published_course_usage_key source modules = true →
  NoDup (block_key <$> modules)
  ∧ (∀ module, module ∈ modules →
       XBlock.category module = Location.category (XBlock.location module)
       ∧ parent_lists (draft_course published_course_usage_key) source
           (XBlock.location module) = true)
  ∧ (∀ module1 module2, module1 ∈ modules → module2 ∈ modules →
       one_parent published_course_usage_key source
         (XBlock.location module1) (XBlock.location module2) = true).
Proof.
  unfold well_formed_drafts.
  intros [[Hnd%bool_decide_eq_true_1 Hall]%andb_true_iff Hpairs]%andb_true_iff.
  split; [done|]. split.
  - intros module Hmodule%list_elem_of_In.
    rewrite forallb_forall in Hall.
    apply Hall in Hmodule as [Hcat%bool_decide_eq_true_1 Hlists]%andb_true_iff.
    done.
  - intros module1 module2 Hmodule1%list_elem_of_In Hmodule2%list_elem_of_In.
    rewrite forallb_forall in Hpairs. apply Hpairs in Hmodule1.
    rewrite forallb_forall in Hmodule1. by apply Hmodule1.
Qed.

Lemma run_blocks_ext {A St}
    (step step' : SourceStore.t → A → St → Structure → result (St * option Structure))
    source source' items st blocks n :
  (∀ x st blocks, step source x st blocks = step' source' x st blocks) →
  run_blocks step source items st blocks n
  = run_blocks step' source' items st blocks n.
Proof.
  intros Hext. revert st blocks n.
  induction items as [|x items IH]; intros st blocks n; simpl; [done|].
  rewrite Hext. destruct (step' source' x st blocks) as [[st' [blocks'|]]|]; auto.
Qed.

Lemma adopt_step_ext published_course_usage_key source source' item st blocks :
  (∀ location, SourceStore.get_item source' location
               = SourceStore.get_item source location) →
  (∀ location revision,
     SourceStore.get_parent_location source' location revision
     = SourceStore.get_parent_location source location revision) →
  adopt_step published_course_usage_key source' item st blocks
  = adopt_step published_course_usage_key source item st blocks.
Proof.
  intros Hitem Hparent. unfold adopt_step, adopt_blocks. rewrite Hparent.
  destruct (SourceStore.get_parent_location _ _ _) as [parent_loc|]; [|done].
  by rewrite Hitem.
Qed.

Lemma draft_locator_sibling_loc published_course_usage_key module :
  XBlock.category module = Location.category (XBlock.location module) →
  draft_locator published_course_usage_key module
  = sibling_loc (draft_course published_course_usage_key) (XBlock.location module).
Proof. unfold draft_locator, sibling_loc. by intros ->. Qed.

(** The draft pass on the snapshot: two orders of the draft modules and two
    orders of the pending table give the same snapshot after the same
    number of writes. *)
Lemma draft_pass_blocks_perm to_json block_class iteritems iteritems'
    published_course_usage_key source source' source_course_key blocks r :
  (∀ location, SourceStore.get_item source' location
               = SourceStore.get_item source location) →
  (∀ location revision,
     SourceStore.get_parent_location source' location revision
     = SourceStore.get_parent_location source location revision) →
  SourceStore.get_items source source_course_key draft_only
  ≡ₚ SourceStore.get_items source' source_course_key draft_only →
  (∀ awaiting_adoption, iteritems awaiting_adoption ≡ₚ map_to_list awaiting_adoption) →
  (∀ awaiting_adoption, iteritems' awaiting_adoption ≡ₚ map_to_list awaiting_adoption) →
  well_formed_drafts published_course_usage_key source
    (SourceStore.get_items source source_course_key draft_only) = true →
  draft_pass_blocks to_json block_class iteritems published_course_usage_key
    source source_course_key blocks = (r, Ok tt) →
  draft_pass_blocks to_json block_class iteritems' published_course_usage_key
    source' source_course_key blocks = (r, Ok tt).
Proof.
  intros Hitem Hparent Hperm Hiter Hiter'
    (Hnd & Hmodule & Hpairs)%well_formed_drafts_spec.
  unfold draft_pass_blocks.
  set (modules := SourceStore.get_items source source_course_key draft_only) in *.
  set (modules' := SourceStore.get_items source' source_course_key draft_only) in *.
  destruct (run_blocks _ source modules ∅ blocks 0) as [[blocks1 n1] r1] eqn:Hrun1.
  cbn [fst snd]. destruct r1 as [awaiting_adoption|e]; [|done].
  destruct (run_blocks _ source (iteritems awaiting_adoption) tt blocks1 0)
    as [[blocks2 n2] r2] eqn:Hrun2.
  cbn [fst snd]. intros [= <- ->].
  assert (Hkeys : ∀ x y, x ∈ modules → y ∈ modules → x ≠ y →
                         independent_drafts x y).
  { intros x y Hx Hy Hxy.
    assert (Hk : block_key x ≠ block_key y).
    { intros Heq. apply Hxy. by apply (NoDup_fmap_inj block_key modules). }
    split; [done|]. intros Hloc. apply Hk. unfold block_key.
    destruct (Hmodule x Hx) as [-> _]. destruct (Hmodule y Hy) as [-> _].
    by rewrite Hloc. }
  rewrite (run_blocks_ext _
             (add_draft_blocks to_json block_class published_course_usage_key)
             source' source) by done.
  rewrite (add_draft_loop_perm _ _ _ _ modules modules' ∅ blocks (blocks1, n1)
             awaiting_adoption Hperm (NoDup_fmap_1 _ _ Hnd) Hkeys Hrun1).
  cbn [fst snd].
  rewrite (run_blocks_ext _ (adopt_step published_course_usage_key) source' source)
    by (intros; by apply adopt_step_ext).
  rewrite (adopt_loop_perm published_course_usage_key source
             (iteritems awaiting_adoption) (iteritems' awaiting_adoption)
             blocks1 (blocks2, n2)); [done| | | |done].
  - by rewrite Hiter, Hiter'.
  - rewrite Hiter. apply NoDup_map_to_list.
  - intros [lx nx] [ly ny] Hx Hy Hxy.
    rewrite Hiter in Hx, Hy.
    apply elem_of_map_to_list in Hx, Hy.
    destruct (add_draft_loop_awaiting _ _ _ _ _ _ _ _ _ _ Hrun1 _ _ Hx)
      as [Hempty|(mx & Hmx & -> & ->)]; [by rewrite lookup_empty in Hempty|].
    destruct (add_draft_loop_awaiting _ _ _ _ _ _ _ _ _ _ Hrun1 _ _ Hy)
      as [Hempty|(my & Hmy & -> & ->)]; [by rewrite lookup_empty in Hempty|].
    destruct (Hmodule mx Hmx) as [Hcx Hlx]. destruct (Hmodule my Hmy) as [Hcy Hly].
    unfold independent_adoptions. cbn [fst snd].
    split; [by apply draft_locator_sibling_loc|].
    split; [by apply draft_locator_sibling_loc|].
    split; [|by auto].
    intros Heq. apply Hxy. rewrite Heq in Hx |- *. congruence.
Qed.
(** C6, amended. Two runs of the draft pass on the same destination store, from
    source stores that answer [get_item] and [get_parent_location] alike
    and yield the draft modules in two orders, with pending tables iterated
    in two orders: when the first run returns, the second returns and
    leaves the same destination store (hence the same children list for
    every destination parent).  The source store is taken consistent
    ([well_formed_drafts]): distinct draft modules have distinct
    (category, block identifier), a module's category is that of its
    location, the source parent of a draft module lists it, distinct
    children of that parent have distinct (category, block identifier),
    and draft modules whose parents translate to one destination parent
    have one source parent. *)
Theorem draft_pass_order_independent
    (to_json : Field → PyValue → PyValue)
    (block_class : string → gmap string FieldKind)
    (iteritems iteritems' : gmap Location.t BlockUsageLocator.t
                            → list (Location.t * BlockUsageLocator.t))
    (published_course_usage_key : BlockUsageLocator.t)
    (source_course_key : CourseKey.t) (user_id : nat)
    (w w' : World.t) (v : Version.t) :
  let source := World.source_modulestore w in
  let source' := World.source_modulestore w' in
  let o := _add_draft_modules_to_course to_json block_class iteritems
             published_course_usage_key source_course_key user_id w in
  let o' := _add_draft_modules_to_course to_json block_class iteritems'
              published_course_usage_key source_course_key user_id w' in
  World.split_modulestore w' = World.split_modulestore w →
  (∀ location, SourceStore.get_item source' location
               = SourceStore.get_item source location) →
  (∀ location revision,
     SourceStore.get_parent_location source' location revision
     = SourceStore.get_parent_location source location revision) →
  SourceStore.get_items source source_course_key draft_only
  ≡ₚ SourceStore.get_items source' source_course_key draft_only →
  (∀ awaiting_adoption, iteritems awaiting_adoption ≡ₚ map_to_list awaiting_adoption) →
  (∀ awaiting_adoption, iteritems' awaiting_adoption ≡ₚ map_to_list awaiting_adoption) →
  lookup_version (World.split_modulestore w)
    (draft_course published_course_usage_key) = Ok v →
  well_formed_drafts published_course_usage_key source
    (SourceStore.get_items source source_course_key draft_only) = true →
  Outcome.returned o = Ok tt →
  Outcome.returned o' = Ok tt
  ∧ World.split_modulestore (Outcome.world o')
    = World.split_modulestore (Outcome.world o).
Proof.
  intros source source' o o' Hsplit Hitem Hparent Hperm Hiter Hiter' Hv Hwf Hret.
  destruct (add_draft_modules_run to_json block_class iteritems
              published_course_usage_key user_id source_course_key w v Hv)
    as [Hworld Hreturned].
  rewrite <- Hsplit in Hv.
  destruct (add_draft_modules_run to_json block_class iteritems'
              published_course_usage_key user_id source_course_key w' v Hv)
    as [Hworld' Hreturned'].
  fold o in Hworld, Hreturned. fold o' in Hworld', Hreturned'.
  fold source in Hworld, Hreturned. fold source' in Hworld', Hreturned'.
  destruct (draft_pass_blocks to_json block_class iteritems
              published_course_usage_key source source_course_key
              (Version.blocks v)) as [r res] eqn:Hpass.
  cbn [fst snd] in Hworld, Hreturned.
  rewrite Hret in Hreturned. subst res.
  rewrite (draft_pass_blocks_perm to_json block_class iteritems iteritems'
             published_course_usage_key source source' source_course_key
             (Version.blocks v) r Hitem Hparent Hperm Hiter Hiter' Hwf Hpass)
    in Hworld', Hreturned'.
  cbn [fst snd] in Hworld', Hreturned'.
  split; [done|]. by rewrite Hworld, Hworld', Hsplit.
Qed.

Lemma draft_pass_order_independent_witness :
  Outcome.returned
    (_add_draft_modules_to_course Toy.to_json Toy.block_class ToyOrder.reversed
       ToyDraft.published_course_usage_key Toy.ck 7
       (ToyOrder.world [ToyOrder.v4; Toy.v2])) = Ok tt
  ∧ World.split_modulestore
      (Outcome.world
         (_add_draft_modules_to_course Toy.to_json Toy.block_class
            ToyOrder.reversed ToyDraft.published_course_usage_key Toy.ck 7
            (ToyOrder.world [ToyOrder.v4; Toy.v2])))
    = World.split_modulestore
        (Outcome.world
           (_add_draft_modules_to_course Toy.to_json Toy.block_class map_to_list
              ToyDraft.published_course_usage_key Toy.ck 7
              (ToyOrder.world [Toy.v2; ToyOrder.v4]))).
Proof.
  assert (Hv : lookup_version ToyOrder.store
                 (draft_course ToyDraft.published_course_usage_key)
               = Ok (Version.mk 4 ToyDraft.published_blocks))
    by (vm_compute; reflexivity).
  assert (Hwf : well_formed_drafts ToyDraft.published_course_usage_key
                  (ToyOrder.source [Toy.v2; ToyOrder.v4]) [Toy.v2; ToyOrder.v4]
                = true)
    by (vm_compute; reflexivity).
  assert (Hret : Outcome.returned
                   (_add_draft_modules_to_course Toy.to_json Toy.block_class
                      map_to_list ToyDraft.published_course_usage_key Toy.ck 7
                      (ToyOrder.world [Toy.v2; ToyOrder.v4])) = Ok tt)
    by (vm_compute; reflexivity).
  exact (draft_pass_order_independent Toy.to_json Toy.block_class map_to_list
           ToyOrder.reversed ToyDraft.published_course_usage_key Toy.ck 7
           (ToyOrder.world [Toy.v2; ToyOrder.v4])
           (ToyOrder.world [ToyOrder.v4; Toy.v2])
           (Version.mk 4 ToyDraft.published_blocks)
           eq_refl (λ _, eq_refl) (λ _ _, eq_refl)
           (perm_swap ToyOrder.v4 Toy.v2 [])
           (λ awaiting_adoption, reflexivity (map_to_list awaiting_adoption))
           (λ awaiting_adoption, reverse_Permutation (map_to_list awaiting_adoption))
           Hv Hwf Hret).
Defined.
(** ** Where the order of iteration shows *)

(** C6, as stated, fails.  The legacy store answers that the chapter is the
    parent of the private verticals [v2] and [v4], and the chapter lists
    neither: the walk of lines 157-166 never meets the pending location, no
    [break] is taken, and each vertical is put after the last sibling found.
    Both iteration orders of the pending table return, and the children of
    the destination chapter differ. *)
Lemma draft_pass_order_dependent :
  Outcome.returned
    (_add_draft_modules_to_course Toy.to_json Toy.block_class map_to_list
       ToyDraft.published_course_usage_key Toy.ck 7
       (World.mk ToyIll.unlisted ToyOrder.store)) = Ok tt
  ∧ Outcome.returned
      (_add_draft_modules_to_course Toy.to_json Toy.block_class ToyOrder.reversed
         ToyDraft.published_course_usage_key Toy.ck 7
         (World.mk ToyIll.unlisted ToyOrder.store)) = Ok tt
  ∧ ToyIll.draft_field
      (World.split_modulestore
         (Outcome.world
            (_add_draft_modules_to_course Toy.to_json Toy.block_class map_to_list
               ToyDraft.published_course_usage_key Toy.ck 7
               (World.mk ToyIll.unlisted ToyOrder.store))))
      "chapter" "ch1" "children"
    = Some (VRefList [ToyDraft.ref "vertical" "v1"; ToyDraft.ref "vertical" "v3";
                      ToyDraft.ref "vertical" "v4"; ToyDraft.ref "vertical" "v2"])
  ∧ ToyIll.draft_field
      (World.split_modulestore
         (Outcome.world
            (_add_draft_modules_to_course Toy.to_json Toy.block_class
               ToyOrder.reversed ToyDraft.published_course_usage_key Toy.ck 7
               (World.mk ToyIll.unlisted ToyOrder.store))))
      "chapter" "ch1" "children"
    = Some (VRefList [ToyDraft.ref "vertical" "v1"; ToyDraft.ref "vertical" "v3";
                      ToyDraft.ref "vertical" "v2"; ToyDraft.ref "vertical" "v4"])
  ∧ World.split_modulestore
      (Outcome.world
         (_add_draft_modules_to_course Toy.to_json Toy.block_class map_to_list
            ToyDraft.published_course_usage_key Toy.ck 7
            (World.mk ToyIll.unlisted ToyOrder.store)))
    ≠ World.split_modulestore
        (Outcome.world
           (_add_draft_modules_to_course Toy.to_json Toy.block_class
              ToyOrder.reversed ToyDraft.published_course_usage_key Toy.ck 7
              (World.mk ToyIll.unlisted ToyOrder.store))).
Proof.
  fold (ToyIll.draft_pass map_to_list ToyIll.unlisted).
  fold (ToyIll.draft_pass ToyOrder.reversed ToyIll.unlisted).
  assert (H1 : ToyIll.draft_field
                 (World.split_modulestore
                    (Outcome.world (ToyIll.draft_pass map_to_list ToyIll.unlisted)))
                 "chapter" "ch1" "children"
               = Some (VRefList
                         [ToyDraft.ref "vertical" "v1"; ToyDraft.ref "vertical" "v3";
                          ToyDraft.ref "vertical" "v4"; ToyDraft.ref "vertical" "v2"]))
    by (vm_compute; reflexivity).
  assert (H2 : ToyIll.draft_field
                 (World.split_modulestore
                    (Outcome.world
                       (ToyIll.draft_pass ToyOrder.reversed ToyIll.unlisted)))
                 "chapter" "ch1" "children"
               = Some (VRefList
                         [ToyDraft.ref "vertical" "v1"; ToyDraft.ref "vertical" "v3";
                          ToyDraft.ref "vertical" "v2"; ToyDraft.ref "vertical" "v4"]))
    by (vm_compute; reflexivity).
  split; [vm_compute; reflexivity|]. split; [vm_compute; reflexivity|].
  split; [exact H1|]. split; [exact H2|].
  intros Heq.
  pose proof (f_equal (λ s, ToyIll.draft_field s "chapter" "ch1" "children") Heq)
    as Hfield.
  cbv beta in Hfield. rewrite H1, H2 in Hfield. discriminate Hfield.
Qed.

(** The other conditions of [well_formed_drafts] are needed as well: in each
    of the following stores one of them fails, both orders return, and the
    destination differs. *)

(** Two draft modules with one (category, block identifier): the one that
    [get_items] yields last decides the fields of the destination block. *)
Lemma draft_pass_needs_distinct_keys :
  well_formed_drafts ToyDraft.published_course_usage_key
    (ToyIll.twice [Toy.v1_draft; ToyIll.v1_eins]) [Toy.v1_draft; ToyIll.v1_eins]
  = false
  ∧ Outcome.returned
      (ToyIll.draft_pass map_to_list (ToyIll.twice [Toy.v1_draft; ToyIll.v1_eins]))
    = Ok tt
  ∧ Outcome.returned
      (ToyIll.draft_pass map_to_list (ToyIll.twice [ToyIll.v1_eins; Toy.v1_draft]))
    = Ok tt
  ∧ ToyIll.stored_field
      (ToyIll.draft_pass map_to_list (ToyIll.twice [Toy.v1_draft; ToyIll.v1_eins]))
      "vertical" "v1" "display_name"
    = Some (VPlain (PyRaw "Eins"))
  ∧ ToyIll.stored_field
      (ToyIll.draft_pass map_to_list (ToyIll.twice [ToyIll.v1_eins; Toy.v1_draft]))
      "vertical" "v1" "display_name"
    = Some (VPlain (PyRaw "Uno")).
Proof. repeat split; vm_compute; reflexivity. Qed.

(** A private module whose category is not that of its location is stored
    under an identifier its siblings do not look for. *)
Lemma draft_pass_needs_location_category :
  well_formed_drafts ToyDraft.published_course_usage_key ToyIll.miscategorised
    [ToyIll.v2_html; ToyOrder.v4] = false
  ∧ Outcome.returned (ToyIll.draft_pass map_to_list ToyIll.miscategorised) = Ok tt
  ∧ Outcome.returned (ToyIll.draft_pass ToyOrder.reversed ToyIll.miscategorised)
    = Ok tt
  ∧ ToyIll.stored_field (ToyIll.draft_pass map_to_list ToyIll.miscategorised)
      "chapter" "ch1" "children"
    = Some (VRefList [ToyDraft.ref "vertical" "v1"; ToyDraft.ref "vertical" "v4";
                      ToyDraft.ref "html" "v2"; ToyDraft.ref "vertical" "v3"])
  ∧ ToyIll.stored_field (ToyIll.draft_pass ToyOrder.reversed ToyIll.miscategorised)
      "chapter" "ch1" "children"
    = Some (VRefList [ToyDraft.ref "vertical" "v1"; ToyDraft.ref "html" "v2";
                      ToyDraft.ref "vertical" "v4"; ToyDraft.ref "vertical" "v3"]).
Proof. repeat split; vm_compute; reflexivity. Qed.

(** Two source parents of category [course] go to the one root of the
    destination (lines 148-151), and each walk sees its own list only. *)
Lemma draft_pass_needs_one_parent :
  well_formed_drafts ToyDraft.published_course_usage_key ToyIll.two_roots
    [Toy.v2; ToyOrder.v4] = false
  ∧ Outcome.returned (ToyIll.draft_pass map_to_list ToyIll.two_roots) = Ok tt
  ∧ Outcome.returned (ToyIll.draft_pass ToyOrder.reversed ToyIll.two_roots) = Ok tt
  ∧ ToyIll.stored_field (ToyIll.draft_pass map_to_list ToyIll.two_roots)
      "course" "course" "children"
    = Some (VRefList [ToyDraft.ref "chapter" "ch1"; ToyDraft.ref "vertical" "v4";
                      ToyDraft.ref "vertical" "v2"])
  ∧ ToyIll.stored_field (ToyIll.draft_pass ToyOrder.reversed ToyIll.two_roots)
      "course" "course" "children"
    = Some (VRefList [ToyDraft.ref "chapter" "ch1"; ToyDraft.ref "vertical" "v2";
                      ToyDraft.ref "vertical" "v4"]).
Proof. repeat split; vm_compute; reflexivity. Qed.

(** Two children of the source parent with one (category, block
    identifier): the walk takes the adopted module for the other child. *)
Lemma draft_pass_needs_distinct_siblings :
  well_formed_drafts ToyDraft.published_course_usage_key ToyIll.two_courses
    [Toy.v2; ToyOrder.v4] = false
  ∧ Outcome.returned (ToyIll.draft_pass map_to_list ToyIll.two_courses) = Ok tt
  ∧ Outcome.returned (ToyIll.draft_pass ToyOrder.reversed ToyIll.two_courses) = Ok tt
  ∧ ToyIll.stored_field (ToyIll.draft_pass map_to_list ToyIll.two_courses)
      "chapter" "ch1" "children"
    = Some (VRefList [ToyDraft.ref "vertical" "v2"; ToyDraft.ref "vertical" "v4";
                      ToyDraft.ref "vertical" "v1"; ToyDraft.ref "vertical" "v3"])
  ∧ ToyIll.stored_field (ToyIll.draft_pass ToyOrder.reversed ToyIll.two_courses)
      "chapter" "ch1" "children"
    = Some (VRefList [ToyDraft.ref "vertical" "v4"; ToyDraft.ref "vertical" "v2";
                      ToyDraft.ref "vertical" "v1"; ToyDraft.ref "vertical" "v3"]).
Proof. repeat split; vm_compute; reflexivity. Qed.

(** A source parent may list a child twice: [well_formed_drafts] holds. *)
Lemma well_formed_drafts_with_repeated_child :
  well_formed_drafts ToyDraft.published_course_usage_key
    (ToyIll.source
       [Toy.course;
        ToyIll.chapter
          [Toy.loc "vertical" "v1"; Toy.loc "vertical" "v2";
           Toy.loc "vertical" "v1"; Toy.loc "vertical" "v4";
           Toy.loc "vertical" "v2"];
        Toy.v1; Toy.v2; ToyOrder.v4]
       [Toy.v2; ToyOrder.v4] ToyIll.under_chapter)
    [Toy.v2; ToyOrder.v4] = true.
Proof. vm_compute; reflexivity. Qed.

(** * Further properties of the migrator *)

(** ** The translation of a location and the field copiers *)

(** X1. Two legacy locations get the same usage key exactly when they have
    the same category and, unless that category is "course", the same block
    identifier: [get_translation] forgets the course key of the location,
    and sends every location of category "course" to the one root
    identifier. *)
Theorem get_translation_collisions (new_course_key : CourseLocator.t)
    (course_block_id : option string) (location1 location2 : Location.t) :
  (json_get_translation new_course_key course_block_id location1
   = json_get_translation new_course_key course_block_id location2
   ↔ Location.category location1 = Location.category location2
     ∧ (Location.category location1 = "course"
        ∨ Location.block_id location1 = Location.block_id location2))
  ∧ (fields_get_translation new_course_key course_block_id location1
     = fields_get_translation new_course_key course_block_id location2
     ↔ Location.category location1 = Location.category location2
       ∧ (Location.category location1 = "course"
          ∨ Location.block_id location1 = Location.block_id location2)).
Proof.
  assert (Hone : ∀ l1 l2,
    make_usage_key new_course_key (Location.category l1)
      (if bool_decide (Location.category l1 ≠ "course")
       then Some (Location.block_id l1) else course_block_id)
    = make_usage_key new_course_key (Location.category l2)
        (if bool_decide (Location.category l2 ≠ "course")
         then Some (Location.block_id l2) else course_block_id)
    ↔ Location.category l1 = Location.category l2
      ∧ (Location.category l1 = "course"
         ∨ Location.block_id l1 = Location.block_id l2)).
  { intros l1 l2. unfold make_usage_key. split.
    - intros [= Hcat Hid]. split; [done|]. rewrite <- Hcat in Hid.
      case_bool_decide as Hcourse.
      + right. by injection Hid.
      + left. by destruct (decide (Location.category l1 = "course")).
    - intros [Hcat Hid]. rewrite <- Hcat.
      case_bool_decide as Hcourse; [|done].
      destruct Hid as [Hid|Hid]; [done|]. by rewrite Hid. }
  split; apply Hone.
Qed.




(** X3. The copiers keep the order and the number of the references of a
    list field, and the keys of a dict field: the i-th entry of the copied
    list is the translation of the i-th entry of the field, and the copied
    dict holds under each key the translation of what the field holds
    there. *)
Theorem copier_keeps_order_and_keys (to_json : Field → PyValue → PyValue)
    (xblock : XBlock.t) (new_course_key : CourseLocator.t)
    (course_block_id : option string)
    (r : gmap string (Value BlockUsageLocator.t)) (name : string) :
  _get_json_fields_translate_references to_json xblock new_course_key
    course_block_id = Ok r →
  (∀ ls,
     XBlock.fields xblock !! name = Some ReferenceList →
     XBlock.field_data xblock !! name = Some (PyList ls) →
     ∃ rs, r !! name = Some (VRefList rs)
           ∧ length rs = length ls
           ∧ ∀ i, rs !! i
                  = json_get_translation new_course_key course_block_id
                    <$> ls !! i)
  ∧ (∀ d,
       XBlock.fields xblock !! name = Some ReferenceValueDict →
       XBlock.field_data xblock !! name = Some (PyDict d) →
       ∃ rd, r !! name = Some (VRefDict rd)
             ∧ ∀ key, rd !! key
                      = json_get_translation new_course_key course_block_id
                        <$> d !! key).
Proof.
  intros Hrun.
  destruct (json_copier_spec to_json xblock new_course_key course_block_id)
    as (Hlookup & _ & _).
  specialize (Hlookup r Hrun name). split.
  - intros ls Hkind Hvalue. eexists. split.
    + apply Hlookup. exists ReferenceList, (PyList ls). by repeat split.
    + split; [by rewrite length_fmap|]. intros i. by rewrite list_lookup_fmap.
  - intros d Hkind Hvalue. eexists. split.
    + apply Hlookup. exists ReferenceValueDict, (PyDict d). by repeat split.
    + intros key. by rewrite lookup_fmap.
Qed.

Lemma copier_keeps_order_and_keys_witness :
  ∃ r rs,
    _get_json_fields_translate_references Toy.to_json Toy.ch1 Toy.new_course_id
      (Some "course") = Ok r
    ∧ r !! "children" = Some (VRefList rs)
    ∧ rs !! 1 = Some (make_usage_key Toy.new_course_id "vertical" (Some "v2")).
Proof.
  assert (Hok : is_ok (_get_json_fields_translate_references Toy.to_json Toy.ch1
                         Toy.new_course_id (Some "course")) = true)
    by (vm_compute; reflexivity).
  destruct (_get_json_fields_translate_references Toy.to_json Toy.ch1
              Toy.new_course_id (Some "course")) as [r|e] eqn:Hrun;
    [|discriminate Hok].
  destruct (proj1 (copier_keeps_order_and_keys Toy.to_json Toy.ch1
                     Toy.new_course_id (Some "course") r "children" Hrun)
              [Toy.loc "vertical" "v1"; Toy.loc "vertical" "v2";
               Toy.loc "vertical" "v3"]
              ltac:(vm_compute; reflexivity) ltac:(vm_compute; reflexivity))
    as (rs & Hrs & _ & Hnth).
  exists r, rs. split; [done|]. split; [done|]. by rewrite Hnth.
Defined.

(** ** The insertion cursor (lines 156-167) *)

Section CursorProperties.
Local Open Scope nat_scope.

(** X4. The cursor of lines 157-166 never passes the end of the destination
    parent's children: [children.insert] is always given a position of the
    list. *)
Theorem insertion_cursor_in_range (old_children : list Location.t)
    (draft_location : Location.t) (ck : CourseLocator.t)
    (children : list BlockUsageLocator.t) :
  insertion_cursor old_children draft_location ck children ≤ length children.
Proof.
  rewrite insertion_cursor_sibling_cursor. unfold sibling_cursor.
  apply foldl_advance_past_bounds. lia.
Qed.

(** X5. When none of the children that precede the adopted one in the
    source parent is among the destination parent's children (the adopted
    child is the first of its parent, or the destination parent has no
    children yet), the cursor stays at zero and the child is inserted in
    front. *)
Theorem insertion_cursor_without_siblings (old_children : list Location.t)
    (draft_location : Location.t) (ck : CourseLocator.t)
    (children : list BlockUsageLocator.t) :
  (∀ sibling, sibling ∈ preceding_siblings old_children draft_location →
     sibling_loc ck sibling ∉ version_agnostic <$> children) →
  insertion_cursor old_children draft_location ck children = 0.
Proof.
  rewrite insertion_cursor_sibling_cursor. unfold sibling_cursor.
  generalize (preceding_siblings old_children draft_location). intros sibs.
  induction sibs as [|s sibs IH]; intros Habsent; simpl; [done|].
  rewrite advance_past_absent by (apply Habsent; by left).
  apply IH. intros s' Hs'. apply Habsent. by right.
Qed.

Lemma insertion_cursor_without_siblings_witness :
  insertion_cursor
    [Toy.loc "vertical" "v1"; Toy.loc "vertical" "v2"; Toy.loc "vertical" "v3"]
    (Toy.loc "vertical" "v2") ToyDraft.draft_course_loc
    [ToyDraft.locator "vertical" "v3"] = 0.
Proof.
  apply insertion_cursor_without_siblings.
  intros sibling Hsibling.
  assert (sibling = Toy.loc "vertical" "v1") as ->.
  { vm_compute in Hsibling. by apply list_elem_of_singleton in Hsibling. }
  apply (bool_decide_unpack _). by vm_compute.
Defined.

Lemma preceding_siblings_app old_children child :
  child ∈ old_children →
  ∃ post, old_children = preceding_siblings old_children child ++ child :: post.
Proof.
  induction old_children as [|c old IH]; [by intros ?%elem_of_nil|].
  intros Hin. simpl. case_bool_decide as Hc.
  - subst c. by exists old.
  - apply elem_of_cons in Hin as [->|Hin]; [done|].
    destruct (IH Hin) as [post Hpost]. exists post. simpl. by rewrite <- Hpost.
Qed.

Lemma advance_past_absent_from ck cs (c : nat) s :
  sibling_loc ck s ∉ version_agnostic <$> drop c cs →
  advance_past ck cs c s = c.
Proof.
  intros Hs. unfold advance_past, position_from.
  destruct (list_find _ _) as [[j y]|] eqn:Hfind; [|done].
  apply list_find_Some in Hfind as (Hj & Hy & _). destruct Hs.
  apply list_elem_of_fmap. exists y. split; [done|].
  by eapply list_elem_of_lookup_2.
Qed.

Lemma advance_past_at_cursor ck cs (c : nat) s rest :
  version_agnostic (sibling_loc ck s) = sibling_loc ck s →
  drop c cs = sibling_loc ck s :: rest →
  advance_past ck cs c s = S c.
Proof.
  intros Hva Hdrop. unfold advance_past, position_from.
  fold (sibling_loc ck s). rewrite Hdrop. simpl.
  rewrite decide_True by done. simpl. lia.
Qed.

(** Walking siblings whose copies, those that are there, come next in the
    destination list and in the order of the walk: the cursor ends after
    them. *)
Lemma foldl_advance_past_sublist ck cs sibs (c : nat) cs1 cs2 :
  (∀ x, x ∈ cs → version_agnostic x = x) →
  NoDup (sibling_loc ck <$> sibs) →
  cs1 `sublist_of` sibling_loc ck <$> sibs →
  (∀ x, x ∈ cs2 → x ∉ sibling_loc ck <$> sibs) →
  drop c cs = cs1 ++ cs2 →
  foldl (advance_past ck cs) c sibs = c + length cs1.
Proof.
  intros Hva. revert c cs1.
  induction sibs as [|s sibs IH]; intros c cs1 Hnd Hsub Hcs2 Hdrop.
  { apply sublist_nil_r in Hsub as ->. simpl. lia. }
  rewrite fmap_cons in Hnd, Hsub. apply NoDup_cons in Hnd as [Hs Hnd]. simpl.
  assert (Hcs2' : ∀ x, x ∈ cs2 → x ∉ sibling_loc ck <$> sibs).
  { intros x Hx Hin. apply (Hcs2 x Hx). rewrite fmap_cons. by right. }
  apply sublist_cons_r in Hsub as [Hsub|(cs1' & -> & Hsub)].
  - rewrite advance_past_absent_from; [by apply IH|].
    intros (y & Hy & Hin)%list_elem_of_fmap.
    rewrite Hva in Hy by (by eapply subseteq_drop). subst y.
    rewrite Hdrop in Hin. apply elem_of_app in Hin as [Hin|Hin].
    + apply Hs. exact (elem_of_sublist _ _ _ Hin Hsub).
    + apply (Hcs2 _ Hin). rewrite fmap_cons. by left.
  - rewrite (advance_past_at_cursor ck cs c s (cs1' ++ cs2)); [| |done].
    + rewrite (IH (S c) cs1'); [simpl; lia|done|done|done|].
      replace (S c) with (c + 1) by lia.
      by rewrite <- drop_drop, Hdrop.
    + apply Hva. eapply (subseteq_drop c). rewrite Hdrop. by left.
Qed.

(** X6. Adoption keeps the order of the source parent: when the children of
    the destination parent are some of the source parent's children, in the
    source order, they still are after the adopted child is inserted at the
    cursor.  The source parent lists no child twice and lists the adopted
    child, whose new locator is not yet among the destination children. *)
Theorem adoption_keeps_source_order (old_children : list Location.t)
    (draft_location : Location.t) (ck : CourseLocator.t)
    (children : list BlockUsageLocator.t) (new_locator : BlockUsageLocator.t) :
  NoDup (sibling_loc ck <$> old_children) →
  draft_location ∈ old_children →
  version_agnostic new_locator = sibling_loc ck draft_location →
  version_agnostic new_locator ∉ version_agnostic <$> children →
  version_agnostic <$> children `sublist_of` sibling_loc ck <$> old_children →
  version_agnostic
    <$> list_insert (insertion_cursor old_children draft_location ck children)
          new_locator children
  `sublist_of` sibling_loc ck <$> old_children.
Proof.
  intros Hnd Hin Hnew Hfresh Hsub.
  rewrite <- insertion_cursor_version_agnostic, list_insert_fmap.
  rewrite insertion_cursor_sibling_cursor. unfold sibling_cursor.
  set (cs := version_agnostic <$> children) in *.
  assert (Hva : ∀ x, x ∈ cs → version_agnostic x = x).
  { intros x (y & -> & _)%list_elem_of_fmap. apply version_agnostic_idemp. }
  destruct (preceding_siblings_app old_children draft_location Hin) as [post Hold].
  set (pre := preceding_siblings old_children draft_location) in *.
  rewrite Hold, fmap_app, fmap_cons in Hnd, Hsub |- *.
  rewrite Hnew in Hfresh |- *.
  apply sublist_app_r in Hsub as (cs1 & cs2 & Hcs & Hsub1 & Hsub2).
  apply sublist_cons_r in Hsub2 as [Hsub2|(cs2' & -> & _)].
  2:{ destruct Hfresh. rewrite Hcs. apply elem_of_app. right. by left. }
  apply NoDup_app in Hnd as (Hnd1 & Hdisjoint & Hnd2).
  rewrite (foldl_advance_past_sublist ck cs pre 0 cs1 cs2); try done.
  - simpl. unfold list_insert. rewrite Hcs.
    rewrite take_app_length, drop_app_length.
    apply sublist_app; [done|]. by apply sublist_skip.
  - intros x Hx Hpre. apply (Hdisjoint x Hpre). right.
    exact (elem_of_sublist _ _ _ Hx Hsub2).
Qed.

Lemma adoption_keeps_source_order_witness :
  version_agnostic
    <$> list_insert
          (insertion_cursor
             [Toy.loc "vertical" "v1"; Toy.loc "vertical" "v2";
              Toy.loc "vertical" "v3"]
             (Toy.loc "vertical" "v2") ToyDraft.draft_course_loc
             ToyDraft.ch1_children)
          (ToyDraft.locator "vertical" "v2") ToyDraft.ch1_children
  `sublist_of`
    sibling_loc ToyDraft.draft_course_loc
    <$> [Toy.loc "vertical" "v1"; Toy.loc "vertical" "v2";
         Toy.loc "vertical" "v3"].
Proof.
  apply adoption_keeps_source_order.
  - apply (bool_decide_unpack _). by vm_compute.
  - apply (bool_decide_unpack _). by vm_compute.
  - by vm_compute.
  - apply (bool_decide_unpack _). by vm_compute.
  - vm_compute. apply sublist_skip, sublist_cons, sublist_skip, sublist_nil.
Defined.
End CursorProperties.

(** ** One adoption (lines 141-168) *)

(** After an adoption that wrote, the same entry finds its locator among the
    children of the destination parent. *)
Lemma adopt_blocks_again source published_course_usage_key item blocks blocks' :
  BlockUsageLocator.course_key item.2 = draft_course published_course_usage_key →
  adopt_blocks source published_course_usage_key item blocks = Ok (Some blocks') →
  adopt_blocks source published_course_usage_key item blocks' = Ok None.
Proof.
  intros Hck. rewrite !adopt_blocks_stored.
  destruct (adoption_target _ _ _) as [[[key old_parent]|]|]; [|done..].
  destruct (blocks !! key) as [stored|] eqn:Hkey; [|done].
  destruct (children_refs stored) as [refs|e] eqn:Hrefs;
    [|unfold adopt_stored; by rewrite Hrefs].
  rewrite (adopt_stored_refs _ _ _ _ _ Hrefs).
  case_bool_decide as Hin; [done|].
  destruct (xblock_children old_parent) as [old_children|]; [|done].
  intros [= <-]. rewrite lookup_insert_eq.
  destruct (with_child_refs _ old_children item refs stored Hck)
    as (refs' & Hrefs' & Hchildren').
  rewrite (adopt_stored_refs _ _ _ _ _ Hrefs'), Hchildren'.
  rewrite bool_decide_eq_true_2; [done|].
  unfold list_insert. apply elem_of_app. right. by left.
Qed.

(** X7. Adoption is idempotent: after [adopt] has returned for an entry of
    the pending table, running it again for the same entry leaves both
    stores as they are and returns. The destination parent then lists the
    new locator already (line 154), so no child is ever inserted twice. *)
Theorem adopt_is_idempotent
    (to_json : Field → PyValue → PyValue)
    (block_class : string → gmap string FieldKind)
    (published_course_usage_key : BlockUsageLocator.t) (user_id : nat)
    (item : Location.t * BlockUsageLocator.t) (w : World.t) (v : Version.t) :
  let once :=
    adopt to_json block_class published_course_usage_key user_id item tt w in
  let twice :=
    adopt to_json block_class published_course_usage_key user_id item tt
      (Outcome.world once) in
  lookup_version (World.split_modulestore w)
    (draft_course published_course_usage_key) = Ok v →
  BlockUsageLocator.course_key item.2 = draft_course published_course_usage_key →
  Outcome.returned once = Ok tt →
  Outcome.world twice = Outcome.world once ∧ Outcome.returned twice = Ok tt.
Proof.
  intros once twice Hv Hck Hret.
  destruct (adopt_run to_json block_class published_course_usage_key user_id
              item w v Hv) as [Hworld1 Hret1].
  fold once in Hworld1, Hret1. rewrite Hret in Hret1.
  destruct (adopt_blocks _ _ item (Version.blocks v)) as [[blocks'|]|e] eqn:Hadopt;
    [| |done].
  - assert (Hv' : lookup_version (World.split_modulestore (Outcome.world once))
                    (draft_course published_course_usage_key)
                  = Ok (Version.mk
                          (SplitStore.next_guid (World.split_modulestore w))
                          blocks')).
    { rewrite Hworld1. simpl. by apply lookup_version_write. }
    destruct (adopt_run to_json block_class published_course_usage_key user_id
                item (Outcome.world once) _ Hv') as [Hworld2 Hret2].
    fold twice in Hworld2, Hret2. cbn [Version.blocks] in Hworld2, Hret2.
    assert (Hsource : World.source_modulestore (Outcome.world once)
                      = World.source_modulestore w) by by rewrite Hworld1.
    rewrite Hsource in Hworld2, Hret2.
    rewrite (adopt_blocks_again _ _ _ _ _ Hck Hadopt) in Hworld2, Hret2.
    done.
  - assert (Hv' : lookup_version (World.split_modulestore (Outcome.world once))
                    (draft_course published_course_usage_key) = Ok v)
      by by rewrite Hworld1.
    destruct (adopt_run to_json block_class published_course_usage_key user_id
                item (Outcome.world once) _ Hv') as [Hworld2 Hret2].
    fold twice in Hworld2, Hret2.
    rewrite Hworld1 in Hworld2 at 1. rewrite Hworld1 in Hret2 at 1.
    rewrite Hadopt in Hworld2, Hret2. by rewrite Hworld1 in *.
Qed.

Lemma adopt_is_idempotent_witness :
  SplitStore.next_guid (World.split_modulestore (Outcome.world ToyDraft.adopted))
  = S (SplitStore.next_guid ToyDraft.store)
  ∧ Outcome.world
      (adopt Toy.to_json Toy.block_class ToyDraft.published_course_usage_key 7
         (Toy.loc "vertical" "v2", ToyDraft.locator "vertical" "v2") tt
         (Outcome.world ToyDraft.adopted))
    = Outcome.world ToyDraft.adopted.
Proof.
  assert (Hv : lookup_version (World.split_modulestore ToyDraft.world)
                 (draft_course ToyDraft.published_course_usage_key)
               = Ok (Version.mk 5 ToyDraft.draft_blocks))
    by (vm_compute; reflexivity).
  assert (Hret : Outcome.returned ToyDraft.adopted = Ok tt)
    by (vm_compute; reflexivity).
  split.
  - vm_compute; reflexivity.
  - exact (proj1 (adopt_is_idempotent Toy.to_json Toy.block_class
                    ToyDraft.published_course_usage_key 7
                    (Toy.loc "vertical" "v2", ToyDraft.locator "vertical" "v2")
                    ToyDraft.world (Version.mk 5 ToyDraft.draft_blocks)
                    Hv eq_refl Hret)).
Defined.

(** ** The draft pass (lines 105-168) *)

(** The pending table after the first loop, on the snapshot: the entries of
    the modules that had no block, and what the table held for other
    locations. *)
Lemma add_draft_loop_pending to_json block_class published_course_usage_key
    source modules awaiting_adoption blocks n r awaiting_adoption' :
  NoDup (block_key <$> modules) →
  NoDup (XBlock.location <$> modules) →
  run_blocks (add_draft_blocks to_json block_class published_course_usage_key)
    source modules awaiting_adoption blocks n = (r, Ok awaiting_adoption') →
  ∀ location new_locator,
    awaiting_adoption' !! location = Some new_locator ↔
      (∃ module,
         module ∈ modules ∧ XBlock.location module = location
         ∧ new_locator = draft_locator published_course_usage_key module
         ∧ blocks !! block_key module = None)
      ∨ (awaiting_adoption !! location = Some new_locator
         ∧ ∀ module, module ∈ modules → XBlock.location module = location →
                     blocks !! block_key module ≠ None).
Proof.
  revert awaiting_adoption blocks n.
  induction modules as [|m modules IH]; intros awaiting_adoption blocks n Hkeys Hlocs.
  { simpl. intros [= <- <-] location new_locator. split.
    - intros Hlookup. right. split; [done|]. by intros ? ?%elem_of_nil.
    - intros [(? & ?%elem_of_nil & _)|[? _]]; done. }
  rewrite fmap_cons in Hkeys. rewrite fmap_cons in Hlocs.
  apply NoDup_cons in Hkeys as [Hkey Hkeys]. apply NoDup_cons in Hlocs as [Hloc Hlocs].
  rewrite run_blocks_cons.
  destruct (add_draft_blocks _ _ _ _ m awaiting_adoption blocks)
    as [[awaiting1 o1]|] eqn:Hstep; [|done].
  intros Hrun location new_locator.
  rewrite (IH _ _ _ Hkeys Hlocs Hrun location new_locator). clear IH Hrun.
  assert (Hother : ∀ module, module ∈ modules →
                     default blocks o1 !! block_key module
                     = blocks !! block_key module).
  { intros module Hmodule. unfold add_draft_blocks in Hstep.
    assert (block_key m ≠ block_key module).
    { intros Heq. apply Hkey. rewrite Heq. apply list_elem_of_fmap. eauto. }
    destruct (blocks !! block_key m).
    - destruct (in_place_update _ _ _ _); [|done]. injection Hstep as _ <-.
      simpl. by rewrite lookup_insert_ne.
    - destruct (_get_json_fields_translate_references _ _ _ _); [|done].
      injection Hstep as _ <-. simpl. by rewrite lookup_insert_ne. }
  assert (Hfresh : ∀ module, module ∈ modules →
                     XBlock.location module ≠ XBlock.location m).
  { intros module Hmodule Heq. apply Hloc. rewrite <- Heq.
    apply list_elem_of_fmap. eauto. }
  unfold add_draft_blocks in Hstep.
  destruct (blocks !! block_key m) as [stored|] eqn:Hm.
  - destruct (in_place_update _ _ _ _); [|done]. injection Hstep as <- _.
    split.
    + intros [(module & Hin & Hl & Hn & Hb)|[Hold Hno]].
      * left. exists module. rewrite <- Hother by done.
        split; [by right|done].
      * right. split; [done|].
        intros module [->|Hin]%elem_of_cons Hl; [by rewrite Hm|].
        rewrite <- Hother by done. by apply Hno.
    + intros [(module & [->|Hin]%elem_of_cons & Hl & Hn & Hb)|[Hold Hno]].
      * by rewrite Hm in Hb.
      * left. exists module. by rewrite Hother.
      * right. split; [done|]. intros module Hin Hl.
        rewrite Hother by done. apply Hno; [by right|done].
  - destruct (_get_json_fields_translate_references _ _ _ _); [|done].
    injection Hstep as <- _. split.
    + intros [(module & Hin & Hl & Hn & Hb)|[Hold Hno]].
      * left. exists module. rewrite <- Hother by done.
        split; [by right|done].
      * destruct (decide (XBlock.location m = location)) as [<-|Hne].
        -- rewrite lookup_insert_eq in Hold. injection Hold as <-.
           left. exists m. split; [by left|done].
        -- rewrite lookup_insert_ne in Hold by done. right. split; [done|].
           intros module [->|Hin]%elem_of_cons Hl; [done|].
           rewrite <- Hother by done. by apply Hno.
    + intros [(module & [->|Hin]%elem_of_cons & Hl & Hn & Hb)|[Hold Hno]].
      * right. subst location new_locator. rewrite lookup_insert_eq.
        split; [done|]. intros module Hin Hl. by destruct (Hfresh module Hin).
      * left. exists module. by rewrite Hother.
      * right. rewrite lookup_insert_ne.
        -- split; [done|]. intros module Hin Hl.
           rewrite Hother by done. apply Hno; [by right|done].
        -- intros Heq. by apply (Hno m); [left|..].
Qed.

Section DraftPassProperties.
Variable to_json : Field → PyValue → PyValue.
Variable block_class : string → gmap string FieldKind.
Variable iteritems :
  gmap Location.t BlockUsageLocator.t → list (Location.t * BlockUsageLocator.t).
Variables (published_course_usage_key : BlockUsageLocator.t) (user_id : nat).

Let ck := draft_course published_course_usage_key.

Lemma has_item_draft_locator s v module :
  lookup_version s ck = Ok v →
  has_item s (draft_locator published_course_usage_key module)
  = bool_decide (is_Some (Version.blocks v !! block_key module)).
Proof.
  intros Hv. unfold has_item, draft_locator, make_usage_key; simpl.
  fold ck. by rewrite Hv.
Qed.

Lemma add_draft_no_branch module awaiting_adoption w e :
  lookup_version (World.split_modulestore w) ck = Raise e →
  Outcome.world
    (add_draft_module to_json block_class published_course_usage_key user_id
       module awaiting_adoption w) = w.
Proof.
  intros Hv. unfold add_draft_module.
  fold (draft_course published_course_usage_key). fold ck.
  step. unfold has_item; simpl. fold ck. rewrite Hv.
  step.
  destruct (_get_json_fields_translate_references _ _ _ _) as [fields|]; [|done].
  step. simpl. unfold create_item. by rewrite Hv.
Qed.

Lemma add_draft_loop_no_branch modules awaiting_adoption w e :
  lookup_version (World.split_modulestore w) ck = Raise e →
  Outcome.world
    (for_each modules
       (add_draft_module to_json block_class published_course_usage_key user_id)
       awaiting_adoption w) = w.
Proof.
  intros Hv. revert awaiting_adoption.
  induction modules as [|module modules IH]; intros awaiting_adoption; [done|].
  rewrite for_each_cons.
  pose proof (add_draft_no_branch module awaiting_adoption w e Hv) as Hmodule.
  unfold bind.
  destruct (add_draft_module _ _ _ _ module awaiting_adoption w)
    as [w1 lg1 [awaiting1|e1]]; simpl in *; subst w1; [|done].
  specialize (IH awaiting1).
  by destruct (for_each modules _ awaiting1 w) as [w2 lg2 r2].
Qed.

Lemma lookup_version_store_after_frame s n blocks ck' :
  course_id ck' ≠ course_id ck ∨ CourseLocator.branch ck' ≠ Some BranchName.draft →
  lookup_version (store_after s ck BranchName.draft n blocks) ck'
  = lookup_version s ck'.
Proof.
  intros Hframe. destruct (decide (course_id ck' = course_id ck)) as [Hid|Hid].
  - apply lookup_version_store_after_other; [done|]. by destruct Hframe.
  - destruct n as [|k]; [done|]. unfold lookup_version; simpl.
    destruct (CourseLocator.branch ck') as [b'|]; [|done].
    by rewrite lookup_insert_ne.
Qed.
End DraftPassProperties.

(** X8. The first loop of the draft pass leaves in the pending table
    exactly the draft modules that the destination did not have: the
    location of each, with the locator made of its category and block
    identifier on the draft branch.  A module that was found (line 117) is
    updated in place and never awaits adoption.  The draft modules have
    distinct locations and distinct (category, block identifier). *)
Theorem pending_table_holds_private_modules
    (to_json : Field → PyValue → PyValue)
    (block_class : string → gmap string FieldKind)
    (published_course_usage_key : BlockUsageLocator.t) (user_id : nat)
    (modules : list XBlock.t) (w : World.t) (v : Version.t)
    (awaiting_adoption : gmap Location.t BlockUsageLocator.t) :
  lookup_version (World.split_modulestore w)
    (draft_course published_course_usage_key) = Ok v →
  NoDup (block_key <$> modules) →
  NoDup (XBlock.location <$> modules) →
  Outcome.returned
    (for_each modules
       (add_draft_module to_json block_class published_course_usage_key user_id)
       ∅ w) = Ok awaiting_adoption →
  ∀ location new_locator,
    awaiting_adoption !! location = Some new_locator ↔
      ∃ module,
        module ∈ modules ∧ XBlock.location module = location
        ∧ new_locator
          = make_usage_key (draft_course published_course_usage_key)
              (XBlock.category module)
              (Some (Location.block_id (XBlock.location module)))
        ∧ has_item (World.split_modulestore w) new_locator = false.
Proof.
  intros Hv Hkeys Hlocs Hret location new_locator.
  destruct (add_draft_loop_run to_json block_class published_course_usage_key
              user_id modules ∅ w v Hv) as [_ Hreturned].
  rewrite Hret in Hreturned.
  destruct (run_blocks _ _ modules ∅ (Version.blocks v) 0) as [r res] eqn:Hrun.
  simpl in Hreturned. subst res.
  rewrite (add_draft_loop_pending _ _ _ _ _ _ _ _ _ _ Hkeys Hlocs Hrun).
  split.
  - intros [(module & Hin & Hl & -> & Hb)|[Hempty _]];
      [|by rewrite lookup_empty in Hempty].
    exists module. split; [done|]. split; [done|]. split; [done|].
    rewrite (has_item_draft_locator _ _ v) by done.
    rewrite bool_decide_eq_false_2; [done|]. rewrite Hb. by intros [? ?].
  - intros (module & Hin & Hl & -> & Hhas). left. exists module.
    split; [done|]. split; [done|]. split; [done|].
    change (make_usage_key _ _ _)
      with (draft_locator published_course_usage_key module) in Hhas.
    rewrite (has_item_draft_locator _ _ v) in Hhas by done.
    apply bool_decide_eq_false_1 in Hhas.
    destruct (Version.blocks v !! block_key module); [|done].
    destruct Hhas. eauto.
Qed.

Lemma pending_table_holds_private_modules_witness :
  ∃ module,
    module ∈ [Toy.v1_draft; Toy.v2]
    ∧ XBlock.location module = Toy.loc "vertical" "v2"
    ∧ ToyDraft.locator "vertical" "v2"
      = make_usage_key (draft_course ToyDraft.published_course_usage_key)
          (XBlock.category module)
          (Some (Location.block_id (XBlock.location module)))
    ∧ has_item (World.split_modulestore (ToyOrder.world [Toy.v1_draft; Toy.v2]))
        (ToyDraft.locator "vertical" "v2") = false.
Proof.
  assert (Hv : lookup_version
                 (World.split_modulestore (ToyOrder.world [Toy.v1_draft; Toy.v2]))
                 (draft_course ToyDraft.published_course_usage_key)
               = Ok (Version.mk 4 ToyDraft.published_blocks))
    by (vm_compute; reflexivity).
  assert (Hkeys : NoDup (block_key <$> [Toy.v1_draft; Toy.v2]))
    by (apply (bool_decide_unpack _); by vm_compute).
  assert (Hlocs : NoDup (XBlock.location <$> [Toy.v1_draft; Toy.v2]))
    by (apply (bool_decide_unpack _); by vm_compute).
  assert (Hlookup :
    match Outcome.returned
            (for_each [Toy.v1_draft; Toy.v2]
               (add_draft_module Toy.to_json Toy.block_class
                  ToyDraft.published_course_usage_key 7)
               ∅ (ToyOrder.world [Toy.v1_draft; Toy.v2])) with
    | Ok awaiting_adoption => awaiting_adoption !! Toy.loc "vertical" "v2"
    | Raise _ => None
    end = Some (ToyDraft.locator "vertical" "v2"))
    by (vm_compute; reflexivity).
  destruct (Outcome.returned _) as [awaiting_adoption|] eqn:Hret;
    [|discriminate Hlookup].
  exact (proj1 (pending_table_holds_private_modules Toy.to_json Toy.block_class
                  ToyDraft.published_course_usage_key 7 [Toy.v1_draft; Toy.v2]
                  (ToyOrder.world [Toy.v1_draft; Toy.v2])
                  (Version.mk 4 ToyDraft.published_blocks) awaiting_adoption
                  Hv Hkeys Hlocs Hret (Toy.loc "vertical" "v2")
                  (ToyDraft.locator "vertical" "v2")) Hlookup).
Defined.

(** X9. The draft pass writes the draft branch of the migrated course and
    nothing else: the head of any other branch, and of any branch of another
    course, is after the pass what it was before, whether the pass returns
    or raises. *)
Theorem draft_pass_writes_draft_branch_only
    (to_json : Field → PyValue → PyValue)
    (block_class : string → gmap string FieldKind)
    (iteritems : gmap Location.t BlockUsageLocator.t
                 → list (Location.t * BlockUsageLocator.t))
    (published_course_usage_key : BlockUsageLocator.t)
    (source_course_key : CourseKey.t) (user_id : nat) (w : World.t)
    (ck' : CourseLocator.t) :
  course_id ck' ≠ course_id (draft_course published_course_usage_key)
  ∨ CourseLocator.branch ck' ≠ Some BranchName.draft →
  lookup_version
    (World.split_modulestore
       (Outcome.world
          (_add_draft_modules_to_course to_json block_class iteritems
             published_course_usage_key source_course_key user_id w))) ck'
  = lookup_version (World.split_modulestore w) ck'.
Proof.
  intros Hframe.
  destruct (lookup_version (World.split_modulestore w)
              (draft_course published_course_usage_key)) as [v|e] eqn:Hv.
  - destruct (add_draft_modules_run to_json block_class iteritems
                published_course_usage_key user_id source_course_key w v Hv)
      as [-> _].
    simpl. by apply lookup_version_store_after_frame.
  - unfold _add_draft_modules_to_course. step. unfold bind.
    pose proof (add_draft_loop_no_branch to_json block_class
                  published_course_usage_key user_id
                  (SourceStore.get_items (World.source_modulestore w)
                     source_course_key draft_only) ∅ w e Hv) as Hloop1.
    destruct (for_each _ _ ∅ w) as [w1 lg1 [awaiting_adoption|e1]];
      simpl in *; subst w1; [|done].
    pose proof (adopt_loop_no_branch to_json block_class
                  published_course_usage_key user_id
                  (iteritems awaiting_adoption) w e Hv) as Hloop2.
    destruct (for_each _ _ tt w) as [w2 lg2 r2]; simpl in *. by subst w2.
Qed.

Lemma draft_pass_writes_draft_branch_only_witness :
  lookup_version
    (World.split_modulestore
       (Outcome.world
          (_add_draft_modules_to_course Toy.to_json Toy.block_class map_to_list
             ToyDraft.published_course_usage_key Toy.ck 7
             (ToyOrder.world [Toy.v2; ToyOrder.v4]))))
    Toy.new_course_key
  = lookup_version ToyOrder.store Toy.new_course_key.
Proof.
  assert (Hbranch : CourseLocator.branch Toy.new_course_key
                    ≠ Some BranchName.draft) by discriminate.
  exact (draft_pass_writes_draft_branch_only Toy.to_json Toy.block_class
           map_to_list ToyDraft.published_course_usage_key Toy.ck 7
           (ToyOrder.world [Toy.v2; ToyOrder.v4]) Toy.new_course_key
           (or_intror Hbranch)).
Defined.

(** ** The migration as a whole (lines 28-67) *)

Lemma silent_ret {A} (a : A) : silent (ret a).
Proof. done. Qed.

Lemma silent_raise {A} (e : Exn) : silent (raise (A:=A) e).
Proof. done. Qed.

Lemma silent_lift {A} (r : result A) : silent (lift r).
Proof. done. Qed.

Lemma silent_source_read {A} (f : SourceStore.t → A) : silent (source_read f).
Proof. done. Qed.

Lemma silent_split_read {A} (f : SplitStore.t → A) : silent (split_read f).
Proof. done. Qed.

Lemma silent_split_write {A} (f : SplitStore.t → result (SplitStore.t * A)) :
  silent (split_write f).
Proof.
  intros w. unfold split_write.
  by destruct (f (World.split_modulestore w)) as [[s' a]|e].
Qed.

Lemma silent_bind {A B} (m : M A) (k : A → M B) :
  silent m → (∀ a, silent (k a)) → silent (bind m k).
Proof.
  intros Hm Hk w. unfold bind.
  destruct (Outcome.returned (m w)) as [a|e] eqn:Hr; simpl.
  - by rewrite Hm, Hk.
  - apply Hm.
Qed.

Lemma silent_for_each {A S} (l : list A) (body : A → S → M S) (s : S) :
  (∀ x s, silent (body x s)) → silent (for_each l body s).
Proof.
  intros Hbody. revert s. induction l as [|x l IH]; intros s; simpl.
  - apply silent_ret.
  - apply silent_bind; [apply Hbody | apply IH].
Qed.

Create HintDb silent.
#[local] Hint Resolve silent_ret silent_raise silent_lift silent_source_read
  silent_split_read silent_split_write : silent.

Ltac silent :=
  repeat first
    [ solve [auto with silent]
    | apply silent_bind; [|intros ?]
    | apply silent_for_each; intros ? ?
    | match goal with
      | |- silent (match ?x with _ => _ end) => destruct x
      | |- silent (if ?b then _ else _) => destruct b
      | |- silent (let '(_, _) := ?p in _) => destruct p
      end ].

Lemma warns_orphans_silent {A} (m : M A) : silent m → warns_orphans m.
Proof. intros Hm w. by rewrite Hm. Qed.

Lemma warns_orphans_bind {A B} (m : M A) (k : A → M B) :
  warns_orphans m → keeps_source m → (∀ a, warns_orphans (k a)) →
  warns_orphans (bind m k).
Proof.
  intros Hm Hsource Hk w. unfold bind.
  destruct (Outcome.returned (m w)) as [a|e] eqn:Hr; simpl; [|apply Hm].
  apply Forall_app. split; [apply Hm|].
  specialize (Hk a (Outcome.world (m w))). by rewrite Hsource in Hk.
Qed.

Lemma warns_orphans_for_each {A S} (l : list A) (body : A → S → M S) (s : S) :
  (∀ x s, warns_orphans (body x s)) → (∀ x s, keeps_source (body x s)) →
  warns_orphans (for_each l body s).
Proof.
  intros Hbody Hsource. revert s. induction l as [|x l IH]; intros s; simpl.
  - apply warns_orphans_silent, silent_ret.
  - apply warns_orphans_bind; [apply Hbody | apply Hsource | apply IH].
Qed.

Section MigrationProperties.
Variable to_json : Field → PyValue → PyValue.
Variable block_class : string → gmap string FieldKind.
Variable root_block_id : string.
Variable iteritems :
  gmap Location.t BlockUsageLocator.t → list (Location.t * BlockUsageLocator.t).

Lemma silent_copy_published new_course old_course_loc source_course_key user_id :
  silent (_copy_published_modules_to_course to_json new_course old_course_loc
            source_course_key user_id).
Proof.
  unfold _copy_published_modules_to_course, copy_published_module. silent.
Qed.

Lemma silent_add_draft_module published_course_usage_key user_id module
    awaiting_adoption :
  silent (add_draft_module to_json block_class published_course_usage_key
            user_id module awaiting_adoption).
Proof. unfold add_draft_module, split_get_item. silent. Qed.

Lemma warns_orphans_adopt published_course_usage_key user_id item :
  warns_orphans
    (adopt to_json block_class published_course_usage_key user_id item tt).
Proof.
  destruct item as [draft_location new_locator]. intros w.
  destruct (SourceStore.get_parent_location (World.source_modulestore w)
              draft_location draft_preferred) as [parent_loc|] eqn:Hparent.
  - assert (Hsilent : Outcome.logged
                        (adopt to_json block_class published_course_usage_key
                           user_id (draft_location, new_locator) tt w) = []);
      [|by rewrite Hsilent].
    unfold adopt. step. rewrite Hparent.
    match goal with |- Outcome.logged (?m w) = [] => assert (silent m) as Hm end;
      [|apply Hm].
    unfold split_get_item. silent.
  - rewrite adopt_orphan by done. simpl.
    apply Forall_singleton. by exists draft_location.
Qed.

Lemma warns_orphans_add_draft published_course_usage_key source_course_key user_id :
  warns_orphans
    (_add_draft_modules_to_course to_json block_class iteritems
       published_course_usage_key source_course_key user_id).
Proof.
  unfold _add_draft_modules_to_course.
  apply warns_orphans_bind;
    [apply warns_orphans_silent, silent_source_read
    |apply keeps_source_source_read|intros modules].
  apply warns_orphans_bind.
  - apply warns_orphans_silent, silent_for_each. intros module awaiting.
    apply silent_add_draft_module.
  - apply keeps_source_for_each. intros module awaiting.
    unfold add_draft_module, split_get_item. keeps_source.
  - intros awaiting_adoption. apply warns_orphans_for_each.
    + intros item []. apply warns_orphans_adopt.
    + intros item []. apply keeps_source_adopt.
Qed.
End MigrationProperties.

(** X10. Whatever a migration logs is the warning of line 145 about a
    location that has no parent in the source store (draft-preferred): the
    migrator writes nothing else to its log, whether it returns or
    raises. *)
Theorem migration_logs_only_orphans
    (to_json : Field → PyValue → PyValue)
    (block_class : string → gmap string FieldKind) (root_block_id : string)
    (iteritems : gmap Location.t BlockUsageLocator.t
                 → list (Location.t * BlockUsageLocator.t))
    (source_course_key : CourseKey.t) (user_id : nat)
    (new_org new_course new_run : option string) (w : World.t) :
  Forall
    (λ record,
       ∃ location,
         record = Warn "No parent found in source course for %s" location
         ∧ SourceStore.get_parent_location (World.source_modulestore w)
             location draft_preferred = None)
    (Outcome.logged
       (migrate_mongo_course to_json block_class root_block_id iteritems
          source_course_key user_id new_org new_course new_run w)).
Proof.
  revert w.
  change (warns_orphans
            (migrate_mongo_course to_json block_class root_block_id iteritems
               source_course_key user_id new_org new_course new_run)).
  unfold migrate_mongo_course, bulk_write_operations.
  apply warns_orphans_bind;
    [apply warns_orphans_silent; silent|keeps_source|intros original_course].
  apply warns_orphans_bind;
    [apply warns_orphans_silent; silent|keeps_source|intros fields].
  apply warns_orphans_bind;
    [apply warns_orphans_silent; silent|keeps_source|intros new_course_block].
  apply warns_orphans_bind;
    [apply warns_orphans_silent, silent_copy_published
    |apply keeps_source_copy_published|intros _].
  apply warns_orphans_bind;
    [apply warns_orphans_add_draft|apply keeps_source_add_draft|intros _].
  apply warns_orphans_silent, silent_ret.
Qed.

(** X11. A migration whose source course cannot be loaded, or whose course
    block cannot be copied, raises that error before anything is written:
    both stores and the log are as they were (lines 46-59, where the fields
    are translated before [create_course] is called). *)
Theorem migration_needs_the_source_course
    (to_json : Field → PyValue → PyValue)
    (block_class : string → gmap string FieldKind) (root_block_id : string)
    (iteritems : gmap Location.t BlockUsageLocator.t
                 → list (Location.t * BlockUsageLocator.t))
    (source_course_key : CourseKey.t) (user_id : nat)
    (new_org new_course new_run : option string) (w : World.t) :
  let new_course_key :=
    CourseLocator.mk (default (CourseKey.org source_course_key) new_org)
      (default (CourseKey.course source_course_key) new_course)
      (default (CourseKey.run source_course_key) new_run)
      (Some BranchName.published) None in
  let o := migrate_mongo_course to_json block_class root_block_id iteritems
             source_course_key user_id new_org new_course new_run w in
  match SourceStore.get_course (World.source_modulestore w) source_course_key with
  | Raise e => o = Outcome.mk w [] (Raise e)
  | Ok original_course =>
      match _get_json_fields_translate_references to_json original_course
              new_course_key None with
      | Raise e => o = Outcome.mk w [] (Raise e)
      | Ok _ => True
      end
  end.
Proof.
  intros new_course_key o. unfold o, migrate_mongo_course.
  fold new_course_key.
  do 2 step.
  destruct (SourceStore.get_course _ _) as [original_course|e]; [|by step].
  do 2 step.
  by destruct (_get_json_fields_translate_references _ _ _ _).
Qed.

(** X12. A migration to a course that the split store already has raises
    [DuplicateItemError] (as the docstring says) and writes nothing. *)
Theorem migration_refuses_existing_course
    (to_json : Field → PyValue → PyValue)
    (block_class : string → gmap string FieldKind) (root_block_id : string)
    (iteritems : gmap Location.t BlockUsageLocator.t
                 → list (Location.t * BlockUsageLocator.t))
    (source_course_key : CourseKey.t) (user_id : nat)
    (new_org new_course new_run : option string) (w : World.t)
    (original_course : XBlock.t) :
  let org := default (CourseKey.org source_course_key) new_org in
  let course := default (CourseKey.course source_course_key) new_course in
  let run := default (CourseKey.run source_course_key) new_run in
  SourceStore.get_course (World.source_modulestore w) source_course_key
  = Ok original_course →
  is_ok (_get_json_fields_translate_references to_json original_course
           (CourseLocator.mk org course run (Some BranchName.published) None)
           None) = true →
  is_Some (SplitStore.course_index (World.split_modulestore w)
             !! (org, course, run)) →
  migrate_mongo_course to_json block_class root_block_id iteritems
    source_course_key user_id new_org new_course new_run w
  = Outcome.mk w [] (Raise DuplicateItemError).
Proof.
  intros org course run Hcourse Hfields [versions Hindex].
  unfold migrate_mongo_course. fold org course run.
  do 2 step. rewrite Hcourse. do 2 step.
  destruct (_get_json_fields_translate_references _ _ _ _) as [fields|]; [|done].
  step. unfold create_course. by rewrite Hindex.
Qed.

Lemma migration_refuses_existing_course_witness :
  migrate_mongo_course Toy.to_json Toy.block_class Toy.root_block_id map_to_list
    Toy.ck 7 None None None
    (World.mk Toy.source ToyDraft.store)
  = Outcome.mk (World.mk Toy.source ToyDraft.store) [] (Raise DuplicateItemError).
Proof.
  apply (migration_refuses_existing_course Toy.to_json Toy.block_class
           Toy.root_block_id map_to_list Toy.ck 7 None None None
           (World.mk Toy.source ToyDraft.store) Toy.course).
  - vm_compute; reflexivity.
  - vm_compute; reflexivity.
  - apply (bool_decide_unpack _). by vm_compute.
Defined.

(** X13. A migration that returns, returns the locator of the course it
    created: the org, course and run it was given (each defaulting to that
    of the source course key), the published branch, and the version
    [create_course] made; the split store had no course of that id. *)
Theorem migration_returns_new_course
    (to_json : Field → PyValue → PyValue)
    (block_class : string → gmap string FieldKind) (root_block_id : string)
    (iteritems : gmap Location.t BlockUsageLocator.t
                 → list (Location.t * BlockUsageLocator.t))
    (source_course_key : CourseKey.t) (user_id : nat)
    (new_org new_course new_run : option string) (w : World.t)
    (id : CourseLocator.t) :
  let org := default (CourseKey.org source_course_key) new_org in
  let course := default (CourseKey.course source_course_key) new_course in
  let run := default (CourseKey.run source_course_key) new_run in
  Outcome.returned
    (migrate_mongo_course to_json block_class root_block_id iteritems
       source_course_key user_id new_org new_course new_run w) = Ok id →
  id = CourseLocator.mk org course run (Some BranchName.published)
         (Some (SplitStore.next_guid (World.split_modulestore w)))
  ∧ SplitStore.course_index (World.split_modulestore w) !! (org, course, run)
    = None.
Proof.
  intros org course run Hret.
  apply migrate_returns in Hret
    as (original_course & fields & s1 & new_course_block & _ & _ & Hcreate
        & -> & _).
  fold org course run in Hcreate. unfold create_course in Hcreate.
  destruct (SplitStore.course_index _ !! _); [done|].
  by injection Hcreate as _ <-.
Qed.

Lemma migration_returns_new_course_witness :
  Toy.new_course_id
  = CourseLocator.mk "edX" "toy" "2012" (Some BranchName.published) (Some 0)
  ∧ SplitStore.course_index Toy.empty_store !! ("edX", "toy", "2012") = None.
Proof.
  assert (Hret : Outcome.returned Toy.migrated = Ok Toy.new_course_id)
    by (vm_compute; reflexivity).
  exact (migration_returns_new_course Toy.to_json Toy.block_class
           Toy.root_block_id map_to_list Toy.ck 7 None None None Toy.world
           Toy.new_course_id Hret).
Defined.

(** ** The update in place of a draft (lines 117-129) *)

Section ClearingLoop.
Variable module : XBlock.t.

Let body := λ (p : string * FieldKind) (split_module : SplitBlock.t),
  if split_is_set_on p.1 split_module then
    match XBlock.fields module !! p.1 with
    | None => Raise KeyError
    | Some _ =>
        if negb (is_set_on p.1 module)
        then Ok (delete_from p.1 split_module)
        else Ok split_module
    end
  else Ok split_module.

Lemma delete_body_keeps_set n k b b1 name :
  body (n, k) b = Ok b1 → name ≠ n →
  split_is_set_on name b1 = split_is_set_on name b.
Proof.
  intros Hbody Hname.
  destruct (delete_body_lookup module n k b b1 Hbody) as [_ Hlookup].
  destruct (Hlookup name) as [Hs Hd]. unfold split_is_set_on.
  rewrite Hs, Hd.
  by destruct (decide (name = n ∧ is_set_on name module = false)) as [[? _]|].
Qed.

Lemma delete_loop_outcome (l : list (string * FieldKind)) b :
  NoDup l.*1 →
  match for_in l body b with
  | Ok _ =>
      ∀ name, name ∈ l.*1 → split_is_set_on name b = true →
              is_Some (XBlock.fields module !! name)
  | Raise e =>
      e = KeyError
      ∧ ∃ name, name ∈ l.*1 ∧ split_is_set_on name b = true
                ∧ XBlock.fields module !! name = None
  end.
Proof.
  revert b. induction l as [|[n k] l IH]; intros b Hnd.
  { simpl. by intros name ?%elem_of_nil. }
  rewrite fmap_cons in Hnd. apply NoDup_cons in Hnd as [Hn Hnd].
  cbn [for_in]. destruct (body (n, k) b) as [b1|e] eqn:Hbody.
  - specialize (IH b1 Hnd).
    assert (Hsame : ∀ name, name ∈ l.*1 →
                      split_is_set_on name b1 = split_is_set_on name b).
    { intros name Hin. apply (delete_body_keeps_set n k); [done|].
      by intros ->. }
    destruct (for_in l body b1) as [b'|e].
    + intros name [->|Hin]%elem_of_cons Hset.
      * cbn [fst] in Hset |- *. unfold body in Hbody. simpl in Hbody.
        rewrite Hset in Hbody. by destruct (XBlock.fields module !! n).
      * apply IH; [done|]. by rewrite Hsame.
    + destruct IH as (-> & name & Hin & Hset & Hnone). split; [done|].
      exists name. rewrite <- Hsame by done. split; [by right|done].
  - unfold body in Hbody. simpl in Hbody.
    destruct (split_is_set_on n b) eqn:Hset; [|done].
    destruct (XBlock.fields module !! n) eqn:Hfield.
    + by destruct (negb _).
    + injection Hbody as <-. split; [done|]. exists n.
      split; [by left|done].
Qed.
End ClearingLoop.

(** X14. The loop that clears the fields the draft no longer sets (lines
    121-123) raises [KeyError], and nothing else, exactly when the
    destination block has an explicitly set field that its own class
    declares and the class of the legacy module does not: that is where
    [module.fields[name]] is evaluated. *)
Theorem delete_unset_fields_raises_key_error (module : XBlock.t)
    (split_module : SplitBlock.t) :
  match delete_unset_fields module split_module with
  | Ok _ =>
      ∀ name,
        is_Some (SplitBlock.fields split_module !! name) →
        split_is_set_on name split_module = true →
        is_Some (XBlock.fields module !! name)
  | Raise e =>
      e = KeyError
      ∧ ∃ name,
          is_Some (SplitBlock.fields split_module !! name)
          ∧ split_is_set_on name split_module = true
          ∧ XBlock.fields module !! name = None
  end.
Proof.
  rewrite delete_unset_fields_body.
  pose proof (delete_loop_outcome module
                (map_to_list (SplitBlock.fields split_module)) split_module
                (NoDup_fst_map_to_list _)) as Hloop.
  assert (Hin : ∀ name,
    name ∈ (map_to_list (SplitBlock.fields split_module)).*1
    ↔ is_Some (SplitBlock.fields split_module !! name)).
  { intros name. rewrite list_elem_of_fmap. split.
    - intros ([n kind] & -> & Hk%elem_of_map_to_list). eauto.
    - intros [kind Hk]. exists (name, kind). by rewrite elem_of_map_to_list. }
  destruct (for_in _ _ split_module) as [b'|e].
  - intros name Hdeclared. apply Hloop. by apply Hin.
  - destruct Hloop as (-> & name & Hname & Hset & Hnone). split; [done|].
    exists name. by rewrite <- Hin.
Qed.

Lemma serialize_json_repr to_json field v :
  serialize to_json (field, v) = relativize (json_repr to_json field v).
Proof. by destruct v. Qed.

Section CreatedThenUpdated.
Variable to_json : Field → PyValue → PyValue.
Variables (published_course_usage_key : BlockUsageLocator.t) (module : XBlock.t).

Let ck := draft_course published_course_usage_key.
Let course_block_id := BlockUsageLocator.block_id published_course_usage_key.

(** The block created from a module, updated in place from the same
    module, keeps its stored fields. *)
Lemma in_place_update_created fields location declared :
  _get_json_fields_translate_references to_json module ck course_block_id
  = Ok fields →
  in_place_update to_json published_course_usage_key module
    (SplitBlock.mk location declared (relativize <$> fields) ∅)
  = Ok (relativize <$> fields).
Proof.
  intros Hjson.
  destruct (json_copier_spec to_json module ck course_block_id)
    as (Hjlookup & Hjok & _).
  specialize (Hjlookup fields Hjson).
  assert (Hjno : ∀ name kind fv e,
    XBlock.fields module !! name = Some kind →
    XBlock.field_data module !! name = Some fv →
    json_field to_json ck course_block_id (name, kind) fv ≠ Raise e)
    by (apply Hjok; eauto).
  destruct (fields_copier_spec module ck course_block_id)
    as (Hflookup & Hfok & _).
  assert (Hraw : ∃ raw, _get_fields_translate_references module ck
                          course_block_id = Ok raw).
  { apply Hfok. intros name kind fv e Hk Hv Hraise.
    pose proof (fields_field_json_field to_json ck course_block_id (name, kind) fv)
      as Hagree.
    rewrite Hraise in Hagree. by apply (Hjno name kind fv e). }
  destruct Hraw as [raw Hraw]. specialize (Hflookup raw Hraw).
  set (b := SplitBlock.mk location declared (relativize <$> fields) ∅).
  pose proof (in_place_update_ok to_json published_course_usage_key module b
                eq_refl) as Hok.
  destruct (in_place_update to_json published_course_usage_key module b)
    as [stored'|] eqn:Hupdate.
  2:{ exfalso. assert (false = true); [|done]. apply Hok.
      - intros name _ [v Hv]. simpl in Hv. rewrite lookup_fmap in Hv.
        destruct (fields !! name) as [vj|] eqn:Hvj; [|done].
        apply Hjlookup in Hvj as (kind & fv & Hk & _). eauto.
      - fold ck course_block_id. by rewrite Hraw. }
  f_equal. apply map_eq. intros name.
  destruct (in_place_update_lookup to_json published_course_usage_key module b
              stored' eq_refl Hupdate) as (raw' & Hraw' & Hnames).
  fold ck course_block_id in Hraw'. rewrite Hraw in Hraw'.
  injection Hraw' as <-.
  destruct (Hnames name) as [Hwritten Hkept]. rewrite lookup_fmap.
  destruct (XBlock.fields module !! name) as [kind|] eqn:Hkind.
  - destruct (XBlock.field_data module !! name) as [fv|] eqn:Hfv.
    + pose proof (fields_field_json_field to_json ck course_block_id (name, kind) fv)
        as Hagree.
      destruct (fields_field ck course_block_id (name, kind) fv) as [v|e] eqn:Hv.
      * rewrite (Hwritten kind v) by (apply Hflookup; eauto).
        assert (Hvj : fields !! name = Some (json_repr to_json (name, kind) v))
          by (apply Hjlookup; eauto).
        rewrite Hvj. simpl. by rewrite serialize_json_repr.
      * by destruct (Hjno name kind fv e).
    + rewrite Hkept.
      * destruct (fields !! name) as [vj|] eqn:Hvj.
        { apply Hjlookup in Hvj as (? & ? & _ & ? & _). congruence. }
        simpl. rewrite lookup_fmap, Hvj. by destruct (decide _).
      * intros kind'. destruct (raw !! (name, kind')) as [v|] eqn:Hv; [|done].
        apply Hflookup in Hv as (? & _ & ? & _). congruence.
  - rewrite Hkept.
    + destruct (fields !! name) as [vj|] eqn:Hvj.
      { apply Hjlookup in Hvj as (? & ? & ? & _). congruence. }
      simpl. rewrite lookup_fmap, Hvj. by destruct (decide _).
    + intros kind'. destruct (raw !! (name, kind')) as [v|] eqn:Hv; [|done].
      apply Hflookup in Hv as (? & ? & _). congruence.
Qed.
End CreatedThenUpdated.

(** X15. A private draft module that the loop body has created is, when
    the body meets the same module again, found and updated in place to
    the fields it already has: creating a block from a module and then
    updating it from that module changes no block of the draft branch (the
    branch only gets a new version), and the pending table stays as the
    creation left it. *)
Theorem draft_created_then_updated
    (to_json : Field → PyValue → PyValue)
    (block_class : string → gmap string FieldKind)
    (published_course_usage_key : BlockUsageLocator.t) (user_id : nat)
    (module : XBlock.t)
    (awaiting_adoption awaiting_adoption' : gmap Location.t BlockUsageLocator.t)
    (w : World.t) (v : Version.t) :
  let ck := draft_course published_course_usage_key in
  let created :=
    add_draft_module to_json block_class published_course_usage_key user_id
      module awaiting_adoption w in
  let updated :=
    add_draft_module to_json block_class published_course_usage_key user_id
      module awaiting_adoption' (Outcome.world created) in
  lookup_version (World.split_modulestore w) ck = Ok v →
  Version.blocks v !! block_key module = None →
  Outcome.returned created = Ok awaiting_adoption' →
  Outcome.returned updated = Ok awaiting_adoption'
  ∧ ∃ v1 v2,
      lookup_version (World.split_modulestore (Outcome.world created)) ck = Ok v1
      ∧ lookup_version (World.split_modulestore (Outcome.world updated)) ck
        = Ok v2
      ∧ Version.blocks v2 = Version.blocks v1
      ∧ Version.guid v2 = S (Version.guid v1).
Proof.
  intros ck created updated Hv Hnew Hret.
  destruct (add_draft_run to_json block_class published_course_usage_key user_id
              module awaiting_adoption w v Hv) as [Hworld1 Hret1].
  fold created in Hworld1, Hret1. rewrite Hret in Hret1.
  unfold add_draft_blocks in Hworld1, Hret1. rewrite Hnew in Hworld1, Hret1.
  destruct (_get_json_fields_translate_references to_json module
              (draft_course published_course_usage_key)
              (BlockUsageLocator.block_id published_course_usage_key))
    as [fields|] eqn:Hfields; [|done].
  set (blocks1 := <[block_key module := relativize <$> fields]> (Version.blocks v))
    in *.
  assert (Hv1 : lookup_version (World.split_modulestore (Outcome.world created)) ck
                = Ok (Version.mk (SplitStore.next_guid (World.split_modulestore w))
                        blocks1)).
  { rewrite Hworld1. simpl. by apply lookup_version_write. }
  destruct (add_draft_run to_json block_class published_course_usage_key user_id
              module awaiting_adoption' (Outcome.world created) _ Hv1)
    as [Hworld2 Hret2].
  fold updated in Hworld2, Hret2. cbn [Version.blocks] in Hworld2, Hret2.
  unfold add_draft_blocks in Hworld2, Hret2.
  unfold blocks1 in Hworld2 at 1. unfold blocks1 in Hret2 at 1.
  rewrite lookup_insert_eq in Hworld2, Hret2.
  rewrite (in_place_update_created to_json published_course_usage_key module
             fields _ _ Hfields) in Hworld2, Hret2.
  split; [done|]. eexists _, _. split; [exact Hv1|]. split.
  - rewrite Hworld2. cbn [World.split_modulestore].
    by apply lookup_version_write.
  - cbn [Version.blocks Version.guid]. split.
    + unfold blocks1. by rewrite insert_insert_eq.
    + by rewrite Hworld1.
Qed.

Lemma draft_created_then_updated_witness :
  Outcome.returned
    (add_draft_module Toy.to_json Toy.block_class
       ToyDraft.published_course_usage_key 7 Toy.v2
       {[ Toy.loc "vertical" "v2" := ToyDraft.locator "vertical" "v2" ]}
       (Outcome.world
          (add_draft_module Toy.to_json Toy.block_class
             ToyDraft.published_course_usage_key 7 Toy.v2 ∅
             (ToyOrder.world [Toy.v2]))))
  = Ok {[ Toy.loc "vertical" "v2" := ToyDraft.locator "vertical" "v2" ]}.
Proof.
  assert (Hv : lookup_version (World.split_modulestore (ToyOrder.world [Toy.v2]))
                 (draft_course ToyDraft.published_course_usage_key)
               = Ok (Version.mk 4 ToyDraft.published_blocks))
    by (vm_compute; reflexivity).
  assert (Hnew : ToyDraft.published_blocks !! block_key Toy.v2 = None)
    by (vm_compute; reflexivity).
  assert (Hret : Outcome.returned
                   (add_draft_module Toy.to_json Toy.block_class
                      ToyDraft.published_course_usage_key 7 Toy.v2 ∅
                      (ToyOrder.world [Toy.v2]))
                 = Ok {[ Toy.loc "vertical" "v2" := ToyDraft.locator "vertical" "v2" ]})
    by reflexivity.
  exact (proj1 (draft_created_then_updated Toy.to_json Toy.block_class
                  ToyDraft.published_course_usage_key 7 Toy.v2 ∅ _
                  (ToyOrder.world [Toy.v2])
                  (Version.mk 4 ToyDraft.published_blocks) Hv Hnew Hret)).
Defined.

(** ** What the draft pass keeps *)

(** X16. An adoption changes the children of one block of the draft branch
    and nothing else: no block is added or removed, every other block is
    as it was, and the parent keeps every field but [children], whether
    [adopt] returns or raises. *)
Theorem adopt_changes_children_only
    (to_json : Field → PyValue → PyValue)
    (block_class : string → gmap string FieldKind)
    (published_course_usage_key : BlockUsageLocator.t) (user_id : nat)
    (item : Location.t * BlockUsageLocator.t) (w : World.t) (v : Version.t) :
  let ck := draft_course published_course_usage_key in
  let o := adopt to_json block_class published_course_usage_key user_id item tt w in
  lookup_version (World.split_modulestore w) ck = Ok v →
  ∃ v' parent_key,
    lookup_version (World.split_modulestore (Outcome.world o)) ck = Ok v'
    ∧ ∀ key,
        (key ≠ parent_key → Version.blocks v' !! key = Version.blocks v !! key)
        ∧ (is_Some (Version.blocks v' !! key) ↔ is_Some (Version.blocks v !! key))
        ∧ ∀ stored stored' name,
            Version.blocks v !! key = Some stored →
            Version.blocks v' !! key = Some stored' →
            name ≠ "children" → stored' !! name = stored !! name.
Proof.
  intros ck o Hv.
  destruct (adopt_run to_json block_class published_course_usage_key user_id
              item w v Hv) as [Hworld _].
  fold o in Hworld.
  destruct (adopt_blocks _ _ item (Version.blocks v)) as [[blocks'|]|e] eqn:Hadopt.
  - apply adopt_blocks_shape in Hadopt
      as (parent_key & stored0 & refs & cursor & Hkey & _ & ->).
    eexists _, parent_key. split.
    { rewrite Hworld. cbn [World.split_modulestore]. by apply lookup_version_write. }
    cbn [Version.blocks]. intros key.
    destruct (decide (key = parent_key)) as [->|Hne].
    + rewrite lookup_insert_eq, Hkey. split; [done|]. split; [split; eauto|].
      intros stored stored' name [= <-] [= <-] Hname.
      by rewrite lookup_insert_ne.
    + rewrite lookup_insert_ne by done. split; [done|]. split; [done|].
      intros stored stored' name Hs Hs'. congruence.
  - exists v, ("", ""). rewrite Hworld. split; [done|]. intros key.
    split; [done|]. split; [done|]. intros stored stored' name Hs Hs'. congruence.
  - exists v, ("", ""). rewrite Hworld. split; [done|]. intros key.
    split; [done|]. split; [done|]. intros stored stored' name Hs Hs'. congruence.
Qed.

Lemma adopt_changes_children_only_witness :
  ∃ v',
    lookup_version (World.split_modulestore (Outcome.world ToyDraft.adopted))
      (draft_course ToyDraft.published_course_usage_key) = Ok v'
    ∧ is_Some (Version.blocks v' !! ("vertical", "v1")).
Proof.
  assert (Hv : lookup_version (World.split_modulestore ToyDraft.world)
                 (draft_course ToyDraft.published_course_usage_key)
               = Ok (Version.mk 5 ToyDraft.draft_blocks))
    by (vm_compute; reflexivity).
  assert (Hin : is_Some (ToyDraft.draft_blocks !! ("vertical", "v1")))
    by (apply (bool_decide_unpack _); by vm_compute).
  destruct (adopt_changes_children_only Toy.to_json Toy.block_class
              ToyDraft.published_course_usage_key 7
              (Toy.loc "vertical" "v2", ToyDraft.locator "vertical" "v2")
              ToyDraft.world (Version.mk 5 ToyDraft.draft_blocks) Hv)
    as (v' & parent_key & Hv' & Hkeep).
  exists v'. split; [exact Hv'|].
  destruct (Hkeep ("vertical", "v1")) as (_ & Hdom & _). by apply Hdom.
Defined.

Lemma add_draft_loop_keeps_blocks to_json block_class published_course_usage_key
    source modules awaiting_adoption blocks n key :
  is_Some (blocks !! key) →
  is_Some ((run_blocks
              (add_draft_blocks to_json block_class published_course_usage_key)
              source modules awaiting_adoption blocks n).1.1 !! key).
Proof.
  revert awaiting_adoption blocks n.
  induction modules as [|module modules IH]; intros awaiting_adoption blocks n Hkey;
    [done|].
  rewrite run_blocks_cons.
  destruct (add_draft_blocks _ _ _ _ module awaiting_adoption blocks)
    as [[awaiting1 o1]|] eqn:Hstep; [|done].
  apply IH. unfold add_draft_blocks in Hstep.
  destruct (blocks !! block_key module) as [stored|] eqn:Hmodule.
  - destruct (in_place_update _ _ _ _); [|done]. injection Hstep as _ <-.
    simpl. destruct (decide (block_key module = key)) as [<-|Hne].
    + rewrite lookup_insert_eq. eauto.
    + by rewrite lookup_insert_ne.
  - destruct (_get_json_fields_translate_references _ _ _ _); [|done].
    injection Hstep as _ <-. simpl.
    destruct (decide (block_key module = key)) as [<-|Hne].
    + rewrite lookup_insert_eq. eauto.
    + by rewrite lookup_insert_ne.
Qed.

(** A block of the draft branch is still there after the draft pass. *)
Lemma draft_pass_has_item
    (to_json : Field → PyValue → PyValue)
    (block_class : string → gmap string FieldKind)
    (iteritems : gmap Location.t BlockUsageLocator.t
                 → list (Location.t * BlockUsageLocator.t))
    (published_course_usage_key : BlockUsageLocator.t)
    (source_course_key : CourseKey.t) (user_id : nat) (w : World.t)
    (location : BlockUsageLocator.t) :
  let o := _add_draft_modules_to_course to_json block_class iteritems
             published_course_usage_key source_course_key user_id w in
  BlockUsageLocator.course_key location
  = draft_course published_course_usage_key →
  has_item (World.split_modulestore w) location = true →
  has_item (World.split_modulestore (Outcome.world o)) location = true.
Proof.
  intros o Hck Hhas.
  apply (has_item_head published_course_usage_key) in Hhas as (v & Hv & Hexists);
    [|done].
  destruct (add_draft_modules_run to_json block_class iteritems
              published_course_usage_key user_id source_course_key w v Hv)
    as [Hworld _].
  fold o in Hworld.
  pose proof (run_blocks_no_write
                (add_draft_blocks to_json block_class published_course_usage_key)
                (World.source_modulestore w)
                (SourceStore.get_items (World.source_modulestore w)
                   source_course_key draft_only) ∅ (Version.blocks v)) as Hno1.
  pose proof (add_draft_loop_keeps_blocks to_json block_class
                published_course_usage_key (World.source_modulestore w)
                (SourceStore.get_items (World.source_modulestore w)
                   source_course_key draft_only) ∅ (Version.blocks v) 0) as Hkeep1.
  unfold draft_pass_blocks in Hworld.
  destruct (run_blocks _ _ _ ∅ (Version.blocks v) 0) as [[blocks1 n1] r1];
    cbn [fst snd] in *.
  assert (Hfinal : ∃ blocks2 n2,
            Outcome.world o
            = World.mk (World.source_modulestore w)
                (store_after (World.split_modulestore w)
                   (draft_course published_course_usage_key) BranchName.draft
                   n2 blocks2)
            ∧ (n2 = 0 → blocks2 = Version.blocks v)
            ∧ ∀ key, is_Some (Version.blocks v !! key) → is_Some (blocks2 !! key)).
  { destruct r1 as [awaiting_adoption|e].
    - pose proof (adopt_loop_adopted_from (World.source_modulestore w)
                    published_course_usage_key (iteritems awaiting_adoption)
                    blocks1 0) as [Hdom _].
      pose proof (run_blocks_no_write (adopt_step published_course_usage_key)
                    (World.source_modulestore w) (iteritems awaiting_adoption) tt
                    blocks1) as Hno2.
      destruct (run_blocks _ _ (iteritems awaiting_adoption) tt blocks1 0)
        as [[blocks2 n2] r2]; cbn [fst snd] in *.
      exists blocks2, (n1 + n2). split; [done|]. split.
      + intros Hzero. rewrite Hno2 by lia. apply Hno1. lia.
      + intros key Hkey. apply Hdom. by apply Hkeep1.
    - exists blocks1, n1. cbn [fst snd] in Hworld. by repeat split. }
  destruct Hfinal as (blocks2 & n2 & Hworld' & Hsame & Hkeep).
  destruct (lookup_version_store_after_head (World.split_modulestore w)
              (draft_course published_course_usage_key) BranchName.draft v n2
              blocks2) as [g Hv2]; [done|done|done|].
  apply (has_item_head published_course_usage_key); [done|].
  eexists. rewrite Hworld'. split; [exact Hv2|].
  cbn [Version.blocks]. unfold ref_exists in *.
  destruct (block_ref location).2 as [bid|]; [|done].
  apply bool_decide_eq_true_2, Hkeep. by apply bool_decide_eq_true_1 in Hexists.
Qed.

(** X17. The draft pass never removes a block: whatever block the draft
    branch held before the pass it holds after it, whether the pass returns
    or raises. *)
Theorem draft_pass_keeps_blocks
    (to_json : Field → PyValue → PyValue)
    (block_class : string → gmap string FieldKind)
    (iteritems : gmap Location.t BlockUsageLocator.t
                 → list (Location.t * BlockUsageLocator.t))
    (published_course_usage_key : BlockUsageLocator.t)
    (source_course_key : CourseKey.t) (user_id : nat) (w : World.t)
    (location : BlockUsageLocator.t) :
  let o := _add_draft_modules_to_course to_json block_class iteritems
             published_course_usage_key source_course_key user_id w in
  BlockUsageLocator.course_key location
  = draft_course published_course_usage_key →
  has_item (World.split_modulestore w) location = true →
  has_item (World.split_modulestore (Outcome.world o)) location = true.
Proof.
  apply draft_pass_has_item.
Qed.

Lemma draft_pass_keeps_blocks_witness :
  has_item
    (World.split_modulestore
       (Outcome.world
          (_add_draft_modules_to_course Toy.to_json Toy.block_class map_to_list
             ToyDraft.published_course_usage_key Toy.ck 7
             (ToyOrder.world [Toy.v2; ToyOrder.v4]))))
    (ToyDraft.locator "vertical" "v3") = true.
Proof.
  assert (Hhas : has_item
                   (World.split_modulestore (ToyOrder.world [Toy.v2; ToyOrder.v4]))
                   (ToyDraft.locator "vertical" "v3") = true)
    by (vm_compute; reflexivity).
  exact (draft_pass_keeps_blocks Toy.to_json Toy.block_class map_to_list
           ToyDraft.published_course_usage_key Toy.ck 7
           (ToyOrder.world [Toy.v2; ToyOrder.v4])
           (ToyDraft.locator "vertical" "v3") eq_refl Hhas).
Defined.

(** ** The two branches after a migration *)

Section MigratedBranches.
Variable to_json : Field → PyValue → PyValue.
Variable block_class : string → gmap string FieldKind.
Variable root_block_id : string.
Variable iteritems :
  gmap Location.t BlockUsageLocator.t → list (Location.t * BlockUsageLocator.t).
Variables (source_course_key : CourseKey.t) (user_id : nat).
Variables (new_org new_course new_run : option string).

Let migrate :=
  migrate_mongo_course to_json block_class root_block_id iteritems
    source_course_key user_id new_org new_course new_run.

(** The heads of the two branches after a returning migration: the
    published head is the repaired copy, and the draft branch holds every
    block of the copy. *)
Lemma migrate_branches w id :
  Outcome.returned (migrate w) = Ok id →
  ∃ blocks1 g,
    CourseLocator.branch id = Some BranchName.published
    ∧ lookup_version (World.split_modulestore (Outcome.world (migrate w))) id
      = Ok (Version.mk g (clean_block blocks1 <$> blocks1))
    ∧ ∀ category bid,
        is_Some (blocks1 !! (category, bid)) →
        has_item (World.split_modulestore (Outcome.world (migrate w)))
          (make_usage_key (for_branch id BranchName.draft) category (Some bid))
        = true.
Proof.
  unfold migrate.
  intros (original_course & fields & s1 & new_course_block & Hcourse & Hfields
          & Hcreate & -> & Hcopy & Hdraft & ->)%migrate_returns.
  unfold create_course in Hcreate.
  destruct (SplitStore.course_index (World.split_modulestore w) !! _); [done|].
  injection Hcreate as Hs1 Hblock.
  set (guid := SplitStore.next_guid (World.split_modulestore w)) in *.
  match type of Hblock with
  | SplitBlock.mk (make_usage_key ?c _ _) _ _ _ = _ => set (ck := c) in *
  end.
  match type of Hs1 with
  | context [Version.mk guid ?b] => set (blocks0 := b : Structure) in *
  end.
  assert (Hid : SplitBlock.id new_course_block = ck) by (by rewrite <- Hblock).
  assert (Hv1 : lookup_version s1 (SplitBlock.id new_course_block)
                = Ok (Version.mk guid blocks0)).
  { rewrite Hid, <- Hs1. unfold lookup_version; simpl.
    by rewrite lookup_insert_eq, lookup_singleton_eq. }
  destruct (copy_published_modules_run to_json new_course_block
              (XBlock.location original_course) source_course_key user_id
              (ltac:(by rewrite Hid))
              (World.mk (World.source_modulestore w) s1) _ Hv1 Hcopy)
    as (_ & _ & g & g' & Hpublished & Hdraft_head).
  cbn [World.source_modulestore World.split_modulestore Version.blocks]
    in Hpublished, Hdraft_head.
  destruct (run_blocks _ _ _ tt blocks0 0) as [[blocks1 n] r1].
  cbn [fst snd] in *.
  set (w2 := Outcome.world
               (_copy_published_modules_to_course to_json new_course_block
                  (XBlock.location original_course) source_course_key user_id
                  (World.mk (World.source_modulestore w) s1))) in *.
  exists blocks1, g. split; [by rewrite Hid|]. split.
  - destruct (add_draft_modules_run to_json block_class iteritems
                (SplitBlock.location new_course_block) user_id source_course_key
                w2 _ Hdraft_head) as [-> _].
    cbn [World.split_modulestore].
    rewrite lookup_version_store_after_other; [done|done|].
    rewrite Hid. simpl. by intros [=].
  - intros category bid Hin.
    apply (draft_pass_has_item to_json block_class iteritems
             (SplitBlock.location new_course_block) source_course_key user_id w2);
      [done|].
    unfold has_item, make_usage_key.
    cbn [BlockUsageLocator.course_key]. rewrite Hdraft_head.
    unfold ref_exists, block_ref. simpl. by apply bool_decide_eq_true_2.
Qed.
End MigratedBranches.

(** X18. After a migration that returns, the draft branch holds every block
    of the published branch: the draft branch starts as the published copy
    (lines 96-99) and the draft pass removes nothing. *)
Theorem migrated_draft_holds_published
    (to_json : Field → PyValue → PyValue)
    (block_class : string → gmap string FieldKind) (root_block_id : string)
    (iteritems : gmap Location.t BlockUsageLocator.t
                 → list (Location.t * BlockUsageLocator.t))
    (source_course_key : CourseKey.t) (user_id : nat)
    (new_org new_course new_run : option string) (w : World.t)
    (id : CourseLocator.t) (category : string) (block_id : option string) :
  let o := migrate_mongo_course to_json block_class root_block_id iteritems
             source_course_key user_id new_org new_course new_run w in
  Outcome.returned o = Ok id →
  has_item (World.split_modulestore (Outcome.world o))
    (make_usage_key id category block_id) = true →
  has_item (World.split_modulestore (Outcome.world o))
    (make_usage_key (for_branch id BranchName.draft) category block_id) = true.
Proof.
  intros o Hret Hhas.
  destruct (migrate_branches to_json block_class root_block_id iteritems
              source_course_key user_id new_org new_course new_run w id Hret)
    as (blocks1 & g & Hbranch & Hpublished & Hdraft).
  fold o in Hpublished, Hdraft.
  unfold has_item, make_usage_key in Hhas.
  cbn [BlockUsageLocator.course_key] in Hhas. rewrite Hpublished in Hhas.
  unfold ref_exists, block_ref in Hhas. simpl in Hhas.
  destruct block_id as [bid|]; [|done].
  apply bool_decide_eq_true_1 in Hhas. rewrite lookup_fmap in Hhas.
  apply Hdraft. by apply fmap_is_Some in Hhas.
Qed.

Lemma migrated_draft_holds_published_witness :
  has_item (World.split_modulestore (Outcome.world Toy.migrated))
    (make_usage_key (for_branch Toy.new_course_id BranchName.draft) "vertical"
       (Some "v3")) = true.
Proof.
  assert (Hret : Outcome.returned Toy.migrated = Ok Toy.new_course_id)
    by (vm_compute; reflexivity).
  assert (Hhas : has_item (World.split_modulestore (Outcome.world Toy.migrated))
                   (make_usage_key Toy.new_course_id "vertical" (Some "v3")) = true)
    by (vm_compute; reflexivity).
  exact (migrated_draft_holds_published Toy.to_json Toy.block_class
           Toy.root_block_id map_to_list Toy.ck 7 None None None Toy.world
           Toy.new_course_id "vertical" (Some "v3") Hret Hhas).
Defined.

